(** * Indexing and hybrid retrieval pipeline: a shallow embedding

    The Python sources of the documentation assistant are embedded as Rocq
    functions, module by module:

    - [Py]         the fragments of Python semantics the code relies on
                   (slices, [while], insertion-ordered dicts, stable sort);
    - [Config]     config/settings.py;
    - [Str], [Re]  the string methods and the fragment of the [re] module
                   used by the guardrails;
    - [Chunker]    ingestion/chunker.py;
    - [Num]        the arithmetic of [float], exact and binary64;
    - [Validator]  guardrails/validator.py;
    - [Md5]        hashlib.md5;
    - [Indexer]    ingestion/indexer.py ([_generate_chunk_id], [_process_file]);
    - [VectorDB]   storage/db.py, over an in-memory table;
    - [Retriever]  retrieval/retriever.py;
    - [Embedder]   retrieval/embedder.py ([embed_batch]);
    - [Prompts], [Orchestrator]
                   orchestration/prompts.py and orchestration/orchestrator.py;
    - [Parser]     ingestion/parser.py.

    Text is a sequence of code points below 256 (Rocq's [string]); integers
    are [Z]; a loop that may fail to terminate is run with an iteration budget
    and returns [None] when the budget is exhausted. *)

From Stdlib Require Import ZArith List Bool Lia Arith.
From Stdlib Require Import Strings.String Strings.Ascii Numbers.DecimalString.
From Stdlib Require Import QArith Lqa Sorting.Sorted.
From Stdlib Require Floats.
Import ListNotations.

Set Implicit Arguments.
Local Open Scope Z_scope.

(* ------------------------------------------------------------------ *)
(** ** Python semantics used by the sources *)

Module Py.

(** [len(l)] *)
Definition len {A : Type} (l : list A) : Z := Z.of_nat (List.length l).

(** Clamping of one slice bound against a sequence of length [n]. *)
Definition norm_index (n i : Z) : Z :=
  if i <? 0 then Z.max 0 (i + n) else Z.min i n.

(** [l[start:stop]], negative bounds counting from the end. *)
Definition slice {A : Type} (l : list A) (start stop : Z) : list A :=
  let n := len l in
  let s := norm_index n start in
  let e := norm_index n stop in
  firstn (Z.to_nat (e - s)) (skipn (Z.to_nat s) l).

(** [l[:stop]] *)
Definition slice_to {A : Type} (l : list A) (stop : Z) : list A :=
  slice l 0 stop.

(** [while cond(st): st = body(st)], at most [fuel] tests of the condition;
    [None] when the loop is still running after them. *)
Fixpoint while {S : Type} (fuel : nat) (cond : S -> bool) (body : S -> S)
         (st : S) : option S :=
  match fuel with
  | O => None
  | Datatypes.S fuel' =>
      if cond st then while fuel' cond body (body st) else Some st
  end.

(** Truth value of a string and of an optional string. *)
Definition truthy (s : string) : bool :=
  match s with EmptyString => false | _ => true end.

Definition truthy_opt (o : option string) : bool :=
  match o with None => false | Some s => truthy s end.

(** [sep.join(parts)] *)
Fixpoint join (sep : string) (parts : list string) : string :=
  match parts with
  | [] => EmptyString
  | [p] => p
  | p :: rest => (p ++ sep ++ join sep rest)%string
  end.

(** A [dict] with string keys: the entries in insertion order. *)
Definition dict (V : Type) : Type := list (string * V).

Definition keys {V : Type} (d : dict V) : list string := map fst d.

(** [d.get(k)] *)
Fixpoint get {V : Type} (d : dict V) (k : string) : option V :=
  match d with
  | [] => None
  | (k', v) :: d' => if String.eqb k' k then Some v else get d' k
  end.

(** [k in d] *)
Definition contains {V : Type} (d : dict V) (k : string) : bool :=
  match get d k with Some _ => true | None => false end.

(** [d[k] = v]: a key already there keeps its place. *)
Fixpoint set {V : Type} (d : dict V) (k : string) (v : V) : dict V :=
  match d with
  | [] => [(k, v)]
  | (k', v') :: d' =>
      if String.eqb k' k then (k', v) :: d' else (k', v') :: set d' k v
  end.

(** [d[k] = f(d[k])] on a [defaultdict] whose default value is [dflt]. *)
Fixpoint update {V : Type} (dflt : V) (f : V -> V) (d : dict V) (k : string)
  : dict V :=
  match d with
  | [] => [(k, f dflt)]
  | (k', v') :: d' =>
      if String.eqb k' k then (k', f v') :: d'
      else (k', v') :: update dflt f d' k
  end.

(** The keys of a dict after an insertion under [k]: a new key goes last. *)
Definition add_key (ks : list string) (k : string) : list string :=
  if existsb (String.eqb k) ks then ks else ks ++ [k].

(** [enumerate(l, n)] *)
Fixpoint enumerate {A : Type} (l : list A) (n : Z) : list (Z * A) :=
  match l with
  | [] => []
  | x :: l' => (n, x) :: enumerate l' (n + 1)
  end.

(** A sequence cut into pages of [page_size] elements, the last one
    possibly shorter; [page] is the page being filled. *)
Fixpoint paginate {T : Type} (page_size : nat) (page : list T) (l : list T)
  : list (list T) :=
  match l with
  | [] => match page with [] => [] | _ => [page] end
  | x :: l' =>
      let page' := page ++ [x] in
      if (List.length page' =? page_size)%nat
      then page' :: paginate page_size [] l'
      else paginate page_size page' l'
  end.

(** A stable sort: [x] goes in front of the first element that is not
    strictly before it.  [sorted(l, key=f)] is [sorted_by] with
    [before a b := f a < f b], and [sorted(l, key=f, reverse=True)] with
    [before a b := f b < f a]; Python's sort is stable in both directions,
    and on keys that [<] orders totally every stable sort gives this
    list. *)
Fixpoint insert_by {A : Type} (before : A -> A -> bool) (x : A) (l : list A)
  : list A :=
  match l with
  | [] => [x]
  | y :: l' => if before y x then y :: insert_by before x l' else x :: l
  end.

Definition sorted_by {A : Type} (before : A -> A -> bool) (l : list A) : list A :=
  fold_right (insert_by before) [] l.

(** Exceptions raised by the modelled code. *)
Inductive exn : Type :=
  | ValueError (msg : string)
  | KeyError (key : string)
  | DatabaseError (msg : string).

Inductive result (A : Type) : Type :=
  | Ok (a : A)
  | Raise (e : exn).
Arguments Ok {A} a.
Arguments Raise {A} e.

(** Sequencing of calls that may raise. *)
Definition bind {A B : Type} (m : result A) (k : A -> result B) : result B :=
  match m with
  | Ok a => k a
  | Raise e => Raise e
  end.

(** A comprehension whose body may raise. *)
Fixpoint traverse {A B : Type} (f : A -> result B) (l : list A) : result (list B) :=
  match l with
  | [] => Ok []
  | x :: l' => bind (f x) (fun y => bind (traverse f l') (fun ys => Ok (y :: ys)))
  end.

End Py.

(* ------------------------------------------------------------------ *)
(** ** config/settings.py *)

Module Config.

Record GitHubConfig := {
    token : string;
    repos : list string;
    max_file_size_mb : Z
  }.

Record LLMConfig := {
    api_key : string;
    model : string;
    max_tokens : Z;
    embedding_model : string
  }.

Record ChunkingConfig := {
    chunk_size : Z;
    chunk_overlap : Z
  }.

Record DatabaseConfig := { url : string }.

Record Settings := {
    github : GitHubConfig;
    llm : LLMConfig;
    chunking : ChunkingConfig;
    database : DatabaseConfig
  }.

(** The defaults of [ChunkingConfig]. *)
Definition default_chunking : ChunkingConfig :=
  {| chunk_size := 512; chunk_overlap := 50 |}.



End Config.

(* ------------------------------------------------------------------ *)
(** ** Strings and the [re] module, as far as the guardrails use them *)

Module Str.

Definition code (c : ascii) : N := N_of_ascii c.

Definition between (lo hi : N) (c : ascii) : bool :=
  ((lo <=? code c) && (code c <=? hi))%N.

(** [str.isspace] on one character; also the class [\s]. *)
Definition is_space (c : ascii) : bool :=
  between 9 13 c || between 28 32 c || (code c =? 133)%N || (code c =? 160)%N.

(** The class [\w]: letters, digits and the underscore. *)
Definition is_word (c : ascii) : bool :=
  between 48 57 c || between 65 90 c || (code c =? 95)%N || between 97 122 c
  || (code c =? 170)%N || between 178 179 c || (code c =? 181)%N
  || between 185 186 c || between 188 190 c || between 192 214 c
  || between 216 246 c || between 248 255 c.

(** [str.lower] on one character. *)
Definition lower_char (c : ascii) : ascii :=
  if between 65 90 c || between 192 214 c || between 216 222 c
  then ascii_of_N (code c + 32) else c.

(** [s.lower()] *)
Fixpoint lower (s : string) : string :=
  match s with
  | EmptyString => EmptyString
  | String c s' => String (lower_char c) (lower s')
  end.

(** [needle in hay] *)
Fixpoint contains (needle hay : string) : bool :=
  if String.prefix needle hay then true
  else match hay with
       | EmptyString => false
       | String _ hay' => contains needle hay'
       end.

Fixpoint lstrip (s : string) : string :=
  match s with
  | String c s' => if is_space c then lstrip s' else s
  | EmptyString => EmptyString
  end.

Fixpoint rstrip (s : string) : string :=
  match s with
  | EmptyString => EmptyString
  | String c s' =>
      match rstrip s' with
      | EmptyString => if is_space c then EmptyString else String c EmptyString
      | rest => String c rest
      end
  end.

(** [s.strip()] *)
Definition strip (s : string) : string := rstrip (lstrip s).

(** [s.replace(old, new)] for a one-character [old]. *)
Fixpoint replace_char (old : ascii) (new : string) (s : string) : string :=
  match s with
  | EmptyString => EmptyString
  | String c s' =>
      if Ascii.eqb c old then (new ++ replace_char old new s')%string
      else String c (replace_char old new s')
  end.

(** [str(n)] for an integer. *)
Definition of_Z (n : Z) : string := NilZero.string_of_int (Z.to_int n).

(** [len(s)] *)
Definition len (s : string) : Z := Z.of_nat (String.length s).

(** A text of [n] letters, for the examples. *)
Fixpoint letters (n : nat) : string :=
  match n with
  | O => EmptyString
  | S n' => String "a"%char (letters n')
  end.

End Str.

Module Re.

(** Sets of characters: a literal, [\w], [\s], or a bracket [[...]] of
    those. *)
Inductive charset : Type :=
  | Lit (c : ascii)
  | Word
  | Space
  | Union (a b : charset).

(** The patterns of the validator are sequences of these items. *)
Inductive atom : Type :=
  | One (cs : charset)        (* a character of the set *)
  | Star (cs : charset)       (* greedy [*] on a set *)
  | Plus (cs : charset)       (* greedy [+] on a set *)
  | GroupOpen                 (* [(] *)
  | GroupClose                (* [)] *)
  | Eos.                      (* [$] *)

Definition regex : Type := list atom.

(** A literal string inside a pattern. *)
Fixpoint lits (s : string) : regex :=
  match s with
  | EmptyString => []
  | String c s' => One (Lit c) :: lits s'
  end.

(** Membership in a set; [icase] is the IGNORECASE flag. *)
Fixpoint mem (icase : bool) (cs : charset) (c : ascii) : bool :=
  match cs with
  | Lit p => if icase then Ascii.eqb (Str.lower_char c) (Str.lower_char p)
             else Ascii.eqb c p
  | Word => Str.is_word c
  | Space => Str.is_space c
  | Union a b => mem icase a c || mem icase b c
  end.

(** The group being captured: whether it is open, and its text so far. *)
Definition capture : Type := (bool * string)%type.

Definition push (cap : capture) (c : ascii) : capture :=
  if fst cap then (true, (snd cap ++ String c EmptyString)%string) else cap.

(** [$] matches at the end of the string and before a final newline. *)
Definition at_end (s : string) : bool :=
  match s with
  | EmptyString => true
  | String c EmptyString => Ascii.eqb c "010"%char
  | _ => false
  end.

(** A backtracking match of [r] at the start of [s]: the text of group 1
    and what is left of [s] after the match.  Greedy items try the longest
    run first and give characters back one at a time. *)
Fixpoint match_here (icase : bool) (r : regex) (s : string) (cap : capture)
  : option (string * string) :=
  match r with
  | [] => Some (snd cap, s)
  | One cs :: r' =>
      match s with
      | String c s' =>
          if mem icase cs c then match_here icase r' s' (push cap c) else None
      | EmptyString => None
      end
  | Star cs :: r' =>
      (fix star (s : string) (cap : capture) : option (string * string) :=
         match s with
         | String c s' =>
             if mem icase cs c then
               match star s' (push cap c) with
               | Some m => Some m
               | None => match_here icase r' s cap
               end
             else match_here icase r' s cap
         | EmptyString => match_here icase r' s cap
         end) s cap
  | Plus cs :: r' =>
      match s with
      | String c s' =>
          if mem icase cs c then
            (fix star (s : string) (cap : capture) : option (string * string) :=
               match s with
               | String c s' =>
                   if mem icase cs c then
                     match star s' (push cap c) with
                     | Some m => Some m
                     | None => match_here icase r' s cap
                     end
                   else match_here icase r' s cap
               | EmptyString => match_here icase r' s cap
               end) s' (push cap c)
          else None
      | EmptyString => None
      end
  | GroupOpen :: r' => match_here icase r' s (true, EmptyString)
  | GroupClose :: r' => match_here icase r' s (false, snd cap)
  | Eos :: r' => if at_end s then match_here icase r' s cap else None
  end.

(** The loop of a greedy item inside [match_here], the rest of the match
    being [k]. *)
Section Greedy.
Variable icase : bool.
Variable cs : charset.
Variable k : string -> capture -> option (string * string).

Fixpoint star_run (s : string) (cap : capture) : option (string * string) :=
  match s with
  | String c s' =>
      if mem icase cs c then
        match star_run s' (push cap c) with
        | Some m => Some m
        | None => k s cap
        end
      else k s cap
  | EmptyString => k s cap
  end.

End Greedy.

(** What a match of a subject [s] under the pending capture [cap] may
    report: the text left is a suffix of [s], and the group is the pending
    capture extended by matched text, or a piece of the matched text. *)
Definition reports (s : string) (cap : capture) (g rest : string) : Prop :=
  exists m, s = (m ++ rest)%string
    /\ ((exists p q, m = (p ++ q)%string /\ g = (snd cap ++ p)%string
                     /\ (fst cap = false -> p = EmptyString))
        \/ (exists u p q, m = (u ++ p ++ q)%string /\ g = p)).

(** Every character of [w] is in the set. *)
Fixpoint all_in (icase : bool) (cs : charset) (w : string) : bool :=
  match w with
  | EmptyString => true
  | String c w' => mem icase cs c && all_in icase cs w'
  end.

(** The capture after the characters of [w]. *)
Fixpoint push_all (cap : capture) (w : string) : capture :=
  match w with
  | EmptyString => cap
  | String c w' => push_all (push cap c) w'
  end.

(** What a pattern means: [r] matches the text [m] standing before [rest]
    and leaves [g] as the text of group 1, the capture being [cap] when the
    match starts. *)
Fixpoint denotes (icase : bool) (r : regex) (cap : capture)
         (m g rest : string) : Prop :=
  match r with
  | [] => m = EmptyString /\ g = snd cap
  | One cs :: r' =>
      exists c m', m = String c m' /\ mem icase cs c = true
                   /\ denotes icase r' (push cap c) m' g rest
  | Star cs :: r' =>
      exists w m', m = (w ++ m')%string /\ all_in icase cs w = true
                   /\ denotes icase r' (push_all cap w) m' g rest
  | Plus cs :: r' =>
      exists c w m', m = String c (w ++ m')%string /\ mem icase cs c = true
                     /\ all_in icase cs w = true
                     /\ denotes icase r' (push_all (push cap c) w) m' g rest
  | GroupOpen :: r' => denotes icase r' (true, EmptyString) m g rest
  | GroupClose :: r' => denotes icase r' (false, snd cap) m g rest
  | Eos :: r' => at_end (m ++ rest)%string = true /\ denotes icase r' cap m g rest
  end.

Definition no_capture : capture := (false, EmptyString).

(** [re.search(r, s)] as a truth value: a match somewhere in [s]. *)
Fixpoint search (icase : bool) (r : regex) (s : string) : bool :=
  match match_here icase r s no_capture with
  | Some _ => true
  | None =>
      match s with
      | EmptyString => false
      | String _ s' => search icase r s'
      end
  end.

(** [re.findall(r, s)] for a pattern with one group whose matches are not
    empty: the group of each match, leftmost first, the scan resuming
    where the previous match ended.  [skip] counts the characters of [s]
    still inside the previous match. *)
Fixpoint findall_from (r : regex) (s : string) (skip : nat) : list string :=
  match s with
  | EmptyString => []
  | String _ s' =>
      match skip with
      | S k => findall_from r s' k
      | O =>
          match match_here false r s no_capture with
          | Some (g, rest) =>
              g :: findall_from r s' (String.length s' - String.length rest)
          | None => findall_from r s' 0
          end
      end
  end.

Definition findall (r : regex) (s : string) : list string := findall_from r s 0.

End Re.
(* ------------------------------------------------------------------ *)
(** ** ingestion/chunker.py *)

Module Chunker.

(** The tokenizer ([tiktoken]'s cl100k_base) is an external collaborator:
    an encoder and a decoder over some type of tokens. *)
Record Encoding (token : Type) := {
    encode : string -> list token;
    decode : list token -> string
  }.

Record TextChunker (token : Type) := {
    chunk_size : Z;
    chunk_overlap : Z;
    encoding : Encoding token
  }.

(** [TextChunker.__init__]: copies the two settings, checks nothing. *)
Definition init {token : Type} (settings : Config.Settings)
           (enc : Encoding token) : Py.result (TextChunker token) :=
  Py.Ok {| chunk_size := Config.chunk_size (Config.chunking settings);
           chunk_overlap := Config.chunk_overlap (Config.chunking settings);
           encoding := enc |}.

(** The variables of the [while] loop of [chunk_text]. *)
Record loop_state := { start : Z; chunks : list string }.

Section ChunkText.
Context {token : Type} (self : TextChunker token).

Definition loop_cond (tokens : list token) (st : loop_state) : bool :=
  start st <? Py.len tokens.

Definition loop_body (tokens : list token) (st : loop_state) : loop_state :=
  let end_ := start st + chunk_size self in
  let chunk_tokens := Py.slice tokens (start st) end_ in
  let chunk_text := decode (encoding self) chunk_tokens in
  {| start := end_ - chunk_overlap self;
     chunks := chunks st ++ [chunk_text] |}.

(** [chunk_text], with a budget of loop iterations. *)
Definition chunk_text (fuel : nat) (text : string) : option (list string) :=
  let tokens := encode (encoding self) text in
  if Py.len tokens <=? chunk_size self then Some [text]
  else
    option_map chunks
      (Py.while fuel (loop_cond tokens) (loop_body tokens)
                {| start := 0; chunks := [] |}).

(** The token windows behind the chunks: the [k] first windows of the
    sliding scheme, window [i] starting at [i * (chunk_size -
    chunk_overlap)]. *)
Definition window (tokens : list token) (i : nat) : list token :=
  let s := Z.of_nat i * (chunk_size self - chunk_overlap self) in
  Py.slice tokens s (s + chunk_size self).

Definition windows (tokens : list token) (k : nat) : list (list token) :=
  map (window tokens) (seq 0 k).

(** The loop variables after [k] iterations. *)
Definition after (tokens : list token) (k : nat) : loop_state :=
  {| start := Z.of_nat k * (chunk_size self - chunk_overlap self);
     chunks := map (decode (encoding self)) (windows tokens k) |}.

End ChunkText.


(** A stand-in tokenizer for the examples: one token per character. *)
Definition char_encoding : Encoding ascii :=
  {| encode := list_ascii_of_string; decode := string_of_list_ascii |}.

End Chunker.

(* ------------------------------------------------------------------ *)
(** ** Numbers *)

(** The arithmetic of Python's [float], as an interface with two
    implementations: the rationals, where the fusion formula is exact, and
    IEEE 754 binary64, which is what the interpreter computes with. *)
Module Num.

Record Arith := {
    num : Type;
    of_Z : Z -> num;                (* [float(n)] *)
    add : num -> num -> num;
    sub : num -> num -> num;
    mul : num -> num -> num;
    div : num -> num -> num;
    ltb : num -> num -> bool;       (* [<] *)
    leb : num -> num -> bool        (* [<=] *)
  }.

Definition exact : Arith :=
  {| num := Q;
     of_Z := inject_Z;
     add := Qplus; sub := Qminus; mul := Qmult; div := Qdiv;
     ltb := fun x y => negb (Qle_bool y x);
     leb := Qle_bool |}.



End Num.
(* ------------------------------------------------------------------ *)
(** ** guardrails/validator.py *)

Module Validator.

(** A context chunk, as far as the validator reads it: the key
    ['file_path'] and the optional key ['commit_date']. *)
Record chunk := { file_path : string; commit_date : option string }.

(** The calendar is outside the program.  For an ISO date [d], [dates d]
    stands for [datetime.fromisoformat(d)] read against [datetime.now]:
    the age of [d] in whole days and the text of [d.date()], or [None]
    when [fromisoformat] raises. *)
Definition calendar : Type := string -> option (Z * string).

Record ResponseValidator := { max_staleness_days : Z }.

(** [ResponseValidator.__init__] *)
Definition init : ResponseValidator := {| max_staleness_days := 180 |}.

(** [[\w\-./]] *)
Definition path_chars : Re.charset :=
  Re.Union Re.Word (Re.Union (Re.Lit "-") (Re.Union (Re.Lit ".") (Re.Lit "/"))).

(** [open([\w\-./]+\.\w+)close] *)
Definition citation_pattern (open close : ascii) : Re.regex :=
  [Re.One (Re.Lit open); Re.GroupOpen; Re.Plus path_chars; Re.One (Re.Lit ".");
   Re.Plus Re.Word; Re.GroupClose; Re.One (Re.Lit close)].

Definition citation_patterns : list Re.regex :=
  [citation_pattern "[" "]";          (* [file.md] *)
   citation_pattern "(" ")";          (* (file.py) *)
   citation_pattern "034" "034";      (* double quotes around file.js *)
   citation_pattern "`" "`"].         (* `file.ts` *)

(** [set.update]: the set is kept as a list without repetition; a Python
    set has no fixed iteration order, and the model lists the elements in
    the order they were first added. *)
Definition set_update (set : list string) (items : list string) : list string :=
  fold_left (fun acc x => if existsb (String.eqb x) acc then acc else acc ++ [x])
            items set.

(** [_extract_citations] *)
Definition _extract_citations (response : string) : list string :=
  fold_left (fun citations pattern => set_update citations (Re.findall pattern response))
            citation_patterns [].

Definition error_patterns : list string :=
  ["I don't have"; "I cannot find"; "not available"; "I apologize"]%string.

Section Validate.
Variable dates : calendar.
Variable self : ResponseValidator.

(** Check 2, one citation. *)
Definition hallucination_step (valid_paths : list string)
           (errors : list string) (citation : string) : list string :=
  if negb (existsb (String.eqb citation) valid_paths)
  then errors ++ [("Hallucinated citation: " ++ citation)%string]
  else errors.

(** Check 3, one citation: the first chunk of that file, if it has a
    date that parses and is older than the threshold. *)
Definition staleness_step (retrieved_chunks : list chunk)
           (warnings : list string) (citation : string) : list string :=
  match find (fun c => String.eqb (file_path c) citation) retrieved_chunks with
  | Some chunk =>
      if Py.truthy_opt (commit_date chunk) then
        match commit_date chunk with
        | Some d =>
            match dates (Str.replace_char "Z" "+00:00" d) with
            | Some (age_days, day) =>
                if age_days >? max_staleness_days self
                then warnings ++
                     [(citation ++ " is " ++ Str.of_Z age_days
                         ++ " days old (last updated: " ++ day ++ ")")%string]
                else warnings
            | None => warnings  (* the exception is logged *)
            end
        | None => warnings
        end
      else warnings
  | None => warnings
  end.

(** Check 5, one phrase. *)
Definition pattern_step (response : string)
           (warnings : list string) (pattern : string) : list string :=
  if Str.contains (Str.lower pattern) (Str.lower response)
  then warnings ++ [("Response contains error pattern: '" ++ pattern ++ "'")%string]
  else warnings.

(** [ResponseValidator.validate]: [(is_valid, errors, warnings)]. *)
Definition validate (response : string) (retrieved_chunks : list chunk)
    : bool * list string * list string :=
    let errors := [] in
    let warnings := [] in
  (* Check 1 *)
  let citations := _extract_citations response in
  let errors := match citations with
                | [] => errors ++ ["Response has no citations"%string]
                | _ => errors
                end in
  (* Check 2 *)
  let valid_paths := map file_path retrieved_chunks in
  let errors := fold_left (hallucination_step valid_paths) citations errors in
  (* Check 3 *)
  let warnings := fold_left (staleness_step retrieved_chunks) citations warnings in
  (* Check 4 *)
  let warnings := if Str.len (Str.strip response) <? 20
                  then warnings ++ ["Response is very short, may be incomplete"%string]
                  else warnings in
  (* Check 5 *)
  let warnings := fold_left (pattern_step response) error_patterns warnings in
  let is_valid := Py.len errors =? 0 in
  (is_valid, errors, warnings).

End Validate.

(** [add_warnings_to_response].  The heading of the notes starts with a
    warning sign, two code points above the characters of [string];
    [sign] stands for it. *)
Definition add_warnings_to_response (sign : string) (response : string)
           (warnings : list string) : string :=
  match warnings with
  | [] => response
  | _ =>
      let warning_text :=
        (String "010" (String "010" sign) ++ " **Notes:**" ++ String "010" "")%string in
      let warning_text :=
        fold_left (fun text warning =>
                     (text ++ "- " ++ warning ++ String "010" "")%string)
                  warnings warning_text in
      (response ++ warning_text)%string
  end.

Record InputValidator := { max_query_length : Z; min_query_length : Z }.

(** [InputValidator.__init__] *)
Definition input_init : InputValidator :=
  {| max_query_length := 500; min_query_length := 3 |}.

Definition sql_patterns : list Re.regex :=
    [ (* ;\s*DROP\s+TABLE *)
      Re.lits ";" ++ [Re.Star Re.Space] ++ Re.lits "DROP" ++ [Re.Plus Re.Space]
        ++ Re.lits "TABLE";
  (* ;\s*DELETE\s+FROM *)
  Re.lits ";" ++ [Re.Star Re.Space] ++ Re.lits "DELETE" ++ [Re.Plus Re.Space]
    ++ Re.lits "FROM";
  (* UNION\s+SELECT *)
  Re.lits "UNION" ++ [Re.Plus Re.Space] ++ Re.lits "SELECT";
  (* --\s*$ *)
  Re.lits "--" ++ [Re.Star Re.Space; Re.Eos] ].

(** The query carries one of the injection signatures. *)
Definition sql_injection (query : string) : bool :=
  existsb (fun pattern => Re.search true pattern query) sql_patterns.

Definition script_injection (query : string) : bool :=
  Str.contains "<script" (Str.lower query)
  || Str.contains "javascript:" (Str.lower query).

(** [InputValidator.validate_query]: [(is_valid, error_message)]. *)
Definition validate_query (self : InputValidator) (query : string)
  : bool * option string :=
  if Str.len query <? min_query_length self then
    (false, Some ("Query too short (minimum " ++ Str.of_Z (min_query_length self)
                    ++ " characters)")%string)
  else if Str.len query >? max_query_length self then
    (false, Some ("Query too long (maximum " ++ Str.of_Z (max_query_length self)
                    ++ " characters)")%string)
  else if sql_injection query then (false, Some "Invalid query format"%string)
  else if script_injection query then (false, Some "Invalid query format"%string)
  else (true, None).

(** A calendar for the examples: dates of 2020 are 200 days old, others 10. *)
Definition example_calendar : calendar :=
  fun d => if String.prefix "2020" d then Some (200, "2020-01-15"%string)
           else if String.prefix "20" d then Some (10, "2024-06-01"%string)
           else None.

End Validator.
(* ------------------------------------------------------------------ *)
(** ** hashlib.md5 *)

(** MD5 (RFC 1321) on a list of bytes; 32-bit words are integers reduced
    modulo 2^32. *)
Module Md5.

Definition mask32 : Z := 0xffffffff.

Definition add32 (a b : Z) : Z := Z.land (a + b) mask32.

Definition not32 (a : Z) : Z := Z.lxor a mask32.

Definition rotl32 (x s : Z) : Z :=
  Z.land (Z.lor (Z.shiftl x s) (Z.shiftr x (32 - s))) mask32.

(** [floor(2^32 * abs(sin(i + 1)))] *)
Definition K : list Z :=
  [0xd76aa478; 0xe8c7b756; 0x242070db; 0xc1bdceee;
   0xf57c0faf; 0x4787c62a; 0xa8304613; 0xfd469501;
   0x698098d8; 0x8b44f7af; 0xffff5bb1; 0x895cd7be;
   0x6b901122; 0xfd987193; 0xa679438e; 0x49b40821;
   0xf61e2562; 0xc040b340; 0x265e5a51; 0xe9b6c7aa;
   0xd62f105d; 0x02441453; 0xd8a1e681; 0xe7d3fbc8;
   0x21e1cde6; 0xc33707d6; 0xf4d50d87; 0x455a14ed;
   0xa9e3e905; 0xfcefa3f8; 0x676f02d9; 0x8d2a4c8a;
   0xfffa3942; 0x8771f681; 0x6d9d6122; 0xfde5380c;
   0xa4beea44; 0x4bdecfa9; 0xf6bb4b60; 0xbebfbc70;
   0x289b7ec6; 0xeaa127fa; 0xd4ef3085; 0x04881d05;
   0xd9d4d039; 0xe6db99e5; 0x1fa27cf8; 0xc4ac5665;
   0xf4292244; 0x432aff97; 0xab9423a7; 0xfc93a039;
   0x655b59c3; 0x8f0ccc92; 0xffeff47d; 0x85845dd1;
   0x6fa87e4f; 0xfe2ce6e0; 0xa3014314; 0x4e0811a1;
   0xf7537e82; 0xbd3af235; 0x2ad7d2bb; 0xeb86d391].

(** The rotation amounts. *)
Definition shifts : list Z :=
  [7; 12; 17; 22; 7; 12; 17; 22; 7; 12; 17; 22; 7; 12; 17; 22;
   5; 9; 14; 20; 5; 9; 14; 20; 5; 9; 14; 20; 5; 9; 14; 20;
   4; 11; 16; 23; 4; 11; 16; 23; 4; 11; 16; 23; 4; 11; 16; 23;
   6; 10; 15; 21; 6; 10; 15; 21; 6; 10; 15; 21; 6; 10; 15; 21].

Record state := { sa : Z; sb : Z; sc : Z; sd : Z }.

Definition initial : state :=
  {| sa := 0x67452301; sb := 0xefcdab89; sc := 0x98badcfe; sd := 0x10325476 |}.

(** Bytes to a little-endian word. *)
Definition word_of (bytes : list Z) : Z :=
  fold_right (fun b acc => b + 256 * acc) 0 bytes.

(** The sixteen words of a block of 64 bytes. *)
Definition words_of (block : list Z) : list Z :=
  map word_of (Py.paginate 4 [] block).

(** Operation [i] of the 64 of a block. *)
Definition step (M : list Z) (st : state) (i : nat) : state :=
  let '(f, g) :=
    if (i <? 16)%nat then
      (Z.lor (Z.land (sb st) (sc st)) (Z.land (not32 (sb st)) (sd st)), i)
    else if (i <? 32)%nat then
      (Z.lor (Z.land (sd st) (sb st)) (Z.land (not32 (sd st)) (sc st)),
       ((5 * i + 1) mod 16)%nat)
    else if (i <? 48)%nat then
      (Z.lxor (sb st) (Z.lxor (sc st) (sd st)), ((3 * i + 5) mod 16)%nat)
    else
      (Z.lxor (sc st) (Z.lor (sb st) (not32 (sd st))), ((7 * i) mod 16)%nat) in
  let f := add32 (add32 (add32 f (sa st)) (nth i K 0)) (nth g M 0) in
  {| sa := sd st; sd := sc st; sc := sb st;
     sb := add32 (sb st) (rotl32 f (nth i shifts 0)) |}.

Definition compress (st : state) (block : list Z) : state :=
  let M := words_of block in
  let st' := fold_left (step M) (seq 0 64) st in
  {| sa := add32 (sa st) (sa st'); sb := add32 (sb st) (sb st');
     sc := add32 (sc st) (sc st'); sd := add32 (sd st) (sd st') |}.

(** The [n] low bytes of [x], least significant first. *)
Fixpoint le_bytes (n : nat) (x : Z) : list Z :=
  match n with
  | O => []
  | S n' => x mod 256 :: le_bytes n' (x / 256)
  end.

(** The message, a 1 bit, zeros up to 56 modulo 64, and the length in bits
    on 64 bits. *)
Definition pad (msg : list Z) : list Z :=
  let n := Z.of_nat (List.length msg) in
  msg ++ [0x80] ++ repeat 0 (Z.to_nat ((55 - n) mod 64))
      ++ le_bytes 8 ((8 * n) mod 2 ^ 64).

(** [md5(msg).digest()]: 16 bytes. *)
Definition digest (msg : list Z) : list Z :=
  let st := fold_left compress (Py.paginate 64 [] (pad msg)) initial in
  le_bytes 4 (sa st) ++ le_bytes 4 (sb st) ++ le_bytes 4 (sc st) ++ le_bytes 4 (sd st).

Definition hex_digit (n : Z) : ascii :=
  match String.get (Z.to_nat n) "0123456789abcdef" with
  | Some c => c
  | None => "0"%char
  end.

Fixpoint hex (bytes : list Z) : string :=
  match bytes with
  | [] => EmptyString
  | b :: rest => String (hex_digit (b / 16)) (String (hex_digit (b mod 16)) (hex rest))
  end.

(** [md5(msg).hexdigest()] *)
Definition hexdigest (msg : list Z) : string := hex (digest msg).

(** [s.encode()]: UTF-8, for code points below 256. *)
Fixpoint utf8 (s : string) : list Z :=
  match s with
  | EmptyString => []
  | String c s' =>
      let n := Z.of_N (N_of_ascii c) in
      if n <? 128 then n :: utf8 s'
      else Z.lor 0xc0 (Z.shiftr n 6) :: Z.lor 0x80 (Z.land n 0x3f) :: utf8 s'
  end.

End Md5.
(* ------------------------------------------------------------------ *)
(** ** ingestion/indexer.py *)

Module Indexer.

(** [_generate_chunk_id]: the MD5 of [repo::file_path::chunk_index], in
    hexadecimal. *)
Definition _generate_chunk_id (repo file_path : string) (chunk_index : Z) : string :=
  let content := (repo ++ "::" ++ file_path ++ "::" ++ Str.of_Z chunk_index)%string in
  Md5.hexdigest (Md5.utf8 content).

(** What [get_file_metadata] returns. *)
Record metadata := {
    commit_hash : string;
    commit_date : string;
    author : string
  }.

(** A chunk dictionary of [_process_file], before its embedding is there. *)
Record chunk := {
    chunk_id : string;
    repo_name : string;
    file_path : string;
    file_type : string;
    text : string;
    chunk_commit_hash : string;
    chunk_commit_date : string;
    chunk_author : string;
    github_url : string
  }.

(** [s.lstrip('.')] *)
Fixpoint lstrip_dots (s : string) : string :=
  match s with
  | String "."%char s' => lstrip_dots s'
  | _ => s
  end.

(** The body of the loop of [_process_file]: chunk [i] of the file at
    [relative_path], whose suffix is [suffix]. *)
Definition make_chunk (repo relative_path suffix : string) (meta : metadata)
           (i : Z) (chunk_text : string) : chunk :=
  let chunk_id := _generate_chunk_id repo relative_path i in
  let github_url :=
    ("https://github.com/" ++ repo ++ "/blob/main/" ++ relative_path)%string in
  {| chunk_id := chunk_id;
     repo_name := repo;
     file_path := Str.replace_char "\"%char "/" relative_path;
     file_type := lstrip_dots suffix;
     text := chunk_text;
     chunk_commit_hash := commit_hash meta;
     chunk_commit_date := commit_date meta;
     chunk_author := author meta;
     github_url := github_url |}.

(** [_process_file], from the parsed content on; [None] when the chunker is
    still running after [fuel] iterations. *)
Definition _process_file {token : Type} (chunker : Chunker.TextChunker token)
           (fuel : nat) (repo relative_path suffix : string)
           (content : string) (meta : metadata) : option (list chunk) :=
  if negb (Py.truthy content) then Some []
  else
    match Chunker.chunk_text chunker fuel content with
    | None => None
    | Some text_chunks =>
        Some (map (fun '(i, chunk_text) =>
                     make_chunk repo relative_path suffix meta i chunk_text)
                  (Py.enumerate text_chunks 0))
    end.

End Indexer.
(* ------------------------------------------------------------------ *)
(** ** storage/db.py *)

(** The table [documents] is a list of rows in insertion order; the column
    [chunk_id] is [UNIQUE].  The columns [id], [metadata] and [created_at],
    which no query of the program reads, are left out, and a timestamp is
    kept as the text that was stored. *)
Module VectorDB.

Section WithNumbers.
Variable A : Num.Arith.
Local Abbreviation num := (Num.num A).

(** A chunk dictionary handed to [upsert_chunks]. *)
Record chunk := {
    c_chunk_id : string;
    c_repo_name : string;
    c_file_path : string;
    c_file_type : option string;      (* the key may be missing *)
    c_text : string;
    c_embedding : list num;
    c_commit_hash : option string;
    c_commit_date : option string;
    c_author : option string;
    c_github_url : option string
  }.

Record row := {
    chunk_id : string;
    repo_name : string;
    file_path : string;
    file_type : option string;
    text : string;
    embedding : list num;
    commit_hash : option string;
    commit_date : option string;
    author : option string;
    github_url : option string;
    last_indexed : string
  }.

Definition table : Type := list row.

(** A result dictionary of a search, and of the retriever after it. *)
Record doc := {
    d_chunk_id : string;
    d_repo_name : string;
    d_file_path : string;
    d_file_type : option string;
    d_text : string;
    d_commit_hash : option string;
    d_commit_date : option string;
    d_author : option string;
    d_github_url : option string;
    d_similarity : option num;        (* set by [semantic_search] *)
    d_rank : option num;              (* set by [keyword_search] *)
    d_combined_score : option num     (* set by [_rerank] *)
  }.

(** What the storage engine computes: the cosine distance [<=>] of
    pgvector and the full-text match and rank of PostgreSQL. *)
Record Engine := {
    distance : list num -> list num -> num;
    ts_match : string -> string -> bool;   (* text, query *)
    ts_rank : string -> string -> num      (* text, query *)
  }.


(** The tuple of [values] built from a chunk. *)
Definition values_of (now : string) (c : chunk) : row :=
  {| chunk_id := c_chunk_id c;
     repo_name := c_repo_name c;
     file_path := c_file_path c;
     file_type := Some (match c_file_type c with
                        | Some t => t
                        | None => "unknown"%string
                        end);
     text := c_text c;
     embedding := c_embedding c;
     commit_hash := c_commit_hash c;
     commit_date := c_commit_date c;
     author := c_author c;
     github_url := c_github_url c;
     last_indexed := now |}.

(** [ON CONFLICT (chunk_id) DO UPDATE SET ...]: the six columns of the
    [SET] list come from the proposed row, the others stay. *)
Definition conflict_update (old excluded : row) : row :=
  {| chunk_id := chunk_id old;
     repo_name := repo_name old;
     file_path := file_path old;
     file_type := file_type old;
     text := text excluded;
     embedding := embedding excluded;
     commit_hash := commit_hash excluded;
     commit_date := commit_date excluded;
     author := author excluded;
     github_url := github_url old;
     last_indexed := last_indexed excluded |}.

(** [INSERT ... ON CONFLICT (chunk_id) DO UPDATE], one proposed row. *)
Fixpoint insert_on_conflict (t : table) (r : row) : table :=
  match t with
  | [] => [r]
  | r0 :: t' =>
      if String.eqb (chunk_id r0) (chunk_id r)
      then conflict_update r0 r :: t'
      else r0 :: insert_on_conflict t' r
  end.

Fixpoint has_duplicates (ids : list string) : bool :=
  match ids with
  | [] => false
  | x :: rest => existsb (String.eqb x) rest || has_duplicates rest
  end.

(** One [INSERT] statement.  PostgreSQL refuses a statement that would
    touch the same row twice. *)
Definition execute_insert (t : table) (page : list row) : Py.result table :=
  if has_duplicates (map chunk_id page)
  then Py.Raise (Py.DatabaseError
         "ON CONFLICT DO UPDATE command cannot affect row a second time")
  else Py.Ok (fold_left insert_on_conflict page t).

(** [execute_values(cur, sql, values)]: one statement per page of 100. *)
Definition execute_values (t : table) (values : list row) : Py.result table :=
  fold_left (fun acc page => Py.bind acc (fun t' => execute_insert t' page))
            (Py.paginate 100 [] values) (Py.Ok t).

(** [upsert_chunks]: the table after the call and the count returned.
    An exception rolls the transaction back, so the table of a [Raise]
    is the one before the call. *)
Definition upsert_chunks (t : table) (now : string) (chunks : list chunk)
  : Py.result (table * Z) :=
  match chunks with
  | [] => Py.Ok (t, 0)
  | _ =>
      let values := map (values_of now) chunks in
      Py.bind (execute_values t values)
              (fun t' => Py.Ok (t', Py.len chunks))
  end.

Variable engine : Engine.

(** [repo_name = %s], added to the [WHERE] clause when the argument is
    not empty. *)
Definition repo_clause (repo : option string) (r : row) : bool :=
  if Py.truthy_opt repo
  then match repo with
       | Some name => String.eqb (repo_name r) name
       | None => true
       end
  else true.

(** [file_type = %s], likewise. *)
Definition file_type_clause (ft : option string) (r : row) : bool :=
  if Py.truthy_opt ft
  then match ft, file_type r with
       | Some t, Some t' => String.eqb t' t
       | Some _, None => false
       | None, _ => true
       end
  else true.

Definition one : num := Num.of_Z A 1.

(** [1 - (embedding <=> q)] *)
Definition similarity_of (q : list num) (r : row) : num :=
  Num.sub A one (distance engine (embedding r) q).

Definition doc_of_row (r : row) (similarity rank : option num) : doc :=
  {| d_chunk_id := chunk_id r;
     d_repo_name := repo_name r;
     d_file_path := file_path r;
     d_file_type := file_type r;
     d_text := text r;
     d_commit_hash := commit_hash r;
     d_commit_date := commit_date r;
     d_author := author r;
     d_github_url := github_url r;
     d_similarity := similarity;
     d_rank := rank;
     d_combined_score := None |}.

(** [LIMIT n] *)
Definition sql_limit {T : Type} (limit : Z) (rows : list T) : Py.result (list T) :=
  if limit <? 0 then Py.Raise (Py.DatabaseError "LIMIT must not be negative")
  else Py.Ok (firstn (Z.to_nat limit) rows).

(** [semantic_search].  SQL leaves the order of rows with equal sort keys
    open; here they keep the order of the table. *)
Definition semantic_search (t : table) (query_embedding : list num)
           (limit : Z) (repo : option string) (ft : option string)
           (similarity_threshold : num) : Py.result (list doc) :=
  let selected :=
    filter (fun r => Num.leb A similarity_threshold (similarity_of query_embedding r)
                     && repo_clause repo r && file_type_clause ft r) t in
  let ordered :=          (* ORDER BY embedding <=> q *)
    Py.sorted_by (fun r1 r2 => Num.ltb A (distance engine (embedding r1) query_embedding)
                                         (distance engine (embedding r2) query_embedding))
                 selected in
  Py.bind (sql_limit limit ordered)
          (fun rows => Py.Ok (map (fun r => doc_of_row r
                                      (Some (similarity_of query_embedding r)) None)
                                  rows)).

(** [keyword_search]: it has no file-type argument. *)
Definition keyword_search (t : table) (query : string) (limit : Z)
           (repo : option string) : Py.result (list doc) :=
  let selected :=
    filter (fun r => ts_match engine (text r) query && repo_clause repo r) t in
  let ordered :=          (* ORDER BY rank DESC *)
    Py.sorted_by (fun r1 r2 => Num.ltb A (ts_rank engine (text r2) query)
                                         (ts_rank engine (text r1) query))
                 selected in
  Py.bind (sql_limit limit ordered)
          (fun rows => Py.Ok (map (fun r => doc_of_row r None
                                      (Some (ts_rank engine (text r) query)))
                                  rows)).


(** A stand-in engine for the examples: the distance of a row is the
    first component of its embedding, a text matches a query that occurs
    in it, and every match has rank 1. *)
Definition example_engine : Engine :=
  {| distance := fun e _ => match e with v :: _ => v | [] => one end;
     ts_match := fun text query => Str.contains (Str.lower query) (Str.lower text);
     ts_rank := fun _ _ => one |}.

(** A table of two rows on the same subject, one from a Markdown file and
    one from a Python file. *)
Definition example_table : table :=
  [ {| chunk_id := "c-md"; repo_name := "octo/handbook";
       file_path := "docs/cache.md"; file_type := Some "md"%string;
       text := "Redis cache setup"; embedding := [Num.of_Z A 0];
       commit_hash := None; commit_date := None; author := None;
       github_url := None; last_indexed := "2024-06-01T00:00:00" |};
    {| chunk_id := "c-py"; repo_name := "octo/handbook";
       file_path := "src/cache.py"; file_type := Some "py"%string;
       text := "redis client wrapper"; embedding := [Num.of_Z A 0];
       commit_hash := None; commit_date := None; author := None;
       github_url := None; last_indexed := "2024-06-01T00:00:00" |} ].

End WithNumbers.

End VectorDB.
(* ------------------------------------------------------------------ *)
(** ** retrieval/retriever.py *)

Module Retriever.

Section WithNumbers.
Variable A : Num.Arith.
Local Abbreviation num := (Num.num A).
Local Abbreviation doc := (VectorDB.doc A).

(** The retriever holds the database and the embedding client; the
    embedding of a text comes from a remote model. *)
Record HybridRetriever := {
    db : VectorDB.table A;
    engine : VectorDB.Engine A;
    embed_text : string -> list num
  }.

Definition zero : num := Num.of_Z A 0.

(** [scores[x]] on the [defaultdict(float)] *)
Definition score_of (scores : Py.dict num) (x : string) : num :=
  match Py.get scores x with
  | Some v => v
  | None => zero
  end.

(** [all_docs]: the semantic results, then the keyword results whose
    [chunk_id] is not there yet. *)
Definition build_all_docs (semantic_results keyword_results : list doc)
  : Py.dict doc :=
  let all_docs := [] in
  let all_docs :=
    fold_left (fun all_docs d => Py.set all_docs (VectorDB.d_chunk_id d) d)
              semantic_results all_docs in
  fold_left (fun all_docs d =>
               if negb (Py.contains all_docs (VectorDB.d_chunk_id d))
               then Py.set all_docs (VectorDB.d_chunk_id d) d
               else all_docs)
            keyword_results all_docs.

(** Every entry of [all_docs] is filed under its own identifier. *)
Definition filed (all_docs : Py.dict doc) : Prop :=
  forall x d, Py.get all_docs x = Some d -> VectorDB.d_chunk_id d = x.

(** [scores[chunk_id] += weight * (1.0 / (k + rank))] *)
Definition score_step (k : Z) (weight : num) (scores : Py.dict num)
             (entry : Z * doc) : Py.dict num :=
  let '(rank, d) := entry in
  Py.update zero
    (fun v => Num.add A v
                (Num.mul A weight
                   (Num.div A (Num.of_Z A 1) (Num.of_Z A (k + rank)))))
    scores (VectorDB.d_chunk_id d).

(** [for rank, doc in enumerate(results, 1): ...] *)
Definition add_scores (k : Z) (weight : num) (results : list doc)
             (scores : Py.dict num) : Py.dict num :=
  fold_left (score_step k weight) (Py.enumerate results 1) scores.

Definition build_scores (semantic_results keyword_results : list doc)
           (semantic_weight : num) : Py.dict num :=
  let keyword_weight := Num.sub A (Num.of_Z A 1) semantic_weight in
  let k := 60 in
  let scores := [] in
  let scores := add_scores k semantic_weight semantic_results scores in
  add_scores k keyword_weight keyword_results scores.

Definition with_combined_score (d : doc) (s : num) : doc :=
  {| VectorDB.d_chunk_id := VectorDB.d_chunk_id d;
     VectorDB.d_repo_name := VectorDB.d_repo_name d;
     VectorDB.d_file_path := VectorDB.d_file_path d;
     VectorDB.d_file_type := VectorDB.d_file_type d;
     VectorDB.d_text := VectorDB.d_text d;
     VectorDB.d_commit_hash := VectorDB.d_commit_hash d;
     VectorDB.d_commit_date := VectorDB.d_commit_date d;
     VectorDB.d_author := VectorDB.d_author d;
     VectorDB.d_github_url := VectorDB.d_github_url d;
     VectorDB.d_similarity := VectorDB.d_similarity d;
     VectorDB.d_rank := VectorDB.d_rank d;
     VectorDB.d_combined_score := Some s |}.

(** [sorted(scores.keys(), key=lambda x: scores[x], reverse=True)] *)
Definition rank_ids (scores : Py.dict num) : list string :=
  Py.sorted_by (fun x y => Num.ltb A (score_of scores y) (score_of scores x))
               (Py.keys scores).

(** [_rerank] *)
Definition _rerank (semantic_results keyword_results : list doc)
           (semantic_weight : num) (top_k : Z) : Py.result (list doc) :=
  let all_docs := build_all_docs semantic_results keyword_results in
  let scores := build_scores semantic_results keyword_results semantic_weight in
  let ranked_ids := rank_ids scores in
  Py.traverse
    (fun chunk_id =>
       match Py.get all_docs chunk_id with
       | Some d => Py.Ok (with_combined_score d (score_of scores chunk_id))
       | None => Py.Raise (Py.KeyError chunk_id)
       end)
    (Py.slice_to ranked_ids top_k).

(** [retrieve] *)
Definition retrieve (self : HybridRetriever) (query : string) (top_k : Z)
           (semantic_weight : num) (repo_name file_type : option string)
  : Py.result (list doc) :=
  let query_embedding := embed_text self query in
  Py.bind
    (VectorDB.semantic_search (engine self) (db self) query_embedding
       (top_k * 2) repo_name file_type
       (Num.div A (Num.of_Z A 1) (Num.of_Z A 2)))            (* 0.5 *)
    (fun semantic_results =>
       Py.bind
         (VectorDB.keyword_search (engine self) (db self) query top_k repo_name)
         (fun keyword_results =>
            _rerank semantic_results keyword_results semantic_weight top_k)).

(** [retrieve_by_file] *)
Definition retrieve_by_file (self : HybridRetriever) (file_path : string)
           (repo_name : option string) : Py.result (list doc) :=
  Py.bind
    (VectorDB.keyword_search (engine self) (db self) file_path 100 repo_name)
    (fun results =>
       let filtered :=
         filter (fun r => String.eqb (VectorDB.d_file_path r) file_path) results in
       Py.Ok filtered).

(** The rank of a candidate in one ranking: the 1-based position of the
    first result with that [chunk_id]. *)
Fixpoint rank_from (n : Z) (ids : list string) (x : string) : option Z :=
  match ids with
  | [] => None
  | y :: rest => if String.eqb y x then Some n else rank_from (n + 1) rest x
  end.


(** [1/(60 + rank)], and 0 for a candidate the ranking does not have; the
    ranks are counted from [n]. *)
Definition term_from (n : Z) (ids : list string) (x : string) : num :=
  match rank_from n ids x with
  | Some r => Num.div A (Num.of_Z A 1) (Num.of_Z A (60 + r))
  | None => zero
  end.

Definition rrf_term (results : list doc) (x : string) : num :=
  term_from 1 (map (@VectorDB.d_chunk_id A) results) x.

(** The fused score as the specification writes it. *)
Definition rrf_formula (semantic_results keyword_results : list doc)
           (semantic_weight : num) (x : string) : num :=
  Num.add A
    (Num.mul A semantic_weight (rrf_term semantic_results x))
    (Num.mul A (Num.sub A (Num.of_Z A 1) semantic_weight)
               (rrf_term keyword_results x)).







(** [0.7], the default [semantic_weight]. *)
Definition default_weight : num := Num.div A (Num.of_Z A 7) (Num.of_Z A 10).

(** A retriever over the example table. *)
Definition example_retriever : HybridRetriever :=
  {| db := VectorDB.example_table A;
     engine := VectorDB.example_engine A;
     embed_text := fun _ => [Num.of_Z A 0] |}.

End WithNumbers.

End Retriever.

(* ------------------------------------------------------------------ *)
(** ** retrieval/embedder.py *)

Module Embedder.

(** [range(start, stop, step)] *)
Definition range (start stop step : Z) : Py.result (list Z) :=
  if step =? 0 then Py.Raise (Py.ValueError "range() arg 3 must not be zero")
  else
    let count := if step >? 0 then (stop - start + step - 1) / step
                 else (start - stop - step - 1) / (- step) in
    Py.Ok (map (fun k => start + Z.of_nat k * step) (seq 0 (Z.to_nat count))).

Record Embedder := { batch_size : Z }.

(** [Embedder.__init__] *)
Definition init : Embedder := {| batch_size := 100 |}.

(** What [embed_batch] does to the outside: a request for the embeddings
    of a batch, and a pause. *)
Inductive event : Type :=
  | Request (batch : list string)
  | Sleep.

Section WithClient.
(** An embedding vector, and the remote model: [create batch] stands for
    [client.embeddings.create(model=..., input=batch)] followed by
    [[item.embedding for item in response.data]]; the call may raise. *)
Variable vector : Type.
Variable create : list string -> Py.result (list vector).
Variable self : Embedder.

(** The loop of [embed_batch] over the start indices still to do. *)
Fixpoint batches (texts : list string) (starts : list Z)
         (embeddings : list vector) (log : list event)
  : list event * Py.result (list vector) :=
  match starts with
  | [] => (log, Py.Ok embeddings)
  | i :: rest =>
      let batch := Py.slice texts i (i + batch_size self) in
      let log := log ++ [Request batch] in
      match create batch with
      | Py.Raise e => (log, Py.Raise e)        (* logged and raised again *)
      | Py.Ok batch_embeddings =>
          let embeddings := embeddings ++ batch_embeddings in
          let log := if i + batch_size self <? Py.len texts
                     then log ++ [Sleep] else log in
          batches texts rest embeddings log
      end
  end.

(** [embed_batch]: the events, in order, and the result. *)
Definition embed_batch (texts : list string)
  : list event * Py.result (list vector) :=
  match texts with
  | [] => ([], Py.Ok [])
  | _ =>
      match range 0 (Py.len texts) (batch_size self) with
      | Py.Raise e => ([], Py.Raise e)
      | Py.Ok starts => batches texts starts [] []
      end
  end.

End WithClient.

(** The batches requested, and the number of pauses. *)
Definition requests (log : list event) : list (list string) :=
  flat_map (fun ev => match ev with Request batch => [batch] | Sleep => [] end) log.

Definition sleeps (log : list event) : Z :=
  Py.len (filter (fun ev => match ev with Sleep => true | Request _ => false end) log).

(** A stand-in model for the examples: the embedding of a text is its
    length; a batch that holds an empty text is refused. *)
Definition example_create (batch : list string) : Py.result (list Z) :=
  if existsb (fun text => negb (Py.truthy text)) batch
  then Py.Raise (Py.ValueError "empty input")
  else Py.Ok (map Str.len batch).

End Embedder.

(* ------------------------------------------------------------------ *)
(** ** orchestration/prompts.py *)

Module Prompts.

Definition nl : string := String "010" EmptyString.
Definition quote : string := String "034" EmptyString.

Definition SYSTEM_PROMPT : string :=
  (Py.join nl
     ["You are a technical documentation assistant for GitHub repositories.";
      "";
      "Your role is to answer questions about code and documentation using ONLY the provided context from GitHub files.";
      "";
      "RULES:";
      "1. Answer using ONLY the provided context";
      "2. Cite sources using [file_path] format";
      "3. If information is not in the context, say " ++ quote
        ++ "Not found in documentation" ++ quote;
      "4. Include the last modified date for citations when available";
      "5. Be concise but complete";
      "";
      "RESPONSE FORMAT:";
      "[Your answer here]";
      "";
      "Sources:";
      "- [file_path] (last updated: date)";
      "- [file_path] (last updated: date)"]
   ++ nl)%string.

(** An optional string inside an f-string. *)
Definition format_opt (o : option string) : string :=
  match o with
  | Some s => s
  | None => "None"%string
  end.

(** [create_user_prompt].  The chunks are result dictionaries of the
    retriever, which always have the key ['commit_date']. *)
Definition create_user_prompt {A : Num.Arith} (query : string)
           (context_chunks : list (VectorDB.doc A)) : string :=
  let context_text :=
    Py.join (nl ++ nl)
      (map (fun chunk =>
              "File: " ++ VectorDB.d_file_path chunk ++ nl
              ++ "Last modified: " ++ format_opt (VectorDB.d_commit_date chunk) ++ nl
              ++ "Content:" ++ nl ++ VectorDB.d_text chunk)
           context_chunks)%string in
  ("CONTEXT FROM GITHUB:" ++ nl
   ++ context_text ++ nl ++ nl
   ++ "USER QUESTION:" ++ nl
   ++ query ++ nl ++ nl
   ++ "Please answer the question using the context above.")%string.

End Prompts.

(* ------------------------------------------------------------------ *)
(** ** orchestration/orchestrator.py *)

(** The language model and the JSON parser are outside the program and
    are parameters.  The metrics of a query (clock, token count, cost) do
    not reach the response, the citations or the validation, and are left
    out, with the key ['metrics'] of the result. *)
Module Orchestrator.

(** A tool call of the model: the name of the function and its arguments
    as JSON text. *)
Record tool_call := { function_name : string; function_arguments : string }.

(** [response.choices[0].message]; [content] is read when there is no
    tool call. *)
Record message := { content : string; tool_calls : list tool_call }.

(** The two keys that [_handle_tool_calls] reads in the parsed arguments,
    [None] for a key that is not there. *)
Record arguments := { arg_query : option string; arg_file_type : option string }.

Section WithServices.
Variable A : Num.Arith.
Local Abbreviation doc := (VectorDB.doc A).

(** [client.chat.completions.create(...)] for a system and a user prompt,
    up to [.choices[0].message]. *)
Variable chat : string -> string -> Py.result message.
(** [json.loads] *)
Variable loads : string -> Py.result arguments.
Variable dates : Validator.calendar.
(** The warning sign of [add_warnings_to_response]. *)
Variable sign : string.

Record LLMOrchestrator := {
    retriever : Retriever.HybridRetriever A;
    response_validator : Validator.ResponseValidator;
    input_validator : Validator.InputValidator
  }.

(** The result dictionary of [query]; the early returns have no key
    ['context_chunks']. *)
Record answer := {
    response : string;
    citations : list string;
    context_chunks : option (list doc);
    is_valid : bool;
    errors : list (option string);
    warnings : list string
  }.

(** [_handle_tool_calls] *)
Fixpoint _handle_tool_calls (self : LLMOrchestrator) (calls : list tool_call)
         (original_query : string) (context : list doc) : Py.result string :=
  match calls with
  | [] => Py.Ok "Tool execution completed"%string
  | tool_call :: rest =>
      Py.bind (loads (function_arguments tool_call))
        (fun arguments =>
           if String.eqb (function_name tool_call) "search_codebase" then
             Py.bind
               (Retriever.retrieve (retriever self)
                  (match arg_query arguments with
                   | Some q => q
                   | None => original_query
                   end)
                  3 (Retriever.default_weight A) None
                  (Some (match arg_file_type arguments with
                         | Some t => t
                         | None => "any"%string
                         end)))
               (fun additional_results =>
                  Py.Ok ("I searched the codebase and found relevant information. "
                           ++ "(Tool calling executed successfully)")%string)
           else _handle_tool_calls self rest original_query context)
  end.

(** [LLMOrchestrator._extract_citations]; [list(set(...))] keeps each
    path once, here in the order of the chunks. *)
Definition _extract_citations (response_text : string) (context : list doc)
  : list string :=
  let citations :=
    fold_left (fun citations chunk =>
                 let file_path := VectorDB.d_file_path chunk in
                 if Py.truthy file_path && Str.contains file_path response_text
                 then citations ++ [file_path] else citations)
              context [] in
  Validator.set_update [] citations.

(** A result dictionary of the retriever as the validator reads it. *)
Definition as_chunk (d : doc) : Validator.chunk :=
  {| Validator.file_path := VectorDB.d_file_path d;
     Validator.commit_date := VectorDB.d_commit_date d |}.

(** [query] *)
Definition query (self : LLMOrchestrator) (user_query : string)
           (repo_name : option string) (top_k : Z) : Py.result answer :=
  (* Validate input *)
  let '(valid, error_msg) :=
    Validator.validate_query (input_validator self) user_query in
  if negb valid then
    Py.Ok {| response := ("Invalid query: " ++ Prompts.format_opt error_msg)%string;
             citations := [];
             context_chunks := None;
             is_valid := false;
             errors := [error_msg];
             warnings := [] |}
  else
    (* Retrieve relevant context *)
    Py.bind
      (Retriever.retrieve (retriever self) user_query top_k
         (Retriever.default_weight A) repo_name None)
      (fun context =>
         match context with
         | [] =>
             Py.Ok {| response :=
                        ("I couldn't find any relevant documentation for your question. "
                           ++ "Try rephrasing or check if the repository has been indexed.")%string;
                      citations := [];
                      context_chunks := None;
                      is_valid := true;
                      errors := [];
                      warnings := ["No relevant context found"%string] |}
         | _ =>
             (* Create prompt with context, call LLM *)
             let user_prompt := Prompts.create_user_prompt user_query context in
             Py.bind (chat Prompts.SYSTEM_PROMPT user_prompt)
               (fun message =>
                  Py.bind
                    (match tool_calls message with
                     | [] => Py.Ok (content message)
                     | calls => _handle_tool_calls self calls user_query context
                     end)
                    (fun response_text =>
                       (* Validate response *)
                       let '(valid, errors, warnings) :=
                         Validator.validate dates (response_validator self)
                           response_text (map as_chunk context) in
                       (* Add warnings to response if any *)
                       let response_text :=
                         match warnings with
                         | [] => response_text
                         | _ => Validator.add_warnings_to_response sign
                                  response_text warnings
                         end in
                       (* Extract citations *)
                       let citations := _extract_citations response_text context in
                       Py.Ok {| response := response_text;
                                citations := citations;
                                context_chunks := Some context;
                                is_valid := valid;
                                errors := map Some errors;
                                warnings := warnings |}))
         end).

End WithServices.

(** An orchestrator over the example table, with the default validators. *)
Definition example_orchestrator : LLMOrchestrator Num.exact :=
  {| retriever := Retriever.example_retriever Num.exact;
     response_validator := Validator.init;
     input_validator := Validator.input_init |}.

(** Stand-ins for the examples: a model that answers with a text, a model
    that asks for a search, a parser that finds no key. *)
Definition chat_text (text : string) : string -> string -> Py.result message :=
  fun _ _ => Py.Ok {| content := text; tool_calls := [] |}.

Definition chat_tool : string -> string -> Py.result message :=
  fun _ _ => Py.Ok {| content := EmptyString;
                      tool_calls := [{| function_name := "search_codebase";
                                        function_arguments := "{}" |}] |}.

Definition loads_empty : string -> Py.result arguments :=
  fun _ => Py.Ok {| arg_query := None; arg_file_type := None |}.

End Orchestrator.

(* ------------------------------------------------------------------ *)
(** ** ingestion/parser.py *)

(** A file is the list of its lines as [readlines] returns them, each
    with its line break; reading may raise. *)
Module Parser.

Definition nl : string := String "010" EmptyString.

(** The line holds three double quotes or three single quotes in a row. *)
Definition has_quotes (stripped : string) : bool :=
  Str.contains (String "034" (String "034" (String "034" EmptyString))) stripped
  || Str.contains "'''" stripped.

(** [stripped.startswith('#') or stripped.startswith('//')] *)
Definition is_comment (stripped : string) : bool :=
  String.prefix "#" stripped || String.prefix "//" stripped.

(** The variables of the loop of [_parse_code]. *)
Record state := {
    extracted_content : list string;
    in_docstring : bool;
    docstring_lines : list string
  }.

Definition initial : state :=
  {| extracted_content := []; in_docstring := false; docstring_lines := [] |}.

(** The body of the loop. *)
Definition step (st : state) (line : string) : state :=
  let stripped := Str.strip line in
  if has_quotes stripped then
    if negb (in_docstring st) then
      {| extracted_content := extracted_content st;
         in_docstring := true;
         docstring_lines := [stripped] |}
    else
      let docstring_lines := docstring_lines st ++ [stripped] in
      {| extracted_content := extracted_content st ++ [Py.join nl docstring_lines];
         in_docstring := false;
         docstring_lines := [] |}
  else if in_docstring st then
    {| extracted_content := extracted_content st;
       in_docstring := true;
       docstring_lines := docstring_lines st ++ [stripped] |}
  else if is_comment stripped then
    {| extracted_content := extracted_content st ++ [stripped];
       in_docstring := in_docstring st;
       docstring_lines := docstring_lines st |}
  else st.

(** [_parse_code], from the lines of the file on. *)
Definition _parse_code (lines : list string) : string :=
  let st := fold_left step lines initial in
  let result := Py.join nl (extracted_content st) in
  if negb (Py.truthy (Str.strip result))
  then String.concat EmptyString (Py.slice_to lines 50)
  else result.

(** [_parse_markdown] *)
Definition _parse_markdown (lines : list string) : string :=
  String.concat EmptyString lines.

(** [parse_file], for a file with the given suffix; an exception gives
    [None]. *)
Definition parse_file (suffix : string) (file : Py.result (list string))
  : option string :=
  let suffix := Str.lower suffix in
  if String.eqb suffix ".md" then
    match file with
    | Py.Ok lines => Some (_parse_markdown lines)
    | Py.Raise _ => None
    end
  else if existsb (String.eqb suffix) [".py"; ".js"; ".java"; ".go"; ".ts"]%string then
    match file with
    | Py.Ok lines => Some (_parse_code lines)
    | Py.Raise _ => None
    end
  else None.

End Parser.
(* ================================================================== *)
(** * Properties *)

(** ** Lists of strings *)

Lemma existsb_eqb_in (x : string) (l : list string) :
  existsb (String.eqb x) l = true <-> In x l.
Proof.
  rewrite existsb_exists. split.
  - intros (y & Hy & Heq). apply String.eqb_eq in Heq. now subst.
  - intros H. exists x. split; [exact H | apply String.eqb_refl].
Qed.

(** ** Loops with an iteration budget *)

Section WhileFacts.
Context {S : Type} (cond : S -> bool) (body : S -> S).


(** A loop whose body preserves [I] and decreases [m] leaves with [I] and
    a false condition, provided the budget exceeds [m]. *)
Lemma while_terminates (I : S -> Prop) (m : S -> nat) :
  (forall s, I s -> cond s = true -> I (body s) /\ (m (body s) < m s)%nat) ->
  forall fuel s, I s -> (m s < fuel)%nat ->
  exists s', Py.while fuel cond body s = Some s' /\ I s' /\ cond s' = false.
Proof.
  intros Hstep. induction fuel as [|fuel IH]; intros s HI Hm; [lia|].
  simpl. destruct (cond s) eqn:Hc.
  - destruct (Hstep s HI Hc) as [HI' Hlt]. apply IH; [assumption|lia].
  - exists s. auto.
Qed.


End WhileFacts.

(** ** Slices *)

Lemma firstn_beyond {A : Type} (l : list A) (n m : nat) :
  (List.length l <= n)%nat -> (List.length l <= m)%nat -> firstn n l = firstn m l.
Proof. intros Hn Hm. rewrite !firstn_all2 by assumption. reflexivity. Qed.

Lemma slice_nonneg {A : Type} (l : list A) (s e : Z) :
  0 <= s -> 0 <= e ->
  Py.slice l s e = firstn (Z.to_nat (e - s)) (skipn (Z.to_nat s) l).
Proof.
  intros Hs He. unfold Py.slice, Py.norm_index, Py.len.
  destruct (Z.ltb_spec s 0); [lia|]. destruct (Z.ltb_spec e 0); [lia|].
  destruct (Z.le_gt_cases (Z.of_nat (List.length l)) s) as [Hbig|Hsmall].
  - rewrite (Z.min_r s) by lia.
    rewrite !skipn_all2 by lia. now rewrite !firstn_nil.
  - rewrite (Z.min_l s) by lia.
    destruct (Z.le_gt_cases e (Z.of_nat (List.length l))) as [He'|He'].
    + now rewrite (Z.min_l e) by lia.
    + rewrite (Z.min_r e) by lia.
      apply firstn_beyond; rewrite length_skipn; lia.
Qed.

Lemma firstn_skipn_glue {A : Type} (l : list A) (a b : nat) :
  firstn a l ++ firstn b (skipn a l) = firstn (a + b) l.
Proof.
  revert l. induction a as [|a IH]; intros l; simpl; [reflexivity|].
  destruct l as [|x l]; simpl; [now rewrite firstn_nil|]. now rewrite IH.
Qed.

Lemma skipn_firstn_skipn {A : Type} (l : list A) (o n s : nat) :
  (o <= n)%nat ->
  skipn o (firstn n (skipn s l)) = firstn (n - o) (skipn (s + o) l).
Proof.
  intros Hle. rewrite skipn_firstn_comm, skipn_skipn.
  now replace (o + s)%nat with (s + o)%nat by lia.
Qed.

(** ** The chunker's loop *)

Section ChunkerFacts.
Context {token : Type} (self : Chunker.TextChunker token).

Let size := Chunker.chunk_size self.
Let overlap := Chunker.chunk_overlap self.
Let stride := size - overlap.
Let dec := Chunker.decode (Chunker.encoding self).

Lemma windows_succ (tokens : list token) (k : nat) :
  Chunker.windows self tokens (S k) =
  Chunker.windows self tokens k ++ [Chunker.window self tokens k].
Proof. unfold Chunker.windows. now rewrite seq_S, map_app. Qed.

Lemma windows_length (tokens : list token) (k : nat) :
  List.length (Chunker.windows self tokens k) = k.
Proof. unfold Chunker.windows. now rewrite length_map, length_seq. Qed.

Local Abbreviation after := (Chunker.after self).

Lemma after_start (tokens : list token) (k : nat) :
  Chunker.start (after tokens k) = Z.of_nat k * stride.
Proof. reflexivity. Qed.

Lemma loop_body_after (tokens : list token) (k : nat) :
  Chunker.loop_body self tokens (after tokens k) = after tokens (S k).
Proof.
  unfold Chunker.loop_body, Chunker.after.
  cbn [Chunker.start Chunker.chunks].
  f_equal.
  - lia.
  - rewrite windows_succ, map_app. reflexivity.
Qed.

(** With a positive stride the loop leaves after [k] iterations, [k] the
    least number of strides that reaches the end of the tokens. *)
Lemma loop_leaves (tokens : list token) (fuel : nat) :
  0 < stride -> (Z.to_nat (Py.len tokens) < fuel)%nat ->
  exists k : nat,
    Py.while fuel (Chunker.loop_cond tokens) (Chunker.loop_body self tokens)
             (after tokens 0) = Some (after tokens k)
    /\ Py.len tokens <= Z.of_nat k * stride
    /\ (k = 0%nat \/ (Z.of_nat k - 1) * stride < Py.len tokens).
Proof.
  intros Hstride Hfuel.
  destruct (@while_terminates _ (Chunker.loop_cond tokens)
              (Chunker.loop_body self tokens)
              (fun st => exists k : nat, st = after tokens k /\
                 (k = 0%nat \/ (Z.of_nat k - 1) * stride < Py.len tokens))
              (fun st => Z.to_nat (Py.len tokens - Chunker.start st)))
    with (fuel := fuel) (s := after tokens 0) as (st & Hrun & (k & -> & Hk) & Hc).
  - intros st (k & -> & Hk) Hc. unfold Chunker.loop_cond in Hc.
    apply Z.ltb_lt in Hc. rewrite after_start in Hc. split.
    + exists (S k). split; [apply loop_body_after|]. right.
      rewrite Nat2Z.inj_succ.
      replace (Z.succ (Z.of_nat k) - 1) with (Z.of_nat k) by lia.
      exact Hc.
    + rewrite loop_body_after, !after_start, Nat2Z.inj_succ. lia.
  - exists 0%nat. auto.
  - rewrite after_start. unfold Py.len in *. lia.
  - exists k. split; [exact Hrun|]. split; [|exact Hk].
    unfold Chunker.loop_cond in Hc. apply Z.ltb_ge in Hc.
    rewrite after_start in Hc. exact Hc.
Qed.


(** A window of the scheme, as a plain sub-list. *)
Lemma window_nonneg (tokens : list token) (k : nat) :
  0 < stride -> 0 <= size ->
  Chunker.window self tokens k =
  firstn (Z.to_nat size) (skipn (Z.to_nat (Z.of_nat k * stride)) tokens).
Proof.
  intros Hstride Hsize. unfold Chunker.window. fold size overlap stride.
  rewrite slice_nonneg by nia. f_equal. f_equal. lia.
Qed.



End ChunkerFacts.




(** [chunk_text] on a text with more tokens than [chunk_size], under the
    precondition: the decoded windows of the sliding scheme. *)
Lemma chunk_text_windows {token : Type} (self : Chunker.TextChunker token)
      (text : string) (fuel : nat) :
  let tokens := Chunker.encode (Chunker.encoding self) text in
  Chunker.chunk_overlap self < Chunker.chunk_size self ->
  Chunker.chunk_size self < Py.len tokens ->
  (Z.to_nat (Py.len tokens) < fuel)%nat ->
  exists k : nat,
    Chunker.chunk_text self fuel text =
      Some (map (Chunker.decode (Chunker.encoding self))
                (Chunker.windows self tokens k))
    /\ Py.len tokens <= Z.of_nat k * (Chunker.chunk_size self - Chunker.chunk_overlap self)
    /\ (Z.of_nat k - 1) * (Chunker.chunk_size self - Chunker.chunk_overlap self) < Py.len tokens.
Proof.
  intros tokens Hov Hlen Hfuel.
  destruct (@loop_leaves _ self tokens fuel) as (k & Hrun & Hk & Hk'); [lia|exact Hfuel|].
  exists k. split; [|split; [exact Hk|]].
  2:{ destruct Hk' as [->|Hk']; [|exact Hk'].
      change (Z.of_nat 0) with 0. unfold Py.len in *. lia. }
  unfold Chunker.chunk_text. fold tokens.
  destruct (Z.leb_spec (Py.len tokens) (Chunker.chunk_size self)); [lia|].
  change {| Chunker.start := 0; Chunker.chunks := [] |} with (Chunker.after self tokens 0).
  rewrite Hrun. reflexivity.
Qed.

(* ------------------------------------------------------------------ *)
(** ** Chunker: configuration check and termination (C3) *)




(* ------------------------------------------------------------------ *)
(** ** Chunker: the default configuration on 1000 tokens (C4) *)

(** C4, as stated, fails: under the defaults (512, 50) a text of exactly
    1000 tokens is cut into three chunks, not two. *)
Lemma C4_counterexample :
  let self := {| Chunker.chunk_size := 512; Chunker.chunk_overlap := 50;
                 Chunker.encoding := Chunker.char_encoding |} in
  let text := Str.letters 1000 in
  Py.len (Chunker.encode Chunker.char_encoding text) = 1000
  /\ option_map (@List.length string) (Chunker.chunk_text self 1001 text) = Some 3%nat
  /\ option_map (@List.length string) (Chunker.chunk_text self 1001 text) <> Some 2%nat.
Proof.
  assert (H : option_map (@List.length string)
                (Chunker.chunk_text
                   {| Chunker.chunk_size := 512; Chunker.chunk_overlap := 50;
                      Chunker.encoding := Chunker.char_encoding |}
                   1001 (Str.letters 1000)) = Some 3%nat)
    by (vm_compute; reflexivity).
  cbv zeta. split; [vm_compute; reflexivity|]. split; [exact H|].
  rewrite H. discriminate.
Qed.

(** C4, amended: with [chunk_size = 512] and [chunk_overlap = 50], a text of
    exactly 1000 tokens yields exactly three chunks, the windows of tokens
    0..511, 462..973 and 924..999 (512, 512 and 76 tokens), and consecutive
    chunks share 50 tokens. *)
Theorem C4_three_chunks {token : Type} (enc : Chunker.Encoding token)
        (text : string) (fuel : nat) :
  let self := {| Chunker.chunk_size := Config.chunk_size Config.default_chunking;
                 Chunker.chunk_overlap := Config.chunk_overlap Config.default_chunking;
                 Chunker.encoding := enc |} in
  let tokens := Chunker.encode enc text in
  List.length tokens = 1000%nat -> (1000 < fuel)%nat ->
  exists w1 w2 w3 : list token,
    Chunker.chunk_text self fuel text =
      Some [Chunker.decode enc w1; Chunker.decode enc w2; Chunker.decode enc w3]
    /\ w1 = firstn 512 tokens
    /\ w2 = firstn 512 (skipn 462 tokens)
    /\ w3 = skipn 924 tokens
    /\ List.length w1 = 512%nat /\ List.length w2 = 512%nat /\ List.length w3 = 76%nat
    /\ skipn 462 w1 = firstn 50 w2
    /\ skipn 462 w2 = firstn 50 w3.
Proof.
  intros self tokens Hlen Hfuel.
  pose proof (@chunk_text_windows _ self text fuel) as H. cbv zeta in H.
  change (Chunker.encode (Chunker.encoding self) text) with tokens in H.
  unfold Py.len in H. rewrite Hlen in H.
  destruct H as (k & Hrun & Hge & Hlt); [simpl; lia | simpl; lia | lia |].
  cbn [Chunker.chunk_size Chunker.chunk_overlap self Config.chunk_size
       Config.chunk_overlap Config.default_chunking] in Hge, Hlt.
  assert (k = 3%nat) by lia. subst k.
  exists (firstn 512 tokens), (firstn 512 (skipn 462 tokens)), (skipn 924 tokens).
  assert (Hw3 : firstn 512 (skipn 924 tokens) = skipn 924 tokens)
    by (apply firstn_all2; rewrite length_skipn; lia).
  split.
  { rewrite Hrun. unfold Chunker.windows. cbn [seq map].
    rewrite !window_nonneg by (simpl; lia).
    cbn [Chunker.chunk_size Chunker.chunk_overlap self Config.chunk_size
         Config.chunk_overlap Config.default_chunking Chunker.encoding].
    change (Z.to_nat 512) with 512%nat.
    change (Z.to_nat (Z.of_nat 0 * (512 - 50))) with 0%nat.
    change (Z.to_nat (Z.of_nat 1 * (512 - 50))) with 462%nat.
    change (Z.to_nat (Z.of_nat 2 * (512 - 50))) with 924%nat.
    rewrite Hw3. reflexivity. }
  repeat split.
  - rewrite length_firstn. lia.
  - rewrite length_firstn, length_skipn. lia.
  - rewrite length_skipn. lia.
  - rewrite skipn_firstn_comm, firstn_firstn. reflexivity.
  - rewrite skipn_firstn_comm, skipn_skipn. reflexivity.
Qed.

Lemma C4_witness :
  exists w1 w2 w3 : list ascii,
    Chunker.chunk_text
      {| Chunker.chunk_size := 512; Chunker.chunk_overlap := 50;
         Chunker.encoding := Chunker.char_encoding |} 1001 (Str.letters 1000)
    = Some [string_of_list_ascii w1; string_of_list_ascii w2; string_of_list_ascii w3]
    /\ List.length w3 = 76%nat.
Proof.
  destruct (C4_three_chunks Chunker.char_encoding (Str.letters 1000) (fuel := 1001))
    as (w1 & w2 & w3 & Hrun & _ & _ & _ & _ & _ & H3 & _).
  - vm_compute. reflexivity.
  - lia.
  - exists w1, w2, w3. split; [exact Hrun | exact H3].
Defined.

(* ------------------------------------------------------------------ *)
(** ** Chunker: coverage (C7) *)




(* ------------------------------------------------------------------ *)
(** ** Response validator: hallucinated citations and validity (C2) *)

Section ValidatorFacts.
Variable dates : Validator.calendar.
Variable self : Validator.ResponseValidator.

(** The errors of check 2: one per citation outside the retrieved paths,
    in the order of the citations. *)
Lemma hallucination_fold (valid_paths citations errors : list string) :
  fold_left (Validator.hallucination_step valid_paths) citations errors =
  errors ++ map (fun c => ("Hallucinated citation: " ++ c)%string)
                (filter (fun c => negb (existsb (String.eqb c) valid_paths)) citations).
Proof.
  revert errors. induction citations as [|c cs IH]; intros errors; simpl.
  - now rewrite app_nil_r.
  - rewrite IH. unfold Validator.hallucination_step.
    destruct (negb (existsb (String.eqb c) valid_paths)); simpl;
      [now rewrite <- app_assoc | reflexivity].
Qed.


Lemma validate_errors (response : string) (chunks : list Validator.chunk) :
  snd (fst (Validator.validate dates self response chunks)) =
  (match Validator._extract_citations response with
   | [] => ["Response has no citations"%string]
   | _ => []
   end)
  ++ map (fun c => ("Hallucinated citation: " ++ c)%string)
         (filter (fun c => negb (existsb (String.eqb c)
                                   (map Validator.file_path chunks)))
                 (Validator._extract_citations response)).
Proof.
  unfold Validator.validate. cbn [fst snd]. rewrite hallucination_fold.
  now destruct (Validator._extract_citations response).
Qed.

Lemma validate_is_valid (response : string) (chunks : list Validator.chunk) :
  fst (fst (Validator.validate dates self response chunks)) =
  (Py.len (snd (fst (Validator.validate dates self response chunks))) =? 0).
Proof. reflexivity. Qed.

End ValidatorFacts.

Lemma len_zero_nil {A : Type} (l : list A) : (Py.len l =? 0) = true <-> l = [].
Proof.
  unfold Py.len. destruct l; simpl; split; intros H; try reflexivity; try discriminate.
Qed.

(** C2: [validate] returns [is_valid = False], with an error naming the
    citation, whenever an extracted citation is the [file_path] of no chunk
    of the retrieved context, and [is_valid = False] when no citation is
    extracted; [is_valid] holds exactly when the error list is empty, so it
    is the same whatever the calendar and the staleness threshold, which
    only feed warnings. *)
Theorem C2_hallucination_rejected (dates : Validator.calendar)
        (self : Validator.ResponseValidator)
        (response : string) (chunks : list Validator.chunk) :
  let out := Validator.validate dates self response chunks in
  let is_valid := fst (fst out) in
  let errors := snd (fst out) in
  (forall citation,
      In citation (Validator._extract_citations response) ->
      ~ In citation (map Validator.file_path chunks) ->
      is_valid = false /\ In ("Hallucinated citation: " ++ citation)%string errors)
  /\ (Validator._extract_citations response = [] ->
      is_valid = false /\ In "Response has no citations"%string errors)
  /\ (is_valid = true <-> errors = [])
  /\ (forall dates' self',
        fst (fst (Validator.validate dates' self' response chunks)) = is_valid).
Proof.
  intros out is_valid errors.
  assert (Hiff : is_valid = true <-> errors = []).
  { subst is_valid errors out. rewrite validate_is_valid. apply len_zero_nil. }
  assert (Hfalse : forall e, In e errors -> is_valid = false).
  { intros e He. apply Bool.not_true_is_false. intros Hv.
    apply Hiff in Hv. rewrite Hv in He. destruct He. }
  split; [|split; [|split; [exact Hiff|]]].
  - intros citation Hin Hnot.
    assert (He : In ("Hallucinated citation: " ++ citation)%string errors).
    { subst errors out. rewrite validate_errors. apply in_or_app. right.
      apply in_map with (f := fun c => ("Hallucinated citation: " ++ c)%string).
      apply filter_In. split; [exact Hin|].
      destruct (existsb (String.eqb citation) (map Validator.file_path chunks)) eqn:E;
        [|reflexivity].
      apply existsb_eqb_in in E. contradiction. }
    split; [eapply Hfalse; exact He | exact He].
  - intros Hnone.
    assert (He : In "Response has no citations"%string errors).
    { subst errors out. rewrite validate_errors, Hnone. simpl. auto. }
    split; [eapply Hfalse; exact He | exact He].
  - intros dates' self'. subst is_valid out.
    rewrite !validate_is_valid, !validate_errors. reflexivity.
Qed.

(** The example of the specification: the answer cites "docs/missing.md",
    only "docs/real.md" was retrieved. *)
Lemma C2_witness :
  let chunks := [{| Validator.file_path := "docs/real.md";
                    Validator.commit_date := None |}] in
  let out := Validator.validate Validator.example_calendar Validator.init
               "The setup is described in [docs/missing.md]." chunks in
  fst (fst out) = false
  /\ In ("Hallucinated citation: " ++ "docs/missing.md")%string (snd (fst out)).
Proof.
  pose proof (C2_hallucination_rejected Validator.example_calendar Validator.init
                "The setup is described in [docs/missing.md]."
                [{| Validator.file_path := "docs/real.md";
                    Validator.commit_date := None |}]) as H.
  cbv zeta in H. destruct H as (H & _).
  refine (H "docs/missing.md"%string _ _).
  - vm_compute. auto.
  - vm_compute. intros [H'|[]]. discriminate H'.
Defined.

(* ------------------------------------------------------------------ *)
(** ** Query validator: the length bounds (C9) *)

(** C9: with the default bounds 3 and 500, [validate_query] rejects every
    query of length 2 and every query of length 501, accepts every query of
    length 3 or 500 that carries no injection signature, and its result is
    either [(True, None)] or [(False, reason)]. *)
Theorem C9_query_length_bounds (query : string) :
  let out := Validator.validate_query Validator.input_init query in
  (Str.len query = 2 ->
     out = (false, Some "Query too short (minimum 3 characters)"%string))
  /\ (Str.len query = 501 ->
     out = (false, Some "Query too long (maximum 500 characters)"%string))
  /\ (Str.len query = 3 \/ Str.len query = 500 ->
      Validator.sql_injection query = false ->
      Validator.script_injection query = false ->
      out = (true, None))
  /\ (out = (true, None) \/ exists reason, out = (false, Some reason)).
Proof.
  intros out. subst out. unfold Validator.validate_query.
  cbn [Validator.min_query_length Validator.max_query_length Validator.input_init].
  repeat split.
  - intros ->. reflexivity.
  - intros ->. reflexivity.
  - intros Hlen Hsql Hscript. rewrite Hsql, Hscript.
    destruct Hlen as [-> | ->]; reflexivity.
  - destruct (Str.len query <? 3); [right; eexists; reflexivity|].
    destruct (Str.len query >? 500); [right; eexists; reflexivity|].
    destruct (Validator.sql_injection query); [right; eexists; reflexivity|].
    destruct (Validator.script_injection query); [right; eexists; reflexivity|].
    now left.
Qed.

Lemma C9_witness :
  Validator.validate_query Validator.input_init "ab"
    = (false, Some "Query too short (minimum 3 characters)"%string)
  /\ Validator.validate_query Validator.input_init (Str.letters 501)
    = (false, Some "Query too long (maximum 500 characters)"%string)
  /\ Validator.validate_query Validator.input_init "git" = (true, None)
  /\ Validator.validate_query Validator.input_init (Str.letters 500) = (true, None).
Proof.
  split; [|split; [|split]].
  - apply (C9_query_length_bounds "ab"). reflexivity.
  - apply (C9_query_length_bounds (Str.letters 501)). vm_compute. reflexivity.
  - apply (C9_query_length_bounds "git"); [left|..]; vm_compute; reflexivity.
  - apply (C9_query_length_bounds (Str.letters 500)); [right|..]; vm_compute; reflexivity.
Defined.

(** The bounds do not shadow the signatures: a query of an accepted length
    is still rejected when it carries one. *)
Example validate_query_signature :
  Validator.validate_query Validator.input_init "x; drop table documents"
  = (false, Some "Invalid query format"%string).
Proof. vm_compute. reflexivity. Qed.

(* ------------------------------------------------------------------ *)
(** ** Response validator: which chunk the staleness check reads (C10) *)

Lemma find_singleton (citation : string) (chunks : list Validator.chunk)
      (chunk0 : Validator.chunk) :
  find (fun c => String.eqb (Validator.file_path c) citation) chunks = Some chunk0 ->
  find (fun c => String.eqb (Validator.file_path c) citation) [chunk0] = Some chunk0.
Proof.
  intros H. apply find_some in H. destruct H as [_ H]. simpl. now rewrite H.
Qed.

(** C10: for a citation, the staleness check reads the first chunk of
    [retrieved_chunks] whose [file_path] is the citation and no other: the
    step on the whole context is the step on that chunk alone, and when that
    chunk has no [commit_date], or a date whose age is within the 180 days,
    the step adds no warning, whatever the chunks after it. *)
Theorem C10_first_chunk_only (dates : Validator.calendar)
        (retrieved_chunks : list Validator.chunk) (citation : string)
        (chunk0 : Validator.chunk) (warnings : list string) :
  find (fun c => String.eqb (Validator.file_path c) citation) retrieved_chunks
    = Some chunk0 ->
  Validator.staleness_step dates Validator.init retrieved_chunks warnings citation
    = Validator.staleness_step dates Validator.init [chunk0] warnings citation
  /\ ((Py.truthy_opt (Validator.commit_date chunk0) = false
       \/ exists d age day,
            Validator.commit_date chunk0 = Some d
            /\ dates (Str.replace_char "Z" "+00:00" d) = Some (age, day)
            /\ age <= 180) ->
      Validator.staleness_step dates Validator.init retrieved_chunks warnings citation
        = warnings).
Proof.
  intros Hfind. pose proof (find_singleton _ _ Hfind) as Hone.
  unfold Validator.staleness_step. rewrite Hfind, Hone. split; [reflexivity|].
  intros [Hnone | (d & age & day & Hd & Hage & Hle)].
  - now rewrite Hnone.
  - rewrite Hd, Hage. cbn [Validator.max_staleness_days Validator.init].
    destruct (Py.truthy_opt (Some d)); [|reflexivity].
    destruct (Z.gtb_spec age 180); [lia|reflexivity].
Qed.

(** Two chunks of the same file, the first fresh and the second 200 days
    old: no staleness warning, in the step and in [validate] as a whole. *)
Lemma C10_witness :
  let chunks := [{| Validator.file_path := "README.md";
                    Validator.commit_date := Some "2024-06-01T09:30:00Z"%string |};
                 {| Validator.file_path := "README.md";
                    Validator.commit_date := Some "2020-01-15T00:00:00Z"%string |}] in
  Validator.staleness_step Validator.example_calendar Validator.init chunks []
    "README.md" = []
  /\ Validator.validate Validator.example_calendar Validator.init
       "Installation is covered in [README.md]." chunks = (true, [], []).
Proof.
  cbv zeta. split.
  - eapply (C10_first_chunk_only Validator.example_calendar); [reflexivity|].
    right. exists "2024-06-01T09:30:00Z"%string, 10, "2024-06-01"%string.
    split; [reflexivity|]. split; [reflexivity|lia].
  - vm_compute. reflexivity.
Defined.

(** With the order of the two chunks exchanged the warning is there. *)
Example staleness_order_matters :
  Validator.validate Validator.example_calendar Validator.init
    "Installation is covered in [README.md]."
    [{| Validator.file_path := "README.md";
        Validator.commit_date := Some "2020-01-15T00:00:00Z"%string |};
     {| Validator.file_path := "README.md";
        Validator.commit_date := Some "2024-06-01T09:30:00Z"%string |}]
  = (true, [], ["README.md is 200 days old (last updated: 2020-01-15)"%string]).
Proof. vm_compute. reflexivity. Qed.

(* ------------------------------------------------------------------ *)
(** ** Dictionaries *)

Section DictFacts.
Context {V : Type}.

Lemma get_update (dflt : V) (f : V -> V) (d : Py.dict V) (k x : string) :
  Py.get (Py.update dflt f d k) x =
  if String.eqb k x
  then Some (f (match Py.get d k with Some v => v | None => dflt end))
  else Py.get d x.
Proof.
  induction d as [|[k' v'] d IH]; simpl.
  - reflexivity.
  - destruct (String.eqb_spec k' k) as [->|Hk]; simpl.
    + destruct (String.eqb_spec k x); reflexivity.
    + rewrite IH. destruct (String.eqb_spec k x) as [->|Hx].
      * destruct (String.eqb_spec k' x); [contradiction|reflexivity].
      * reflexivity.
Qed.

Lemma get_set (d : Py.dict V) (k x : string) (v : V) :
  Py.get (Py.set d k v) x = if String.eqb k x then Some v else Py.get d x.
Proof.
  induction d as [|[k' v'] d IH]; simpl.
  - reflexivity.
  - destruct (String.eqb_spec k' k) as [->|Hk]; simpl.
    + destruct (String.eqb_spec k x); reflexivity.
    + rewrite IH. destruct (String.eqb_spec k x) as [->|Hx].
      * destruct (String.eqb_spec k' x); [contradiction|reflexivity].
      * reflexivity.
Qed.

Lemma get_in_keys (d : Py.dict V) (x : string) :
  In x (Py.keys d) <-> Py.get d x <> None.
Proof.
  induction d as [|[k v] d IH]; simpl.
  - split; [tauto|congruence].
  - destruct (String.eqb_spec k x) as [->|Hk].
    + split; [discriminate|auto].
    + rewrite <- IH. split; [intros [H|H]; [contradiction|exact H] | auto].
Qed.

(** [update] appends a key that is not there and keeps the others in place. *)
Lemma keys_update (dflt : V) (f : V -> V) (d : Py.dict V) (k : string) :
  Py.keys (Py.update dflt f d k) = Py.add_key (Py.keys d) k.
Proof.
  unfold Py.add_key. induction d as [|[k' v'] d IH]; simpl.
  - reflexivity.
  - rewrite (String.eqb_sym k k').
    destruct (String.eqb_spec k' k) as [->|Hk]; simpl.
    + reflexivity.
    + change (k' :: Py.keys (Py.update dflt f d k) =
              if existsb (String.eqb k) (Py.keys d)
              then k' :: Py.keys d else k' :: Py.keys d ++ [k]).
      rewrite IH. destruct (existsb (String.eqb k) (Py.keys d)); reflexivity.
Qed.

End DictFacts.

(* ------------------------------------------------------------------ *)
(** ** Ranks *)

Lemma rank_from_absent (n : Z) (ids : list string) (x : string) :
  ~ In x ids -> Retriever.rank_from n ids x = None.
Proof.
  revert n. induction ids as [|y ids IH]; intros n Hx; simpl; [reflexivity|].
  destruct (String.eqb_spec y x) as [->|Hy]; [exfalso; apply Hx; now left|].
  apply IH. intros H. apply Hx. now right.
Qed.




(* ------------------------------------------------------------------ *)
(** ** The score table, in exact arithmetic *)

Section ExactScores.
Local Abbreviation E := Num.exact.
Local Abbreviation doc := (VectorDB.doc Num.exact).
Local Abbreviation ids := (map (@VectorDB.d_chunk_id Num.exact)).
Local Open Scope Q_scope.

Ltac as_rational t :=
  let q := fresh "q" in pose (q := (t : Q)); change t with q; clearbody q.

Ltac exact_arith :=
  unfold Retriever.zero;
  cbn [Num.num Num.of_Z Num.add Num.sub Num.mul Num.div Num.ltb Num.leb Num.exact] in *;
  change (inject_Z 0) with 0%Q in *; change (inject_Z 1) with 1%Q in *;
  repeat match goal with
         | |- context [Retriever.score_of Num.exact ?s ?x] =>
             as_rational (Retriever.score_of Num.exact s x)
         | |- context [Retriever.term_from Num.exact ?n ?l ?x] =>
             as_rational (Retriever.term_from Num.exact n l x)
         end.

Lemma score_of_update (w : Q) (n : Z) (scores : Py.dict Q) (k x : string) :
  Retriever.score_of E
    (Py.update (Retriever.zero E)
       (fun v => Num.add E v (Num.mul E w (Num.div E (Num.of_Z E 1) (Num.of_Z E (60 + n)))))
       scores k) x
  == Retriever.score_of E scores x
     + (if String.eqb k x then w * (1 / inject_Z (60 + n)) else 0).
Proof.
  unfold Retriever.score_of. rewrite get_update.
  destruct (String.eqb_spec k x) as [->|Hk]; exact_arith.
  - destruct (Py.get scores x); reflexivity.
  - destruct (Py.get scores x); ring.
Qed.

(** One ranking without repeated identifiers adds [w/(60 + rank)] to the
    score of each of its candidates and nothing to the others. *)
Lemma add_scores_from (w : Q) (results : list doc) (n : Z)
      (scores : Py.dict Q) (x : string) :
  NoDup (ids results) ->
  Retriever.score_of E
    (fold_left (Retriever.score_step (A := E) 60 w) (Py.enumerate results n) scores) x
  == Retriever.score_of E scores x
     + w * Retriever.term_from E n (ids results) x.
Proof.
  revert n scores. induction results as [|d results IH]; intros n scores Hnd.
  - cbn [Py.enumerate fold_left map]. unfold Retriever.term_from.
    cbn [Retriever.rank_from]. exact_arith. ring.
  - cbn [map] in Hnd. inversion Hnd as [|? ? Hnotin Hnd']; subst.
    cbn [Py.enumerate fold_left]. rewrite IH by assumption.
    change (Retriever.score_step (A := E) 60 w scores (n, d))
      with (Py.update (Retriever.zero E)
              (fun v => Num.add E v
                 (Num.mul E w (Num.div E (Num.of_Z E 1) (Num.of_Z E (60 + n)))))
              scores (VectorDB.d_chunk_id d)).
    rewrite score_of_update.
    unfold Retriever.term_from. cbn [map Retriever.rank_from].
    destruct (String.eqb_spec (VectorDB.d_chunk_id d) x) as [Heq|Hd].
    + rewrite Heq in Hnotin.
      rewrite rank_from_absent by assumption. exact_arith. ring.
    + exact_arith. ring.
Qed.

Lemma build_scores_formula (sem kw : list doc) (sw : Q) (x : string) :
  NoDup (ids sem) -> NoDup (ids kw) ->
  Retriever.score_of E (Retriever.build_scores (A := E) sem kw sw) x
  == Retriever.rrf_formula sem kw sw x.
Proof.
  intros Hs Hk. unfold Retriever.build_scores, Retriever.add_scores.
  rewrite !add_scores_from by assumption.
  unfold Retriever.rrf_formula, Retriever.rrf_term, Retriever.score_of. simpl Py.get.
  exact_arith. ring.
Qed.

End ExactScores.

(* ------------------------------------------------------------------ *)
(** ** Sorting, slicing, traversing *)


Lemma in_add_keys (l ks : list string) (x : string) :
  In x (fold_left Py.add_key l ks) <-> In x ks \/ In x l.
Proof.
  revert ks. induction l as [|y l IH]; intros ks; simpl; [tauto|].
  rewrite IH. unfold Py.add_key.
  destruct (existsb (String.eqb y) ks) eqn:E.
  - apply existsb_eqb_in in E. intuition (subst; auto).
  - rewrite in_app_iff. simpl. tauto.
Qed.

Section SortFacts.
Context {B : Type} (before : B -> B -> bool).

Lemma in_insert_by (x z : B) (l : list B) :
  In z (Py.insert_by before x l) <-> z = x \/ In z l.
Proof.
  induction l as [|y l IH]; simpl; [intuition auto|].
  destruct (before y x); simpl; [rewrite IH|]; intuition auto.
Qed.

Lemma in_sorted_by (z : B) (l : list B) :
  In z (Py.sorted_by before l) <-> In z l.
Proof.
  induction l as [|x l IH]; simpl; [tauto|].
  rewrite in_insert_by, IH. intuition auto.
Qed.

Lemma insert_by_length (x : B) (l : list B) :
  List.length (Py.insert_by before x l) = S (List.length l).
Proof.
  induction l as [|y l IH]; simpl; [reflexivity|].
  destruct (before y x); simpl; [now rewrite IH | reflexivity].
Qed.

Lemma sorted_by_length (l : list B) :
  List.length (Py.sorted_by before l) = List.length l.
Proof.
  induction l as [|x l IH]; simpl; [reflexivity|].
  now rewrite insert_by_length, IH.
Qed.

End SortFacts.

(** [l[:k]] is a prefix of [l], of at most [k] elements when [k >= 0]. *)
Lemma slice_to_firstn {B : Type} (l : list B) (k : Z) :
  Py.slice_to l k = firstn (Z.to_nat (Py.norm_index (Py.len l) k)) l.
Proof.
  unfold Py.slice_to, Py.slice.
  assert (H0 : Py.norm_index (Py.len l) 0 = 0).
  { unfold Py.norm_index, Py.len. simpl. lia. }
  rewrite H0. simpl skipn. f_equal. f_equal. lia.
Qed.


Lemma traverse_ok {B C : Type} (f : B -> Py.result C) (P : B -> C -> Prop)
      (l : list B) :
  (forall x, In x l -> exists y, f x = Py.Ok y /\ P x y) ->
  exists ys, Py.traverse f l = Py.Ok ys /\ Forall2 P l ys.
Proof.
  induction l as [|x l IH]; intros H.
  - exists []. split; [reflexivity|constructor].
  - destruct (H x (or_introl eq_refl)) as (y & Hy & HP).
    destruct IH as (ys & Hys & HF); [intros z Hz; apply H; now right|].
    exists (y :: ys). simpl. rewrite Hy. simpl. rewrite Hys. simpl.
    split; [reflexivity | now constructor].
Qed.

Lemma Forall2_in_right {B C : Type} (P : B -> C -> Prop) (l : list B) (l' : list C)
      (y : C) :
  Forall2 P l l' -> In y l' -> exists x, In x l /\ P x y.
Proof.
  induction 1 as [|a b l l' Hab HF IH]; intros Hy; [destruct Hy|].
  destruct Hy as [<-|Hy].
  - exists a. split; [now left | exact Hab].
  - destruct (IH Hy) as (x & Hx & HP). exists x. split; [now right | exact HP].
Qed.

Lemma StronglySorted_firstn {B : Type} (R : B -> B -> Prop) (n : nat) (l : list B) :
  StronglySorted R l -> StronglySorted R (firstn n l).
Proof.
  revert n. induction l as [|x l IH]; intros n H; destruct n; simpl;
    try constructor.
  - apply IH. now inversion H.
  - inversion H as [|? ? _ HF]; subst. rewrite Forall_forall in *.
    intros z Hz. apply HF. rewrite <- (firstn_skipn n l). apply in_or_app. now left.
Qed.


(* ------------------------------------------------------------------ *)
(** ** The two tables of [_rerank] *)

Section RerankTables.
Variable A : Num.Arith.
Local Abbreviation doc := (VectorDB.doc A).
Local Abbreviation ids := (map (@VectorDB.d_chunk_id A)).

Local Abbreviation filed := (@Retriever.filed A).

Lemma all_docs_semantic (sem : list doc) (all_docs : Py.dict doc) :
  filed all_docs ->
  let all_docs' :=
    fold_left (fun all_docs d => Py.set all_docs (VectorDB.d_chunk_id d) d) sem all_docs in
  filed all_docs'
  /\ forall x, Py.get all_docs' x <> None <-> Py.get all_docs x <> None \/ In x (ids sem).
Proof.
  revert all_docs. induction sem as [|d sem IH]; intros all_docs Hf; simpl.
  - split; [exact Hf | intros x; tauto].
  - destruct (IH (Py.set all_docs (VectorDB.d_chunk_id d) d)) as [Hf' Hin].
    + intros x d' Hget. rewrite get_set in Hget.
      destruct (String.eqb_spec (VectorDB.d_chunk_id d) x) as [Heq|Hne].
      * now injection Hget as <-.
      * now apply Hf.
    + split; [exact Hf'|]. intros x. rewrite Hin, get_set.
      destruct (String.eqb_spec (VectorDB.d_chunk_id d) x) as [Heq|Hne].
      * split; [auto | intros _; left; discriminate].
      * split; [intros [H|H]; auto | intros [H|[H|H]]; auto; contradiction].
Qed.

Lemma all_docs_keyword (kw : list doc) (all_docs : Py.dict doc) :
  filed all_docs ->
  let all_docs' :=
    fold_left (fun all_docs d =>
                 if negb (Py.contains all_docs (VectorDB.d_chunk_id d))
                 then Py.set all_docs (VectorDB.d_chunk_id d) d
                 else all_docs) kw all_docs in
  filed all_docs'
  /\ forall x, Py.get all_docs' x <> None <-> Py.get all_docs x <> None \/ In x (ids kw).
Proof.
  revert all_docs. induction kw as [|d kw IH]; intros all_docs Hf; simpl.
  - split; [exact Hf | intros x; tauto].
  - destruct (Py.contains all_docs (VectorDB.d_chunk_id d)) eqn:Hc; simpl negb; cbv iota.
    + destruct (IH all_docs Hf) as [Hf' Hin]. split; [exact Hf'|].
      intros x. rewrite Hin. split; [tauto|].
      intros [H|[H|H]]; auto. subst x. left.
      unfold Py.contains in Hc.
      destruct (Py.get all_docs (VectorDB.d_chunk_id d)); [discriminate|discriminate Hc].
    + destruct (IH (Py.set all_docs (VectorDB.d_chunk_id d) d)) as [Hf' Hin].
      * intros x d' Hget. rewrite get_set in Hget.
        destruct (String.eqb_spec (VectorDB.d_chunk_id d) x) as [Heq|Hne].
        -- now injection Hget as <-.
        -- now apply Hf.
      * split; [exact Hf'|]. intros x. rewrite Hin, get_set.
        destruct (String.eqb_spec (VectorDB.d_chunk_id d) x) as [Heq|Hne].
        -- split; [auto | intros _; left; discriminate].
        -- split; [intros [H|H]; auto | intros [H|[H|H]]; auto; contradiction].
Qed.

(** [all_docs] has a dictionary for every candidate of either ranking. *)
Lemma build_all_docs_get (sem kw : list doc) (x : string) :
  In x (ids sem ++ ids kw) ->
  exists d, Py.get (Retriever.build_all_docs sem kw) x = Some d
            /\ VectorDB.d_chunk_id d = x.
Proof.
  intros Hx. unfold Retriever.build_all_docs.
  destruct (@all_docs_semantic sem []) as [Hf1 Hin1]; [intros ? ? H; discriminate H|].
  destruct (all_docs_keyword kw Hf1) as [Hf2 Hin2].
  cbv zeta in *.
  match goal with
  | |- exists d, Py.get ?t x = Some d /\ _ =>
      destruct (Py.get t x) as [d|] eqn:Hget
  end.
  - exists d. split; [reflexivity | eapply Hf2, Hget].
  - exfalso. apply in_app_or in Hx.
    assert (Hne : Py.get
             (fold_left
                (fun (all_docs : Py.dict doc) (d : doc) =>
                 if negb (Py.contains all_docs (VectorDB.d_chunk_id d))
                 then Py.set all_docs (VectorDB.d_chunk_id d) d
                 else all_docs) kw
                (fold_left
                   (fun (all_docs : Py.dict doc) (d : doc) =>
                    Py.set all_docs (VectorDB.d_chunk_id d) d) sem [])) x <> None).
    { apply Hin2. destruct Hx as [Hx|Hx]; [left; apply Hin1; now right | now right]. }
    apply Hne, Hget.
Qed.

Lemma keys_add_scores_from (k : Z) (w : Num.num A) (results : list doc) (n : Z)
      (scores : Py.dict (Num.num A)) :
  Py.keys (fold_left (Retriever.score_step k w) (Py.enumerate results n) scores)
  = fold_left Py.add_key (ids results) (Py.keys scores).
Proof.
  revert n scores. induction results as [|d results IH]; intros n scores.
  - reflexivity.
  - cbn [Py.enumerate fold_left map]. rewrite IH. f_equal.
    unfold Retriever.score_step. apply keys_update.
Qed.

(** The keys of [scores], in the order [sorted] receives them. *)
Lemma keys_build_scores (sem kw : list doc) (sw : Num.num A) :
  Py.keys (Retriever.build_scores sem kw sw)
  = fold_left Py.add_key (ids sem ++ ids kw) [].
Proof.
  unfold Retriever.build_scores, Retriever.add_scores.
  rewrite !keys_add_scores_from, fold_left_app. reflexivity.
Qed.

(** [_rerank] never raises: it returns one dictionary per identifier of the
    sorted and cut list, carrying that identifier and its score. *)
Lemma rerank_returns (sem kw : list doc) (sw : Num.num A) (top_k : Z) :
  let scores := Retriever.build_scores sem kw sw in
  exists results,
    Retriever._rerank sem kw sw top_k = Py.Ok results
    /\ Forall2 (fun x d => VectorDB.d_chunk_id d = x
                           /\ VectorDB.d_combined_score d
                              = Some (Retriever.score_of A scores x)
                           /\ In x (ids sem ++ ids kw))
               (Py.slice_to (Retriever.rank_ids A scores) top_k) results.
Proof.
  intros scores. unfold Retriever._rerank. fold scores.
  apply traverse_ok. intros x Hx.
  rewrite slice_to_firstn in Hx.
  assert (Hin : In x (ids sem ++ ids kw)).
  { assert (Hx' : In x (Retriever.rank_ids A scores)).
    { rewrite <- (firstn_skipn (Z.to_nat (Py.norm_index
                     (Py.len (Retriever.rank_ids A scores)) top_k))
                   (Retriever.rank_ids A scores)).
      apply in_or_app. now left. }
    unfold Retriever.rank_ids in Hx'. rewrite in_sorted_by in Hx'.
    subst scores. rewrite keys_build_scores, in_add_keys in Hx'.
    destruct Hx' as [[]|Hx']. exact Hx'. }
  destruct (build_all_docs_get sem kw x Hin) as (d & Hget & Hid).
  rewrite Hget. eexists. split; [reflexivity|]. simpl. auto.
Qed.

End RerankTables.

(* ------------------------------------------------------------------ *)
(** ** The order of the keys, and the stable sort *)





Section StableSort.
Context {B : Type} (f : B -> Q) (T : B -> B -> Prop).
Local Open Scope Q_scope.

Let before (a b : B) : bool := negb (Qle_bool (f a) (f b)).
Let R (a b : B) : Prop := f b < f a \/ (f a == f b /\ T a b).

Lemma insert_by_sorted (x : B) (l : list B) :
  StronglySorted R l -> Forall (T x) l ->
  StronglySorted R (Py.insert_by before x l).
Proof.
  induction l as [|y l IH]; intros HS HT; simpl.
  - repeat constructor.
  - inversion HS as [|? ? HS' HAll]; subst. inversion HT as [|? ? Hxy HT']; subst.
    unfold before at 1. destruct (Qle_bool (f y) (f x)) eqn:E; simpl.
    + apply Qle_bool_iff in E. constructor; [exact HS|].
      constructor.
      * unfold R. apply Qle_lteq in E. destruct E as [E|E]; [now left|].
        right. split; [now symmetry | exact Hxy].
      * rewrite Forall_forall in *. intros z Hz.
        assert (Hzy : f z <= f y).
        { destruct (HAll z Hz) as [H|[H _]];
            [now apply Qlt_le_weak | rewrite H; apply Qle_refl]. }
        assert (Hzx : f z <= f x) by (eapply Qle_trans; eassumption).
        unfold R. apply Qle_lteq in Hzx. destruct Hzx as [H|H]; [now left|].
        right. split; [now symmetry | now apply HT'].
    + assert (Hlt : f x < f y).
      { apply Qnot_le_lt. intros H. apply Qle_bool_iff in H. congruence. }
      constructor; [now apply IH|].
      apply Forall_forall. intros z Hz. apply in_insert_by in Hz.
      destruct Hz as [->|Hz]; [now left|].
      rewrite Forall_forall in HAll. now apply HAll.
Qed.

(** Sorting by decreasing [f] a list that [T] already orders gives a list
    ordered by decreasing [f], and by [T] where [f] ties. *)
Lemma sorted_by_stable (l : list B) :
  StronglySorted T l -> StronglySorted R (Py.sorted_by before l).
Proof.
  induction l as [|x l IH]; intros HS; simpl; [constructor|].
  inversion HS as [|? ? HS' HAll]; subst.
  apply insert_by_sorted; [now apply IH|].
  rewrite Forall_forall in *. intros z Hz. apply in_sorted_by in Hz. now apply HAll.
Qed.

End StableSort.

(* ------------------------------------------------------------------ *)
(** ** The order of the results *)

Section RerankOrder.
Local Abbreviation E := Num.exact.
Local Abbreviation doc := (VectorDB.doc Num.exact).
Local Abbreviation ids := (map (@VectorDB.d_chunk_id Num.exact)).




End RerankOrder.

(* ------------------------------------------------------------------ *)
(** ** Hybrid retriever: the fused score (C1) *)



(* ------------------------------------------------------------------ *)
(** ** The two queries of [retrieve] *)

Section QueryFacts.
Variable A : Num.Arith.

Lemma sql_limit_ok {T : Type} (limit : Z) (rows out : list T) :
  VectorDB.sql_limit limit rows = Py.Ok out <->
  0 <= limit /\ out = firstn (Z.to_nat limit) rows.
Proof.
  unfold VectorDB.sql_limit. destruct (Z.ltb_spec limit 0); split.
  - discriminate.
  - intros [H' _]. lia.
  - intros H'. injection H' as <-. auto.
  - intros [_ ->]. reflexivity.
Qed.

Lemma bind_ok {B C : Type} (m : Py.result B) (k : B -> Py.result C) (c : C) :
  Py.bind m k = Py.Ok c <-> exists b, m = Py.Ok b /\ k b = Py.Ok c.
Proof.
  destruct m as [b|e]; simpl; split.
  - intros H. exists b. auto.
  - intros (b' & Hb & Hk). now injection Hb as <-.
  - discriminate.
  - intros (b' & Hb & _). discriminate Hb.
Qed.

(** A search returns unless its limit is negative. *)
Lemma semantic_search_returns (engine : VectorDB.Engine A) (t : VectorDB.table A)
      (q : list (Num.num A)) (limit : Z) (repo ft : option string)
      (threshold : Num.num A) :
  0 <= limit ->
  exists docs, VectorDB.semantic_search engine t q limit repo ft threshold = Py.Ok docs
               /\ Py.len docs <= limit.
Proof.
  intros Hl. unfold VectorDB.semantic_search, VectorDB.sql_limit.
  destruct (Z.ltb_spec limit 0); [lia|]. simpl. eexists. split; [reflexivity|].
  unfold Py.len. rewrite length_map, length_firstn. lia.
Qed.

Lemma keyword_search_returns (engine : VectorDB.Engine A) (t : VectorDB.table A)
      (query : string) (limit : Z) (repo : option string) :
  0 <= limit ->
  exists docs, VectorDB.keyword_search engine t query limit repo = Py.Ok docs
               /\ Py.len docs <= limit.
Proof.
  intros Hl. unfold VectorDB.keyword_search, VectorDB.sql_limit.
  destruct (Z.ltb_spec limit 0); [lia|]. simpl. eexists. split; [reflexivity|].
  unfold Py.len. rewrite length_map, length_firstn. lia.
Qed.

Lemma semantic_search_limit (engine : VectorDB.Engine A) (t : VectorDB.table A)
      (q : list (Num.num A)) (limit : Z) (repo ft : option string)
      (threshold : Num.num A) (docs : list (VectorDB.doc A)) :
  VectorDB.semantic_search engine t q limit repo ft threshold = Py.Ok docs ->
  0 <= limit.
Proof.
  unfold VectorDB.semantic_search, VectorDB.sql_limit.
  destruct (Z.ltb_spec limit 0); [discriminate|auto].
Qed.

Lemma insert_by_ids {B : Type} (key : B -> string) (before : B -> B -> bool)
      (x : B) (l : list B) :
  NoDup (key x :: map key l) -> NoDup (map key (Py.insert_by before x l)).
Proof.
  induction l as [|y l IH]; intros H; simpl; [exact H|].
  destruct (before y x); [|exact H].
  simpl in *. inversion H as [|? ? Hx Hyl]; subst.
  inversion Hyl as [|? ? Hy Hl]; subst.
  constructor.
  - intros Hin. apply in_map_iff in Hin. destruct Hin as (z & Hz & Hin).
    apply in_insert_by in Hin. destruct Hin as [->|Hin].
    + apply Hx. left. now symmetry.
    + apply Hy. rewrite <- Hz. now apply in_map.
  - apply IH. constructor; [|exact Hl]. intros Hin. apply Hx. now right.
Qed.

Lemma sorted_by_ids {B : Type} (key : B -> string) (before : B -> B -> bool)
      (l : list B) :
  NoDup (map key l) -> NoDup (map key (Py.sorted_by before l)).
Proof.
  induction l as [|x l IH]; intros H; simpl; [constructor|].
  simpl in H. inversion H as [|? ? Hx Hl]; subst.
  apply insert_by_ids. constructor; [|now apply IH].
  intros Hin. apply Hx. apply in_map_iff in Hin. destruct Hin as (z & Hz & Hin).
  apply in_sorted_by in Hin. rewrite <- Hz. now apply in_map.
Qed.

Lemma filter_ids {B : Type} (key : B -> string) (p : B -> bool) (l : list B) :
  NoDup (map key l) -> NoDup (map key (filter p l)).
Proof.
  induction l as [|x l IH]; intros H; simpl; [constructor|].
  simpl in H. inversion H as [|? ? Hx Hl]; subst.
  destruct (p x); simpl; [|now apply IH].
  constructor; [|now apply IH]. intros Hin. apply Hx.
  apply in_map_iff in Hin. destruct Hin as (z & Hz & Hin).
  apply filter_In in Hin. rewrite <- Hz. apply in_map. tauto.
Qed.

Lemma firstn_ids {B : Type} (key : B -> string) (n : nat) (l : list B) :
  NoDup (map key l) -> NoDup (map key (firstn n l)).
Proof.
  intros H. rewrite <- (firstn_skipn n l), map_app in H.
  now apply NoDup_app_remove_r in H.
Qed.

(** Over a table that respects the [UNIQUE] constraint, a search returns no
    [chunk_id] twice. *)
Lemma semantic_search_unique (engine : VectorDB.Engine A) (t : VectorDB.table A)
      (q : list (Num.num A)) (limit : Z) (repo ft : option string)
      (threshold : Num.num A) (docs : list (VectorDB.doc A)) :
  NoDup (map (@VectorDB.chunk_id A) t) ->
  VectorDB.semantic_search engine t q limit repo ft threshold = Py.Ok docs ->
  NoDup (map (@VectorDB.d_chunk_id A) docs).
Proof.
  intros Hnd Hrun. unfold VectorDB.semantic_search in Hrun.
  apply bind_ok in Hrun. destruct Hrun as (rows & Hrows & Hdocs).
  injection Hdocs as <-. apply sql_limit_ok in Hrows. destruct Hrows as [_ ->].
  rewrite map_map. cbn [VectorDB.doc_of_row VectorDB.d_chunk_id].
  apply firstn_ids, sorted_by_ids, filter_ids, Hnd.
Qed.

Lemma keyword_search_unique (engine : VectorDB.Engine A) (t : VectorDB.table A)
      (query : string) (limit : Z) (repo : option string)
      (docs : list (VectorDB.doc A)) :
  NoDup (map (@VectorDB.chunk_id A) t) ->
  VectorDB.keyword_search engine t query limit repo = Py.Ok docs ->
  NoDup (map (@VectorDB.d_chunk_id A) docs).
Proof.
  intros Hnd Hrun. unfold VectorDB.keyword_search in Hrun.
  apply bind_ok in Hrun. destruct Hrun as (rows & Hrows & Hdocs).
  injection Hdocs as <-. apply sql_limit_ok in Hrows. destruct Hrows as [_ ->].
  rewrite map_map. cbn [VectorDB.doc_of_row VectorDB.d_chunk_id].
  apply firstn_ids, sorted_by_ids, filter_ids, Hnd.
Qed.

End QueryFacts.

(* ------------------------------------------------------------------ *)
(** ** Hybrid retriever: order and length of the results (C6) *)



(** The rankings that [retrieve] fuses come from a table with a [UNIQUE]
    [chunk_id], so the fused score of every result is the formula. *)
Corollary retrieve_fused_scores (self : Retriever.HybridRetriever Num.exact)
          (query : string) (top_k : Z) (semantic_weight : Q)
          (repo_name file_type : option string)
          (results : list (VectorDB.doc Num.exact)) :
  NoDup (map (@VectorDB.chunk_id Num.exact) (Retriever.db self)) ->
  Retriever.retrieve self query top_k semantic_weight repo_name file_type
  = Py.Ok results ->
  exists semantic_results keyword_results,
    VectorDB.semantic_search (Retriever.engine self) (Retriever.db self)
      (Retriever.embed_text self query) (top_k * 2) repo_name file_type
      (1 / 2)%Q = Py.Ok semantic_results
    /\ VectorDB.keyword_search (Retriever.engine self) (Retriever.db self)
         query top_k repo_name = Py.Ok keyword_results
    /\ Forall (fun d : VectorDB.doc Num.exact => exists s : Q,
                 VectorDB.d_combined_score d = Some s
                 /\ (s == Retriever.rrf_formula semantic_results keyword_results
                           semantic_weight (VectorDB.d_chunk_id d))%Q)
              results.
Proof.
  intros Hnd Hrun. unfold Retriever.retrieve in Hrun.
  apply bind_ok in Hrun. destruct Hrun as (sem & Hsem & Hrun).
  apply bind_ok in Hrun. destruct Hrun as (kw & Hkw & Hrun).
  exists sem, kw. split; [exact Hsem|]. split; [exact Hkw|].
  pose proof (semantic_search_unique _ _ _ _ _ _ _ Hnd Hsem) as Hs.
  pose proof (keyword_search_unique _ _ _ _ _ Hnd Hkw) as Hk.
  destruct (rerank_returns sem kw semantic_weight top_k) as (results' & Hrun' & HF).
  rewrite Hrun in Hrun'. injection Hrun' as <-.
  apply Forall_forall. intros d Hd.
  destruct (@Forall2_in_right _ _ _ _ _ d HF Hd) as (x & _ & Hid & Hscore & _).
  eexists. split; [exact Hscore|]. rewrite Hid. now apply build_scores_formula.
Qed.

(* ------------------------------------------------------------------ *)
(** ** Hybrid retriever: what the two paths are asked (C5) *)

(** The part of C5 that holds: [retrieve] is the fusion of a semantic search
    limited to [2 * top_k] rows at threshold 0.5, filtered by repository and
    file type, and of a keyword search limited to [top_k] rows, filtered by
    repository. *)
Lemma retrieve_requests (A : Num.Arith) (self : Retriever.HybridRetriever A)
      (query : string) (top_k : Z) (semantic_weight : Num.num A)
      (repo_name file_type : option string) (results : list (VectorDB.doc A)) :
  Retriever.retrieve self query top_k semantic_weight repo_name file_type
  = Py.Ok results ->
  exists semantic_results keyword_results,
    VectorDB.semantic_search (Retriever.engine self) (Retriever.db self)
      (Retriever.embed_text self query) (top_k * 2) repo_name file_type
      (Num.div A (Num.of_Z A 1) (Num.of_Z A 2)) = Py.Ok semantic_results
    /\ VectorDB.keyword_search (Retriever.engine self) (Retriever.db self)
         query top_k repo_name = Py.Ok keyword_results
    /\ Py.len semantic_results <= 2 * top_k
    /\ Py.len keyword_results <= top_k
    /\ Retriever._rerank semantic_results keyword_results semantic_weight top_k
       = Py.Ok results.
Proof.
  intros Hrun. unfold Retriever.retrieve in Hrun.
  apply bind_ok in Hrun. destruct Hrun as (sem & Hsem & Hrun).
  apply bind_ok in Hrun. destruct Hrun as (kw & Hkw & Hrun).
  exists sem, kw. split; [exact Hsem|]. split; [exact Hkw|].
  pose proof (semantic_search_limit _ _ _ _ _ _ _ Hsem) as Hk.
  destruct (@semantic_search_returns A (Retriever.engine self) (Retriever.db self)
              (Retriever.embed_text self query) (top_k * 2) repo_name file_type
              (Num.div A (Num.of_Z A 1) (Num.of_Z A 2)) Hk) as (sem' & Hsem' & Hlen).
  rewrite Hsem in Hsem'. injection Hsem' as <-.
  destruct (@keyword_search_returns A (Retriever.engine self) (Retriever.db self)
              query top_k repo_name) as (kw' & Hkw' & Hlen'); [lia|].
  rewrite Hkw in Hkw'. injection Hkw' as <-.
  repeat split; [lia | exact Hlen' | exact Hrun].
Qed.

(** C5 fails on the file-type filter of the lexical path: [keyword_search]
    has no such argument.  Asked for Markdown only, [retrieve] on the example
    table returns the chunk of the Python file as well; the semantic search
    on the same table returns the Markdown chunk alone. *)
Theorem C5_keyword_path_ignores_file_type :
  let self := Retriever.example_retriever Num.exact in
  (exists results,
     Retriever.retrieve self "redis" 5 (7 # 10)%Q None (Some "md"%string) = Py.Ok results
     /\ map (@VectorDB.d_file_type Num.exact) results = [Some "md"; Some "py"]%string)
  /\ (exists semantic_results,
        VectorDB.semantic_search (Retriever.engine self) (Retriever.db self)
          (Retriever.embed_text self "redis") 10 None (Some "md"%string) (1 / 2)%Q
        = Py.Ok semantic_results
        /\ map (@VectorDB.d_file_type Num.exact) semantic_results = [Some "md"%string])
  /\ (exists keyword_results,
        VectorDB.keyword_search (Retriever.engine self) (Retriever.db self) "redis" 5 None
        = Py.Ok keyword_results
        /\ map (@VectorDB.d_file_type Num.exact) keyword_results
           = [Some "md"; Some "py"]%string).
Proof.
  cbv zeta. split; [|split]; eexists; (split; [vm_compute; reflexivity|]); reflexivity.
Qed.

(* ------------------------------------------------------------------ *)
(** ** Chunk identity and upsert (C8) *)




Section UpsertFacts.
Variable A : Num.Arith.
Local Abbreviation row := (VectorDB.row A).
Local Abbreviation ids := (map (@VectorDB.chunk_id A)).

Lemma insert_on_conflict_ids_present (t : list row) (r : row) :
  In (VectorDB.chunk_id r) (ids t) ->
  ids (VectorDB.insert_on_conflict t r) = ids t.
Proof.
  induction t as [|r0 t IH]; intros Hin; [destruct Hin|]. simpl.
  destruct (String.eqb_spec (VectorDB.chunk_id r0) (VectorDB.chunk_id r)) as [Heq|Hne].
  - reflexivity.
  - simpl. f_equal. apply IH. destruct Hin as [H|H]; [contradiction|exact H].
Qed.

Lemma insert_on_conflict_ids_absent (t : list row) (r : row) :
  ~ In (VectorDB.chunk_id r) (ids t) ->
  VectorDB.insert_on_conflict t r = t ++ [r].
Proof.
  induction t as [|r0 t IH]; intros Hout; [reflexivity|]. simpl.
  destruct (String.eqb_spec (VectorDB.chunk_id r0) (VectorDB.chunk_id r)) as [Heq|Hne].
  - exfalso. apply Hout. now left.
  - f_equal. apply IH. intros H. apply Hout. now right.
Qed.





End UpsertFacts.



(** The identifier of that chunk, as Python computes it. *)
Example chunk_id_value :
  Indexer._generate_chunk_id "octo/handbook" "docs/setup.md" 0
  = "54d544b3186ea80099bfd1a25d0f351b"%string.
Proof. vm_compute. reflexivity. Qed.

(* ================================================================== *)
(** * Further properties *)

(* ------------------------------------------------------------------ *)
(** ** Chunker: size, number and overlap of the chunks *)

(** A text with more tokens than a positive [chunk_size] is cut, for every
    [chunk_overlap < chunk_size], into [ceil(len(tokens) / stride)] chunks,
    [stride = chunk_size - chunk_overlap], and every chunk holds at least
    one and at most [chunk_size] tokens. *)
Theorem chunks_bounded_and_counted {token : Type} (self : Chunker.TextChunker token)
        (text : string) (fuel : nat) :
  let tokens := Chunker.encode (Chunker.encoding self) text in
  let stride := Chunker.chunk_size self - Chunker.chunk_overlap self in
  0 < Chunker.chunk_size self ->
  Chunker.chunk_overlap self < Chunker.chunk_size self ->
  Chunker.chunk_size self < Py.len tokens ->
  (Z.to_nat (Py.len tokens) < fuel)%nat ->
  exists ws : list (list token),
    Chunker.chunk_text self fuel text
      = Some (map (Chunker.decode (Chunker.encoding self)) ws)
    /\ Py.len ws = (Py.len tokens + stride - 1) / stride
    /\ Forall (fun w => 1 <= Py.len w <= Chunker.chunk_size self) ws.
Proof.
  intros tokens stride Hsize Hov Hlen Hfuel.
  destruct (@chunk_text_windows _ self text fuel Hov Hlen Hfuel) as (k & Hrun & Hge & Hlt).
  fold tokens in Hrun, Hge, Hlt. fold stride in Hge, Hlt.
  assert (Hstride : 0 < stride) by (subst stride; lia).
  exists (Chunker.windows self tokens k). split; [exact Hrun|]. split.
  - unfold Py.len at 1. rewrite windows_length.
    apply Z.div_unique with (r := Py.len tokens + stride - 1 - stride * Z.of_nat k); nia.
  - unfold Chunker.windows. apply Forall_forall. intros w Hw.
    apply in_map_iff in Hw. destruct Hw as (i & <- & Hi). apply in_seq in Hi.
    rewrite window_nonneg by (fold stride; lia). fold stride.
    unfold Py.len in *. rewrite length_firstn, length_skipn. nia.
Qed.

Lemma chunks_bounded_and_counted_witness :
  exists ws : list (list ascii),
    Chunker.chunk_text
      {| Chunker.chunk_size := 4; Chunker.chunk_overlap := 1;
         Chunker.encoding := Chunker.char_encoding |} 11 "chunk_text"
    = Some (map string_of_list_ascii ws)
    /\ Py.len ws = 4.
Proof.
  destruct (@chunks_bounded_and_counted _
              {| Chunker.chunk_size := 4; Chunker.chunk_overlap := 1;
                 Chunker.encoding := Chunker.char_encoding |}
              "chunk_text"%string 11%nat) as (ws & Hrun & Hcount & _).
  - simpl. lia.
  - simpl. lia.
  - vm_compute. reflexivity.
  - vm_compute. lia.
  - exists ws. split; [exact Hrun | rewrite Hcount; reflexivity].
Defined.

Lemma window_overlap {token : Type} (self : Chunker.TextChunker token)
      (tokens : list token) (i : nat) :
  let stride := Chunker.chunk_size self - Chunker.chunk_overlap self in
  0 <= Chunker.chunk_overlap self ->
  Chunker.chunk_overlap self < Chunker.chunk_size self ->
  skipn (Z.to_nat stride) (Chunker.window self tokens i)
  = firstn (Z.to_nat (Chunker.chunk_overlap self)) (Chunker.window self tokens (S i)).
Proof.
  intros stride Hov Hlt. assert (Hstride : 0 < stride) by (subst stride; lia).
  rewrite !window_nonneg by (fold stride; lia). fold stride.
  rewrite skipn_firstn_comm, skipn_skipn, firstn_firstn.
  f_equal; [subst stride; lia|]. f_equal. subst stride. nia.
Qed.

Lemma windows_nth {token : Type} (self : Chunker.TextChunker token)
      (tokens : list token) (k i : nat) :
  (i < k)%nat ->
  nth i (Chunker.windows self tokens k) [] = Chunker.window self tokens i.
Proof.
  intros Hi. unfold Chunker.windows.
  rewrite (nth_indep _ [] (Chunker.window self tokens 0))
    by (rewrite length_map, length_seq; exact Hi).
  rewrite map_nth, seq_nth by exact Hi. reflexivity.
Qed.

(** With [0 <= chunk_overlap < chunk_size < len(tokens)], chunk [i] is the
    decoding of [tokens[i * stride : i * stride + chunk_size]], [stride =
    chunk_size - chunk_overlap], and what a chunk holds after its first
    [stride] tokens is what the next chunk starts with: its first
    [chunk_overlap] tokens. *)
Theorem chunks_are_strided_windows {token : Type} (self : Chunker.TextChunker token)
        (text : string) (fuel : nat) :
  let tokens := Chunker.encode (Chunker.encoding self) text in
  let stride := Chunker.chunk_size self - Chunker.chunk_overlap self in
  0 <= Chunker.chunk_overlap self ->
  Chunker.chunk_overlap self < Chunker.chunk_size self ->
  Chunker.chunk_size self < Py.len tokens ->
  (Z.to_nat (Py.len tokens) < fuel)%nat ->
  exists ws : list (list token),
    Chunker.chunk_text self fuel text
      = Some (map (Chunker.decode (Chunker.encoding self)) ws)
    /\ (forall i : nat,
          (i < List.length ws)%nat ->
          nth i ws [] = Py.slice tokens (Z.of_nat i * stride)
                                 (Z.of_nat i * stride + Chunker.chunk_size self))
    /\ (forall i : nat,
          (S i < List.length ws)%nat ->
          skipn (Z.to_nat stride) (nth i ws [])
          = firstn (Z.to_nat (Chunker.chunk_overlap self)) (nth (S i) ws [])).
Proof.
  intros tokens stride Hov Hlt Hlen Hfuel.
  destruct (@chunk_text_windows _ self text fuel Hlt Hlen Hfuel) as (k & Hrun & _).
  fold tokens in Hrun. exists (Chunker.windows self tokens k).
  split; [exact Hrun|]. rewrite windows_length. split.
  - intros i Hi. rewrite windows_nth by exact Hi. reflexivity.
  - intros i Hi. rewrite !windows_nth by lia. now apply window_overlap.
Qed.

Lemma chunks_are_strided_windows_witness :
  exists ws : list (list ascii),
    Chunker.chunk_text
      {| Chunker.chunk_size := 4; Chunker.chunk_overlap := 1;
         Chunker.encoding := Chunker.char_encoding |} 11 "chunk_text"
    = Some (map string_of_list_ascii ws)
    /\ (forall i : nat,
          (i < List.length ws)%nat ->
          nth i ws [] = Py.slice (list_ascii_of_string "chunk_text")
                                 (Z.of_nat i * 3) (Z.of_nat i * 3 + 4))
    /\ (forall i : nat,
          (S i < List.length ws)%nat ->
          skipn 3 (nth i ws []) = firstn 1 (nth (S i) ws [])).
Proof.
  refine (@chunks_are_strided_windows _
            {| Chunker.chunk_size := 4; Chunker.chunk_overlap := 1;
               Chunker.encoding := Chunker.char_encoding |}
            "chunk_text"%string 11%nat _ _ _ _).
  - simpl. lia.
  - simpl. lia.
  - vm_compute. reflexivity.
  - vm_compute. lia.
Defined.

(* ------------------------------------------------------------------ *)
(** ** Strings *)

Local Open Scope string_scope.

Lemma append_nil_r (s : string) : s ++ "" = s.
Proof. induction s as [|c s IH]; simpl; [reflexivity | now rewrite IH]. Qed.

Lemma append_assoc (a b c : string) : (a ++ b) ++ c = a ++ b ++ c.
Proof. induction a as [|x a IH]; simpl; [reflexivity | now rewrite IH]. Qed.

Lemma length_append (a b : string) :
  String.length (a ++ b) = (String.length a + String.length b)%nat.
Proof. induction a as [|x a IH]; simpl; [reflexivity | now rewrite IH]. Qed.

Lemma prefix_iff (a s : string) :
  String.prefix a s = true <-> exists t, s = a ++ t.
Proof.
  revert s. induction a as [|x a IH]; intros s.
  - destruct s; simpl; split; eauto.
  - destruct s as [|y s]; simpl.
    + split; [discriminate | intros (t & Ht); discriminate Ht].
    + destruct (ascii_dec x y) as [->|Hne].
      * split.
        -- intros H. apply IH in H. destruct H as (t & ->). now exists t.
        -- intros (t & Ht). apply IH. exists t. simpl in Ht. now injection Ht.
      * split; [discriminate | intros (t & Ht); simpl in Ht; injection Ht; congruence].
Qed.

Lemma contains_unfold (n h : string) :
  Str.contains n h =
  if String.prefix n h then true
  else match h with
       | EmptyString => false
       | String _ h' => Str.contains n h'
       end.
Proof. destruct h; reflexivity. Qed.

(** [needle in hay] says that [hay] is [needle] between two strings. *)
Lemma contains_iff (n h : string) :
  Str.contains n h = true <-> exists pre post, h = pre ++ n ++ post.
Proof.
  split.
  - induction h as [|c h IH]; rewrite contains_unfold.
    + destruct (String.prefix n "") eqn:E; [|intros H; discriminate H].
      intros _. apply prefix_iff in E. destruct E as (t & Ht).
      exists "", t. exact Ht.
    + destruct (String.prefix n (String c h)) eqn:E.
      * intros _. apply prefix_iff in E. destruct E as (t & Ht). exists "", t. exact Ht.
      * intros H. destruct (IH H) as (pre & post & Hh).
        exists (String c pre), post. simpl. now rewrite Hh.
  - intros (pre & post & ->). induction pre as [|c pre IH]; rewrite contains_unfold.
    + assert (E : String.prefix n (n ++ post) = true) by (apply prefix_iff; eauto).
      simpl append. now rewrite E.
    + simpl append.
      destruct (String.prefix n (String c (pre ++ n ++ post))); [reflexivity | exact IH].
Qed.

Lemma lower_append (a b : string) : Str.lower (a ++ b) = Str.lower a ++ Str.lower b.
Proof. induction a as [|x a IH]; simpl; [reflexivity | now rewrite IH]. Qed.

(* ------------------------------------------------------------------ *)
(** ** The matcher *)

Lemma match_star (icase : bool) (cs : Re.charset) (r : Re.regex)
      (s : string) (cap : Re.capture) :
  Re.match_here icase (Re.Star cs :: r) s cap
  = Re.star_run icase cs (Re.match_here icase r) s cap.
Proof. destruct s; reflexivity. Qed.

Lemma match_plus (icase : bool) (cs : Re.charset) (r : Re.regex)
      (s : string) (cap : Re.capture) :
  Re.match_here icase (Re.Plus cs :: r) s cap
  = match s with
    | String c s' =>
        if Re.mem icase cs c
        then Re.star_run icase cs (Re.match_here icase r) s' (Re.push cap c)
        else None
    | EmptyString => None
    end.
Proof. destruct s as [|c [|c' s]]; reflexivity. Qed.


Lemma reports_consume (c : ascii) (s : string) (cap : Re.capture) (g rest : string) :
  Re.reports s (Re.push cap c) g rest -> Re.reports (String c s) cap g rest.
Proof.
  intros (m & Hs & H). exists (String c m). split; [simpl; now rewrite Hs|].
  destruct cap as [b acc]. unfold Re.push in H. simpl fst in *. simpl snd in *.
  destruct H as [(p & q & Hm & Hg & Hp) | (u & p & q & Hm & Hg)].
  - destruct b; simpl in *.
    + left. exists (String c p), q. split; [simpl; now rewrite Hm|].
      split; [|discriminate]. rewrite Hg, append_assoc. reflexivity.
    + left. exists "", (String c m). split; [reflexivity|].
      rewrite (Hp eq_refl) in Hg. split; [exact Hg | reflexivity].
  - right. exists (String c u), p, q. split; [simpl; now rewrite Hm | exact Hg].
Qed.

Lemma star_run_reports (icase : bool) (cs : Re.charset)
      (k : string -> Re.capture -> option (string * string)) :
  (forall s cap g rest, k s cap = Some (g, rest) -> Re.reports s cap g rest) ->
  forall s cap g rest,
    Re.star_run icase cs k s cap = Some (g, rest) -> Re.reports s cap g rest.
Proof.
  intros Hk. induction s as [|c s IH]; intros cap g rest H; simpl in H.
  - now apply Hk.
  - destruct (Re.mem icase cs c); [|now apply Hk].
    destruct (Re.star_run icase cs k s (Re.push cap c)) as [[g' rest']|] eqn:E.
    + injection H as <- <-. apply reports_consume. now apply IH.
    + now apply Hk.
Qed.

Lemma match_here_reports (icase : bool) (r : Re.regex) :
  forall s cap g rest,
    Re.match_here icase r s cap = Some (g, rest) -> Re.reports s cap g rest.
Proof.
  induction r as [|a r IH]; intros s cap g rest H.
  - simpl in H. injection H as <- <-. exists "". split; [reflexivity|].
    left. exists "", "". split; [reflexivity|]. split; [now rewrite append_nil_r | reflexivity].
  - destruct a.
    + simpl in H. destruct s as [|c s]; [discriminate|].
      destruct (Re.mem icase cs c); [|discriminate].
      apply reports_consume. now apply IH.
    + rewrite match_star in H. eapply star_run_reports; [exact IH | exact H].
    + rewrite match_plus in H. destruct s as [|c s]; [discriminate|].
      destruct (Re.mem icase cs c); [|discriminate].
      apply reports_consume. eapply star_run_reports; [exact IH | exact H].
    + simpl in H. apply IH in H. destruct H as (m & Hs & H). exists m. split; [exact Hs|].
      right. destruct H as [(p & q & Hm & Hg & _) | H]; [|exact H].
      exists "", p, q. split; [exact Hm | exact Hg].
    + simpl in H. apply IH in H. destruct H as (m & Hs & H). exists m. split; [exact Hs|].
      destruct H as [(p & q & Hm & Hg & Hp) | H]; [|now right].
      left. exists "", m. simpl in Hg, Hp. rewrite (Hp eq_refl) in Hg.
      split; [reflexivity|]. split; [exact Hg | reflexivity].
    + simpl in H. destruct (Re.at_end s); [|discriminate]. now apply IH.
Qed.

(** The group of a match is a piece of the subject. *)
Lemma match_here_substring (icase : bool) (r : Re.regex) (s g rest : string) :
  Re.match_here icase r s Re.no_capture = Some (g, rest) ->
  exists pre post, s = pre ++ g ++ post.
Proof.
  intros H. apply match_here_reports in H. destruct H as (m & Hs & H).
  destruct H as [(p & q & Hm & Hg & Hp) | (u & p & q & Hm & Hg)].
  - simpl in Hg, Hp. rewrite (Hp eq_refl) in Hg. subst g. exists "", s. reflexivity.
  - subst g. exists u, (q ++ rest). rewrite Hs, Hm, !append_assoc. reflexivity.
Qed.

Lemma findall_from_substring (r : Re.regex) (s : string) (skip : nat) (g : string) :
  In g (Re.findall_from r s skip) -> exists pre post, s = pre ++ g ++ post.
Proof.
  revert skip. induction s as [|c s IH]; intros skip H; [destruct H|].
  assert (Hshift : forall k, In g (Re.findall_from r s k) ->
                             exists pre post, String c s = pre ++ g ++ post).
  { intros k Hk. destruct (IH k Hk) as (pre & post & ->). now exists (String c pre), post. }
  simpl in H. destruct skip as [|k]; [|eapply Hshift; exact H].
  destruct (Re.match_here false r (String c s) Re.no_capture) as [[g0 rest]|] eqn:E.
  - destruct H as [<-|H]; [eapply match_here_substring; exact E | eapply Hshift; exact H].
  - eapply Hshift; exact H.
Qed.

(* ------------------------------------------------------------------ *)
(** ** The matcher against the meaning of the patterns *)

Lemma star_run_sound (icase : bool) (cs : Re.charset)
      (k : string -> Re.capture -> option (string * string))
      (D : Re.capture -> string -> string -> string -> Prop) :
  (forall s cap g rest, k s cap = Some (g, rest) ->
                        exists m, s = m ++ rest /\ D cap m g rest) ->
  forall s cap g rest,
    Re.star_run icase cs k s cap = Some (g, rest) ->
    exists w m, s = w ++ m ++ rest /\ Re.all_in icase cs w = true
                /\ D (Re.push_all cap w) m g rest.
Proof.
  intros Hk. induction s as [|c s IH]; intros cap g rest H; simpl in H.
  - destruct (Hk _ _ _ _ H) as (m & Hs & HD). exists "", m. auto.
  - assert (Hzero : k (String c s) cap = Some (g, rest) ->
                    exists w m, String c s = w ++ m ++ rest
                                /\ Re.all_in icase cs w = true
                                /\ D (Re.push_all cap w) m g rest).
    { intros H'. destruct (Hk _ _ _ _ H') as (m & Hs & HD). exists "", m. auto. }
    destruct (Re.mem icase cs c) eqn:Hc; [|now apply Hzero].
    destruct (Re.star_run icase cs k s (Re.push cap c)) as [[g' rest']|] eqn:E;
      [|now apply Hzero].
    injection H as <- <-. destruct (IH _ _ _ E) as (w & m & Hs & Hw & HD).
    exists (String c w), m. simpl. rewrite Hc, Hw. split; [now rewrite Hs | auto].
Qed.

(** Soundness: a match is a match in the sense of [denotes]. *)
Lemma match_here_sound (icase : bool) (r : Re.regex) :
  forall s cap g rest,
    Re.match_here icase r s cap = Some (g, rest) ->
    exists m, s = m ++ rest /\ Re.denotes icase r cap m g rest.
Proof.
  induction r as [|a r IH]; intros s cap g rest H.
  - simpl in H. injection H as <- <-. exists "". simpl. auto.
  - destruct a.
    + simpl in H. destruct s as [|c s]; [discriminate|].
      destruct (Re.mem icase cs c) eqn:Hc; [|discriminate].
      destruct (IH _ _ _ _ H) as (m & Hs & HD). exists (String c m).
      split; [simpl; now rewrite Hs|]. simpl. eauto.
    + rewrite match_star in H.
      destruct (star_run_sound icase cs (Re.match_here icase r)
                  (fun cap m g rest => Re.denotes icase r cap m g rest) IH _ _ H)
        as (w & m & Hs & Hw & HD).
      exists (w ++ m). split; [now rewrite append_assoc|]. simpl. eauto.
    + rewrite match_plus in H. destruct s as [|c s]; [discriminate|].
      destruct (Re.mem icase cs c) eqn:Hc; [|discriminate].
      destruct (star_run_sound icase cs (Re.match_here icase r)
                  (fun cap m g rest => Re.denotes icase r cap m g rest) IH _ _ H)
        as (w & m & Hs & Hw & HD).
      exists (String c (w ++ m)). split; [simpl; now rewrite Hs, append_assoc|].
      simpl. exists c, w, m. auto.
    + simpl in H. destruct (IH _ _ _ _ H) as (m & Hs & HD). exists m. auto.
    + simpl in H. destruct (IH _ _ _ _ H) as (m & Hs & HD). exists m. auto.
    + simpl in H. destruct (Re.at_end s) eqn:He; [|discriminate].
      destruct (IH _ _ _ _ H) as (m & Hs & HD). exists m. split; [exact Hs|].
      simpl. rewrite <- Hs. auto.
Qed.

Lemma star_run_complete (icase : bool) (cs : Re.charset)
      (k : string -> Re.capture -> option (string * string)) (w s : string) :
  forall cap,
    Re.all_in icase cs w = true ->
    k s (Re.push_all cap w) <> None ->
    Re.star_run icase cs k (w ++ s) cap <> None.
Proof.
  induction w as [|c w IH]; intros cap Hw Hk; simpl in *.
  - destruct s as [|c s]; simpl; [exact Hk|].
    destruct (Re.mem icase cs c); [|exact Hk].
    destruct (Re.star_run icase cs k s (Re.push cap c)); [discriminate | exact Hk].
  - apply andb_true_iff in Hw. destruct Hw as [Hc Hw]. rewrite Hc.
    specialize (IH (Re.push cap c) Hw Hk).
    destruct (Re.star_run icase cs k (w ++ s) (Re.push cap c)); [discriminate | congruence].
Qed.

(** Completeness: where a pattern matches in the sense of [denotes], the
    matcher finds a match (the greedy one, which may be another). *)
Lemma match_here_complete (icase : bool) (r : Re.regex) :
  forall cap m g rest,
    Re.denotes icase r cap m g rest ->
    Re.match_here icase r (m ++ rest) cap <> None.
Proof.
  induction r as [|a r IH]; intros cap m g rest H.
  - simpl. discriminate.
  - destruct a; simpl in H.
    + destruct H as (c & m' & -> & Hc & HD). simpl. rewrite Hc. eapply IH, HD.
    + destruct H as (w & m' & -> & Hw & HD). rewrite match_star, append_assoc.
      apply star_run_complete; [exact Hw | eapply IH, HD].
    + destruct H as (c & w & m' & -> & Hc & Hw & HD). rewrite match_plus.
      simpl. rewrite Hc, append_assoc.
      apply star_run_complete; [exact Hw | eapply IH, HD].
    + simpl. eapply IH, H.
    + simpl. eapply IH, H.
    + destruct H as [He HD]. simpl. rewrite He. eapply IH, HD.
Qed.

(** A match at some place of the subject makes [search] succeed. *)
Lemma search_complete (icase : bool) (r : Re.regex) (pre s : string) :
  Re.match_here icase r s Re.no_capture <> None ->
  Re.search icase r (pre ++ s) = true.
Proof.
  intros H. induction pre as [|c pre IH]; simpl.
  - destruct s; simpl;
      destruct (Re.match_here icase r _ Re.no_capture); congruence.
  - destruct (Re.match_here icase r (String c (pre ++ s)) Re.no_capture);
      [reflexivity | exact IH].
Qed.

Lemma search_sound (icase : bool) (r : Re.regex) (s : string) :
  Re.search icase r s = true ->
  exists pre m g rest, s = pre ++ m ++ rest
                       /\ Re.denotes icase r Re.no_capture m g rest.
Proof.
  induction s as [|c s IH]; simpl.
  - destruct (Re.match_here icase r "" Re.no_capture) as [[g rest]|] eqn:E; [|discriminate].
    intros _. destruct (match_here_sound _ _ _ _ E) as (m & Hs & HD).
    exists "", m, g, rest. auto.
  - destruct (Re.match_here icase r (String c s) Re.no_capture) as [[g rest]|] eqn:E.
    + intros _. destruct (match_here_sound _ _ _ _ E) as (m & Hs & HD).
      exists "", m, g, rest. auto.
    + intros H. destruct (IH H) as (pre & m & g & rest & Hs & HD).
      exists (String c pre), m, g, rest. split; [simpl; now rewrite Hs | exact HD].
Qed.

(* ------------------------------------------------------------------ *)
(** ** Response validator: what counts as a citation *)

Lemma push_all_open (acc w : string) :
  Re.push_all (true, acc) w = (true, acc ++ w).
Proof.
  revert acc. induction w as [|c w IH]; intros acc; simpl.
  - now rewrite append_nil_r.
  - unfold Re.push. simpl. rewrite IH, append_assoc. reflexivity.
Qed.

Lemma push_all_closed (acc w : string) :
  Re.push_all (false, acc) w = (false, acc).
Proof. induction w as [|c w IH]; simpl; [reflexivity | exact IH]. Qed.

Lemma push_open (acc : string) (c : ascii) :
  Re.push (true, acc) c = (true, acc ++ String c "").
Proof. reflexivity. Qed.

Lemma push_closed (acc : string) (c : ascii) : Re.push (false, acc) c = (false, acc).
Proof. reflexivity. Qed.

Lemma mem_lit (o c : ascii) : Re.mem false (Re.Lit o) c = true <-> c = o.
Proof. simpl. apply Ascii.eqb_eq. Qed.

(** A match of a citation pattern: the two delimiters around a stem of path
    characters, a dot and an extension of word characters; the group is what
    stands between the delimiters. *)
Lemma citation_pattern_sound (o cl : ascii) (s g rest : string) :
  Re.match_here false (Validator.citation_pattern o cl) s Re.no_capture
    = Some (g, rest) ->
  exists stem ext,
    s = String o (g ++ String cl rest)
    /\ g = stem ++ "." ++ ext
    /\ stem <> "" /\ ext <> ""
    /\ Re.all_in false Validator.path_chars stem = true
    /\ Re.all_in false Re.Word ext = true.
Proof.
  intros H. apply match_here_sound in H. destruct H as (m & Hs & HD).
  unfold Validator.citation_pattern in HD. cbn [Re.denotes] in HD.
  destruct HD as (c0 & m0 & -> & Hc0 & c1 & w1 & m1 & -> & Hc1 & Hw1
                  & c2 & m2 & -> & Hc2 & c3 & w3 & m3 & -> & Hc3 & Hw3
                  & c4 & m4 & -> & Hc4 & -> & ->).
  apply mem_lit in Hc0, Hc2, Hc4. subst c0 c2 c4.
  unfold Re.no_capture.
  repeat first [rewrite push_closed | rewrite push_open | rewrite push_all_open
               | progress cbn [fst snd]].
  exists (String c1 w1), (String c3 w3).
  split; [|split; [|split; [discriminate|split; [discriminate|]]]].
  - rewrite Hs. repeat first [rewrite append_assoc | progress simpl]. reflexivity.
  - repeat first [rewrite append_assoc | progress simpl]. reflexivity.
  - split; cbn [Re.all_in]; [rewrite Hc1 | rewrite Hc3]; assumption.
Qed.

Lemma findall_from_matches (r : Re.regex) (s : string) (skip : nat) (g : string) :
  In g (Re.findall_from r s skip) ->
  exists pre s' rest,
    s = pre ++ s' /\ Re.match_here false r s' Re.no_capture = Some (g, rest).
Proof.
  revert skip. induction s as [|c s IH]; intros skip H; [destruct H|].
  assert (Hshift : forall k, In g (Re.findall_from r s k) ->
            exists pre s' rest, String c s = pre ++ s'
              /\ Re.match_here false r s' Re.no_capture = Some (g, rest)).
  { intros k Hk. destruct (IH k Hk) as (pre & s' & rest & -> & Hm).
    now exists (String c pre), s', rest. }
  simpl in H. destruct skip as [|k]; [|eapply Hshift; exact H].
  destruct (Re.match_here false r (String c s) Re.no_capture) as [[g0 rest]|] eqn:E.
  - destruct H as [<-|H]; [|eapply Hshift; exact H].
    now exists "", (String c s), rest.
  - eapply Hshift; exact H.
Qed.

Lemma set_update_in (set items : list string) (x : string) :
  In x (Validator.set_update set items) <-> In x set \/ In x items.
Proof.
  unfold Validator.set_update. revert set.
  induction items as [|y items IH]; intros set; simpl; [tauto|].
  rewrite IH. destruct (existsb (String.eqb y) set) eqn:E.
  - apply existsb_eqb_in in E. intuition (subst; auto).
  - rewrite in_app_iff. simpl. tauto.
Qed.

Lemma set_update_nodup (set items : list string) :
  NoDup set -> NoDup (Validator.set_update set items).
Proof.
  unfold Validator.set_update. revert set.
  induction items as [|y items IH]; intros set Hnd; simpl; [exact Hnd|].
  apply IH. destruct (existsb (String.eqb y) set) eqn:E; [exact Hnd|].
  apply NoDup_app; [exact Hnd | repeat constructor; auto |].
  intros x Hx [<-|[]]. apply existsb_eqb_in in Hx. congruence.
Qed.

Lemma extract_citations_in (response c : string) :
  In c (Validator._extract_citations response) <->
  exists pattern, In pattern Validator.citation_patterns
                  /\ In c (Re.findall pattern response).
Proof.
  unfold Validator._extract_citations.
  assert (G : forall patterns set,
             In c (fold_left (fun citations pattern =>
                      Validator.set_update citations (Re.findall pattern response))
                    patterns set)
             <-> In c set \/ exists pattern, In pattern patterns
                                             /\ In c (Re.findall pattern response)).
  { induction patterns as [|p patterns IH]; intros set; simpl.
    - split; [auto | intros [H|(p & [] & _)]; exact H].
    - rewrite IH, set_update_in. split.
      + intros [[H|H]|(p' & Hp & H)]; eauto.
      + intros [H|(p' & [<-|Hp] & H)]; eauto. }
  rewrite G. simpl. split; [intros [[]|H]; exact H | auto].
Qed.

(** The citations of a response are pairwise distinct, and each of them
    stands in the response between [[ ]], [( )], two double quotes or two
    backquotes, and is a non-empty stem of path characters, a dot and a
    non-empty extension of word characters. *)
Theorem citations_are_delimited_paths (response : string) :
  NoDup (Validator._extract_citations response)
  /\ forall c, In c (Validator._extract_citations response) ->
       exists (o cl : ascii) (pre post stem ext : string),
         In (o, cl) [("["%char, "]"%char); ("("%char, ")"%char);
                     ("034"%char, "034"%char); ("`"%char, "`"%char)]
         /\ response = pre ++ String o (c ++ String cl post)
         /\ c = stem ++ "." ++ ext
         /\ stem <> "" /\ ext <> ""
         /\ Re.all_in false Validator.path_chars stem = true
         /\ Re.all_in false Re.Word ext = true.
Proof.
  split.
  - unfold Validator._extract_citations.
    assert (G : forall patterns set, NoDup set ->
               NoDup (fold_left (fun citations pattern =>
                        Validator.set_update citations (Re.findall pattern response))
                      patterns set)).
    { induction patterns as [|p patterns IH]; intros set Hnd; simpl; [exact Hnd|].
      apply IH, set_update_nodup, Hnd. }
    apply G. constructor.
  - intros c Hc. apply extract_citations_in in Hc. destruct Hc as (pattern & Hp & Hc).
    apply findall_from_matches in Hc. destruct Hc as (pre & s' & rest & -> & Hm).
    assert (Hpair : exists o cl,
               In (o, cl) [("["%char, "]"%char); ("("%char, ")"%char);
                           ("034"%char, "034"%char); ("`"%char, "`"%char)]
               /\ pattern = Validator.citation_pattern o cl).
    { simpl in Hp. destruct Hp as [<-|[<-|[<-|[<-|[]]]]];
        eexists; eexists; (split; [|reflexivity]); simpl; auto. }
    destruct Hpair as (o & cl & Hin & ->).
    apply citation_pattern_sound in Hm.
    destruct Hm as (stem & ext & -> & Hg & Hs & He & Hstem & Hext).
    exists o, cl, pre, rest, stem, ext. auto 10.
Qed.

(* ------------------------------------------------------------------ *)
(** ** Response validator: bracketed paths are found *)

Lemma append_eq_length (a b x y : string) :
  a ++ x = b ++ y -> String.length a = String.length b -> a = b /\ x = y.
Proof.
  revert b. induction a as [|c a IH]; intros [|d b] H Hl; try discriminate.
  - auto.
  - simpl in H. injection H as -> H. injection Hl as Hl.
    destruct (IH _ H Hl) as [-> ->]. auto.
Qed.

(** [c] does not occur in [w]. *)
Lemma all_in_not (cs : Re.charset) (w : string) (x : ascii) :
  Re.all_in false cs w = true -> Re.mem false cs x = false ->
  forall pre post, w <> pre ++ String x post.
Proof.
  revert w. induction w as [|c w IH]; intros Hw Hx pre post E.
  - destruct pre; discriminate.
  - simpl in Hw. apply andb_prop in Hw. destruct Hw as [Hc Hw].
    destruct pre as [|p pre]; simpl in E; injection E as -> E.
    + congruence.
    + exact (IH Hw Hx _ _ E).
Qed.

Lemma all_in_app (icase : bool) (cs : Re.charset) (a b : string) :
  Re.all_in icase cs (a ++ b) = Re.all_in icase cs a && Re.all_in icase cs b.
Proof.
  induction a as [|c a IH]; simpl; [reflexivity|]. now rewrite IH, andb_assoc.
Qed.

Lemma word_is_path_char (c : ascii) :
  Re.mem false Re.Word c = true -> Re.mem false Validator.path_chars c = true.
Proof. simpl. intros ->. reflexivity. Qed.

Lemma all_word_all_path (w : string) :
  Re.all_in false Re.Word w = true -> Re.all_in false Validator.path_chars w = true.
Proof.
  induction w as [|c w IH]; [reflexivity|]. cbn [Re.all_in]. intros H.
  apply andb_prop in H. destruct H as [Hc Hw].
  rewrite (word_is_path_char _ Hc), (IH Hw). reflexivity.
Qed.

Lemma citation_is_path (stem ext : string) :
  Re.all_in false Validator.path_chars stem = true ->
  Re.all_in false Re.Word ext = true ->
  Re.all_in false Validator.path_chars (stem ++ "." ++ ext) = true.
Proof.
  intros Hs He. rewrite all_in_app, Hs. cbn [append Re.all_in].
  rewrite (all_word_all_path _ He). reflexivity.
Qed.

(** Two runs without [x], each followed by [x], that start the same text
    are the same run. *)
Lemma run_until_unique (cs : Re.charset) (x : ascii) (a b p q : string) :
  Re.mem false cs x = false ->
  Re.all_in false cs a = true -> Re.all_in false cs b = true ->
  a ++ String x p = b ++ String x q -> a = b /\ p = q.
Proof.
  intros Hx. revert b. induction a as [|c a IH]; intros [|d b] Ha Hb E.
  - simpl in E. injection E as ->. auto.
  - simpl in E, Hb. injection E as <- _. apply andb_prop in Hb. destruct Hb. congruence.
  - simpl in E, Ha. injection E as -> _. apply andb_prop in Ha. destruct Ha. congruence.
  - simpl in E, Ha, Hb. injection E as -> E.
    apply andb_prop in Ha, Hb. destruct Ha as [_ Ha], Hb as [_ Hb].
    destruct (IH _ Ha Hb E) as [-> ->]. auto.
Qed.

(** A run without [x] followed by [y <> x] ends before the first [x]. *)
Lemma run_ends_before (cs : Re.charset) (x y : ascii) (a rest q t : string) :
  Re.mem false cs x = false -> y <> x ->
  Re.all_in false cs a = true ->
  a ++ String y rest = q ++ String x t ->
  exists u, rest = u ++ String x t.
Proof.
  intros Hx Hy. revert q. induction a as [|c a IH]; intros q Ha E.
  - destruct q as [|d q]; simpl in E; injection E as -> E; [congruence|].
    now exists q.
  - simpl in Ha. apply andb_prop in Ha. destruct Ha as [Hc Ha].
    destruct q as [|d q]; simpl in E; injection E as -> E; [congruence|].
    exact (IH _ Ha E).
Qed.

(** [findall] reports a match at a position when no earlier match runs
    into that position. *)
Lemma findall_from_finds (r : Re.regex) (s' g rest : string) :
  s' <> "" ->
  Re.match_here false r s' Re.no_capture = Some (g, rest) ->
  forall pre skip,
    (skip <= String.length pre)%nat ->
    (forall p1 p2 g' rest',
        pre = p1 ++ p2 -> p2 <> "" ->
        Re.match_here false r (p2 ++ s') Re.no_capture = Some (g', rest') ->
        exists u, rest' = u ++ s') ->
    In g (Re.findall_from r (pre ++ s') skip).
Proof.
  intros Hne Hm. induction pre as [|c pre IH]; intros skip Hskip Hfree.
  - simpl in Hskip. assert (skip = 0)%nat as -> by lia.
    destruct s' as [|c s']; [congruence|]. simpl append.
    cbn [Re.findall_from]. rewrite Hm. now left.
  - assert (Hfree' : forall p1 p2 g' rest',
               pre = p1 ++ p2 -> p2 <> "" ->
               Re.match_here false r (p2 ++ s') Re.no_capture = Some (g', rest') ->
               exists u, rest' = u ++ s').
    { intros p1 p2 g' rest' -> Hp2 H'.
      apply (Hfree (String c p1) p2 g' rest'); [reflexivity | exact Hp2 | exact H']. }
    change (String c pre ++ s') with (String c (pre ++ s')).
    cbn [Re.findall_from]. destruct skip as [|k].
    + destruct (Re.match_here false r (String c (pre ++ s')) Re.no_capture)
        as [[g' rest']|] eqn:E.
      * right. apply IH; [|exact Hfree'].
        destruct (Hfree "" (String c pre) g' rest' eq_refl) as (u & ->);
          [discriminate | exact E |].
        rewrite !length_append. lia.
      * apply IH; [lia | exact Hfree'].
    + apply IH; [simpl in Hskip; lia | exact Hfree'].
Qed.

Lemma citation_pattern_complete (o cl : ascii) (stem ext post : string) :
  stem <> "" -> ext <> "" ->
  Re.all_in false Validator.path_chars stem = true ->
  Re.all_in false Re.Word ext = true ->
  Re.match_here false (Validator.citation_pattern o cl)
                (String o ((stem ++ "." ++ ext) ++ String cl post)) Re.no_capture
  <> None.
Proof.
  intros Hs He Hstem Hext.
  destruct stem as [|c1 w1]; [congruence|]. destruct ext as [|c3 w3]; [congruence|].
  cbn [Re.all_in] in Hstem, Hext. apply andb_prop in Hstem, Hext.
  destruct Hstem as [Hc1 Hw1], Hext as [Hc3 Hw3].
  replace (String o ((String c1 w1 ++ "." ++ String c3 w3) ++ String cl post))
    with ((String o (String c1 (w1 ++ String "." (String c3 (w3 ++ String cl "")))))
            ++ post)
    by (repeat first [rewrite append_assoc | progress simpl]; reflexivity).
  eapply match_here_complete with (g := String c1 w1 ++ "." ++ String c3 w3).
  unfold Validator.citation_pattern. cbn [Re.denotes].
  exists o, (String c1 (w1 ++ String "." (String c3 (w3 ++ String cl "")))).
  split; [reflexivity|]. split; [apply mem_lit; reflexivity|].
  exists c1, w1, (String "." (String c3 (w3 ++ String cl ""))).
  split; [reflexivity|]. split; [exact Hc1|]. split; [exact Hw1|].
  exists "."%char, (String c3 (w3 ++ String cl "")).
  split; [reflexivity|]. split; [apply mem_lit; reflexivity|].
  exists c3, w3, (String cl "").
  split; [reflexivity|]. split; [exact Hc3|]. split; [exact Hw3|].
  exists cl, "". split; [reflexivity|]. split; [apply mem_lit; reflexivity|].
  split; [reflexivity|].
  unfold Re.no_capture.
  repeat first [rewrite push_closed | rewrite push_open | rewrite push_all_open
               | progress cbn [fst snd]].
  repeat first [rewrite append_assoc | progress simpl]. reflexivity.
Qed.

(** A path written between square brackets or between parentheses is
    always found: wherever [[stem.ext]] or [(stem.ext)] stands in the
    response, with a non-empty stem of path characters and a non-empty
    extension of word characters, [stem.ext] is one of the citations. *)
Theorem bracketed_path_is_cited (o cl : ascii) (response pre stem ext post : string) :
  (o, cl) = ("["%char, "]"%char) \/ (o, cl) = ("("%char, ")"%char) ->
  response = pre ++ String o ((stem ++ "." ++ ext) ++ String cl post) ->
  stem <> "" -> ext <> "" ->
  Re.all_in false Validator.path_chars stem = true ->
  Re.all_in false Re.Word ext = true ->
  In (stem ++ "." ++ ext) (Validator._extract_citations response).
Proof.
  intros Hpair -> Hs He Hstem Hext.
  assert (Hfacts : Re.mem false Validator.path_chars o = false
                   /\ Re.mem false Validator.path_chars cl = false
                   /\ cl <> o
                   /\ In (Validator.citation_pattern o cl) Validator.citation_patterns).
  { destruct Hpair as [E|E]; injection E as -> ->;
      (split; [reflexivity|]); (split; [reflexivity|]); (split; [discriminate|]);
      simpl; auto. }
  destruct Hfacts as (Ho & Hcl & Hne & Hp).
  apply extract_citations_in. exists (Validator.citation_pattern o cl).
  split; [exact Hp|]. unfold Re.findall.
  pose proof (citation_is_path _ _ Hstem Hext) as Hpath.
  destruct (Re.match_here false (Validator.citation_pattern o cl)
              (String o ((stem ++ "." ++ ext) ++ String cl post)) Re.no_capture)
    as [[g rest]|] eqn:Hm;
    [|exfalso; exact (@citation_pattern_complete o cl stem ext post Hs He Hstem Hext Hm)].
  assert (Hg : g = stem ++ "." ++ ext).
  { destruct (citation_pattern_sound _ _ _ Hm)
      as (stem' & ext' & E & -> & _ & _ & Hstem' & Hext').
    injection E as E.
    destruct (@run_until_unique _ cl _ _ _ _ Hcl Hpath
                (citation_is_path _ _ Hstem' Hext') E) as [E' _].
    now symmetry. }
  subst g.
  apply findall_from_finds with (rest := rest);
    [discriminate | exact Hm | lia |].
  intros p1 p2 g' rest' _ Hp2 Hm'.
  destruct (citation_pattern_sound _ _ _ Hm')
    as (stem' & ext' & E & -> & _ & _ & Hstem' & Hext').
  destruct p2 as [|c p2]; [congruence|]. simpl in E. injection E as -> E.
  symmetry in E.
  exact (@run_ends_before _ o cl _ _ _ _ Ho Hne
           (citation_is_path _ _ Hstem' Hext') E).
Qed.

Lemma bracketed_path_is_cited_witness :
  In ("src/main" ++ "." ++ "py")
     (Validator._extract_citations
        ("The entry point [x] is " ++ String "("
           (("src/main" ++ "." ++ "py") ++ String ")" ", see above."))).
Proof.
  refine (@bracketed_path_is_cited "(" ")" _ "The entry point [x] is "
            "src/main" "py" ", see above." _ eq_refl _ _ eq_refl eq_refl).
  - right. reflexivity.
  - discriminate.
  - discriminate.
Defined.

(* ------------------------------------------------------------------ *)
(** ** Response validator: when a response is accepted, what is warned *)

(** A response is accepted exactly when it cites at least one file and
    every file it cites is the [file_path] of a retrieved chunk. *)
Theorem validate_accepts_iff (dates : Validator.calendar)
        (self : Validator.ResponseValidator)
        (response : string) (chunks : list Validator.chunk) :
  fst (fst (Validator.validate dates self response chunks)) = true
  <-> Validator._extract_citations response <> []
      /\ forall citation,
           In citation (Validator._extract_citations response) ->
           exists chunk, In chunk chunks /\ Validator.file_path chunk = citation.
Proof.
  rewrite validate_is_valid, len_zero_nil, validate_errors.
  set (citations := Validator._extract_citations response).
  set (unknown := fun c => negb (existsb (String.eqb c) (map Validator.file_path chunks))).
  assert (Hfilter : filter unknown citations = []
                    <-> forall c, In c citations ->
                          exists chunk, In chunk chunks /\ Validator.file_path chunk = c).
  { split.
    - intros Hnil c Hc. destruct (unknown c) eqn:E.
      + assert (Hin : In c (filter unknown citations)) by (apply filter_In; auto).
        rewrite Hnil in Hin. destruct Hin.
      + unfold unknown in E. apply negb_false_iff, existsb_eqb_in, in_map_iff in E.
        destruct E as (chunk & E & Hin). eauto.
    - intros Hall. destruct (filter unknown citations) as [|c l] eqn:E; [reflexivity|].
      assert (Hin : In c (filter unknown citations)) by (rewrite E; now left).
      apply filter_In in Hin. destruct Hin as [Hc Hu].
      destruct (Hall c Hc) as (chunk & Hin & <-).
      unfold unknown in Hu. apply negb_true_iff in Hu.
      assert (Hex : existsb (String.eqb (Validator.file_path chunk))
                      (map Validator.file_path chunks) = true).
      { apply existsb_eqb_in, in_map, Hin. }
      congruence. }
  rewrite <- Hfilter. split.
  - intros H. apply app_eq_nil in H. destruct H as [H1 H2]. split.
    + destruct citations; [discriminate H1 | discriminate].
    + destruct (filter unknown citations); [reflexivity | discriminate H2].
  - intros [Hne Hnil]. rewrite Hnil. destruct citations; [congruence | reflexivity].
Qed.

Lemma fold_left_keeps {A : Type} (step : list string -> A -> list string)
      (l : list A) (x : string) :
  (forall ws a, In x ws -> In x (step ws a)) ->
  forall ws, In x ws -> In x (fold_left step l ws).
Proof.
  intros Hstep. induction l as [|a l IH]; intros ws H; simpl; [exact H|].
  apply IH, Hstep, H.
Qed.

Lemma fold_left_adds {A : Type} (step : list string -> A -> list string)
      (l : list A) (a : A) (x : string) :
  (forall ws b, In x ws -> In x (step ws b)) ->
  (forall ws, In x (step ws a)) ->
  In a l -> forall ws, In x (fold_left step l ws).
Proof.
  intros Hkeep Hadd Hin ws. apply in_split in Hin. destruct Hin as (l1 & l2 & ->).
  rewrite fold_left_app. simpl. apply fold_left_keeps; [exact Hkeep | apply Hadd].
Qed.

Lemma staleness_step_keeps (dates : Validator.calendar)
      (self : Validator.ResponseValidator) (chunks : list Validator.chunk)
      (x : string) (ws : list string) (c : string) :
  In x ws -> In x (Validator.staleness_step dates self chunks ws c).
Proof.
  intros H. unfold Validator.staleness_step.
  destruct (find _ chunks) as [chunk|]; [|exact H].
  destruct (Py.truthy_opt _); [|exact H].
  destruct (Validator.commit_date chunk) as [d|]; [|exact H].
  destruct (dates _) as [[age day]|]; [|exact H].
  destruct (age >? _)%Z; [apply in_or_app; now left | exact H].
Qed.

Lemma pattern_step_keeps (response x : string) (ws : list string) (p : string) :
  In x ws -> In x (Validator.pattern_step response ws p).
Proof.
  intros H. unfold Validator.pattern_step.
  destruct (Str.contains _ _); [apply in_or_app; now left | exact H].
Qed.

(** What check 3 adds stays in the warnings returned. *)
Lemma validate_keeps_staleness (dates : Validator.calendar)
      (self : Validator.ResponseValidator)
      (response : string) (chunks : list Validator.chunk) (x : string) :
  In x (fold_left (Validator.staleness_step dates self chunks)
                  (Validator._extract_citations response) []) ->
  In x (snd (Validator.validate dates self response chunks)).
Proof.
  intros H. unfold Validator.validate. cbn [snd].
  apply fold_left_keeps; [intros; now apply pattern_step_keeps|].
  destruct (Str.len (Str.strip response) <? 20)%Z; [apply in_or_app; now left | exact H].
Qed.

(** A cited file is reported as stale when the first retrieved chunk of
    that file carries a commit date that parses and is older than the
    threshold: the warning gives the citation, the age in days and the
    day of the last update. *)
Theorem stale_citation_is_warned (dates : Validator.calendar)
        (self : Validator.ResponseValidator)
        (response : string) (chunks : list Validator.chunk)
        (citation : string) (chunk : Validator.chunk) (d : string)
        (age : Z) (day : string) :
  In citation (Validator._extract_citations response) ->
  find (fun c => String.eqb (Validator.file_path c) citation) chunks = Some chunk ->
  Validator.commit_date chunk = Some d ->
  d <> "" ->
  dates (Str.replace_char "Z" "+00:00" d) = Some (age, day) ->
  (Validator.max_staleness_days self < age)%Z ->
  In (citation ++ " is " ++ Str.of_Z age ++ " days old (last updated: " ++ day ++ ")")
     (snd (Validator.validate dates self response chunks)).
Proof.
  intros Hin Hfind Hdate Hd Hparse Hage.
  apply validate_keeps_staleness.
  apply fold_left_adds with (a := citation);
    [intros; now apply staleness_step_keeps | | exact Hin].
  intros ws. unfold Validator.staleness_step. rewrite Hfind, Hdate, Hparse.
  assert (Htruthy : Py.truthy_opt (Some d) = true) by (destruct d; [congruence | reflexivity]).
  rewrite Htruthy. destruct (Z.gtb_spec age (Validator.max_staleness_days self)); [|lia].
  apply in_or_app. right. now left.
Qed.

Lemma stale_citation_is_warned_witness :
  In ("docs/setup.md" ++ " is " ++ Str.of_Z 200 ++ " days old (last updated: "
        ++ "2020-01-15" ++ ")")
     (snd (Validator.validate Validator.example_calendar Validator.init
             "The steps are listed in [docs/setup.md], section two."
             [{| Validator.file_path := "docs/setup.md";
                 Validator.commit_date := Some "2020-01-15T10:00:00Z" |}])).
Proof.
  refine (@stale_citation_is_warned Validator.example_calendar Validator.init
            "The steps are listed in [docs/setup.md], section two."
            [{| Validator.file_path := "docs/setup.md";
                Validator.commit_date := Some "2020-01-15T10:00:00Z" |}]
            "docs/setup.md"
            {| Validator.file_path := "docs/setup.md";
               Validator.commit_date := Some "2020-01-15T10:00:00Z" |}
            "2020-01-15T10:00:00Z" 200 "2020-01-15" _ eq_refl eq_refl _ eq_refl _).
  - vm_compute. auto.
  - discriminate.
  - vm_compute. reflexivity.
Defined.

(** A response that contains one of the four apology phrases, in any
    letter case and anywhere in the text, gets the warning that names the
    phrase. *)
Theorem error_phrase_is_warned (dates : Validator.calendar)
        (self : Validator.ResponseValidator)
        (response : string) (chunks : list Validator.chunk)
        (phrase pre occurrence post : string) :
  In phrase Validator.error_patterns ->
  response = pre ++ occurrence ++ post ->
  Str.lower occurrence = Str.lower phrase ->
  In ("Response contains error pattern: '" ++ phrase ++ "'")
     (snd (Validator.validate dates self response chunks)).
Proof.
  intros Hin -> Hlow. unfold Validator.validate. cbn [snd].
  apply fold_left_adds with (a := phrase);
    [intros; now apply pattern_step_keeps | | exact Hin].
  intros ws. unfold Validator.pattern_step.
  assert (Hc : Str.contains (Str.lower phrase)
                 (Str.lower (pre ++ occurrence ++ post)) = true).
  { apply contains_iff. exists (Str.lower pre), (Str.lower post).
    now rewrite !lower_append, Hlow. }
  rewrite Hc. apply in_or_app. right. now left.
Qed.

Lemma error_phrase_is_warned_witness :
  In ("Response contains error pattern: '" ++ "I apologize" ++ "'")
     (snd (Validator.validate Validator.example_calendar Validator.init
             ("Sadly " ++ "I APOLOGIZE" ++ ", the file [docs/setup.md] says nothing.")
             [])).
Proof.
  refine (@error_phrase_is_warned Validator.example_calendar Validator.init _ []
            "I apologize" "Sadly " "I APOLOGIZE"
            ", the file [docs/setup.md] says nothing." _ eq_refl eq_refl).
  simpl. auto.
Defined.

Lemma concat_cons (a : string) (r : list string) :
  String.concat "" (a :: r) = a ++ String.concat "" r.
Proof. destruct r; simpl; [now rewrite append_nil_r | reflexivity]. Qed.

Lemma warning_lines (l : list string) (text : string) :
  fold_left (fun text warning => text ++ "- " ++ warning ++ String "010" "") l text
  = text ++ String.concat "" (map (fun w => "- " ++ w ++ String "010" "") l).
Proof.
  revert text. induction l as [|x l IH]; intros text.
  - simpl. now rewrite append_nil_r.
  - cbn [fold_left map]. rewrite IH, concat_cons, !append_assoc. reflexivity.
Qed.

(** Without warnings the response is returned as it is; with warnings the
    response stays at the front, followed by two line breaks, the heading
    and one line ["- warning"] per warning, in the order of the
    warnings. *)
Theorem add_warnings_layout (sign response : string) (warnings : list string) :
  Validator.add_warnings_to_response sign response warnings =
  match warnings with
  | [] => response
  | _ => response ++ String "010" (String "010" sign) ++ " **Notes:**" ++ String "010" ""
           ++ String.concat "" (map (fun w => "- " ++ w ++ String "010" "") warnings)
  end.
Proof.
  unfold Validator.add_warnings_to_response.
  destruct warnings as [|w ws]; [reflexivity|].
  cbv zeta. rewrite warning_lines.
  generalize (String.concat "" (map (fun w => "- " ++ w ++ String "010" "") (w :: ws))).
  intros lines. f_equal. cbn [append]. rewrite !append_assoc. reflexivity.
Qed.

(* ------------------------------------------------------------------ *)
(** ** Query validator: the injection signatures *)

Lemma lower_nil (v : string) : Str.lower v = "" -> v = "".
Proof. destruct v; [reflexivity | discriminate]. Qed.

(** A literal of a pattern, read without regard to case, outside a group. *)
Lemma denotes_lits (a : string) (r : Re.regex) (acc : string) :
  forall v m g rest,
    Str.lower v = Str.lower a ->
    Re.denotes true r (false, acc) m g rest ->
    Re.denotes true (Re.lits a ++ r)%list (false, acc) (v ++ m) g rest.
Proof.
  induction a as [|p a IH]; intros v m g rest Hlow HD.
  - apply lower_nil in Hlow. subst v. exact HD.
  - destruct v as [|c v]; [discriminate|]. simpl in Hlow. injection Hlow as Hc Hv.
    cbn [Re.lits app Re.denotes]. exists c, (v ++ m). split; [reflexivity|].
    split; [simpl; rewrite Hc; apply Ascii.eqb_refl|].
    rewrite push_closed. apply IH; assumption.
Qed.

Lemma all_in_icase (icase : bool) (w : string) :
  Re.all_in false Re.Space w = true -> Re.all_in icase Re.Space w = true.
Proof.
  induction w as [|c w IH]; simpl; [reflexivity|]. intros H.
  apply andb_prop in H. destruct H as [Hc Hw]. now rewrite Hc, (IH Hw).
Qed.

Lemma denotes_star_space (w : string) (r : Re.regex) (acc m g rest : string) :
  Re.all_in false Re.Space w = true ->
  Re.denotes true r (false, acc) m g rest ->
  Re.denotes true (Re.Star Re.Space :: r) (false, acc) (w ++ m) g rest.
Proof.
  intros Hw HD. cbn [Re.denotes]. exists w, m. split; [reflexivity|].
  split; [now apply all_in_icase|]. now rewrite push_all_closed.
Qed.

Lemma denotes_plus_space (w : string) (r : Re.regex) (acc m g rest : string) :
  w <> "" ->
  Re.all_in false Re.Space w = true ->
  Re.denotes true r (false, acc) m g rest ->
  Re.denotes true (Re.Plus Re.Space :: r) (false, acc) (w ++ m) g rest.
Proof.
  intros Hne Hw HD. destruct w as [|c w]; [congruence|].
  cbn [Re.all_in] in Hw. apply andb_prop in Hw. destruct Hw as [Hc Hw].
  cbn [Re.denotes]. exists c, w, m. split; [reflexivity|].
  split; [exact Hc|]. split; [now apply all_in_icase|].
  now rewrite push_closed, push_all_closed.
Qed.

Lemma search_denotes (r : Re.regex) (pre m g rest : string) :
  Re.denotes true r Re.no_capture m g rest ->
  Re.search true r (pre ++ m ++ rest) = true.
Proof. intros HD. apply search_complete. eapply match_here_complete, HD. Qed.

(** A semicolon, optional white space, a first keyword, white space and
    a second keyword. *)
Lemma search_statement (k1 k2 pre ws kw1 gap kw2 post : string) :
  Re.all_in false Re.Space ws = true ->
  Re.all_in false Re.Space gap = true -> gap <> "" ->
  Str.lower kw1 = Str.lower k1 -> Str.lower kw2 = Str.lower k2 ->
  Re.search true
    (Re.lits ";" ++ [Re.Star Re.Space] ++ Re.lits k1 ++ [Re.Plus Re.Space]
       ++ Re.lits k2)%list
    (pre ++ ";" ++ ws ++ kw1 ++ gap ++ kw2 ++ post) = true.
Proof.
  intros Hws Hgap Hne H1 H2.
  replace (pre ++ ";" ++ ws ++ kw1 ++ gap ++ kw2 ++ post)
    with (pre ++ (";" ++ ws ++ kw1 ++ gap ++ kw2 ++ "") ++ post)
    by (repeat first [rewrite append_assoc | progress simpl]; reflexivity).
  apply search_denotes with (g := "").
  apply denotes_lits; [reflexivity|]. apply denotes_star_space; [exact Hws|].
  apply denotes_lits; [exact H1|]. apply denotes_plus_space; [exact Hne | exact Hgap |].
  rewrite <- (app_nil_r (Re.lits k2)). apply denotes_lits; [exact H2|].
  simpl. auto.
Qed.

Lemma search_union_select (pre kw1 gap kw2 post : string) :
  Re.all_in false Re.Space gap = true -> gap <> "" ->
  Str.lower kw1 = "union" -> Str.lower kw2 = "select" ->
  Re.search true (Re.lits "UNION" ++ [Re.Plus Re.Space] ++ Re.lits "SELECT")%list
            (pre ++ kw1 ++ gap ++ kw2 ++ post) = true.
Proof.
  intros Hgap Hne H1 H2.
  replace (pre ++ kw1 ++ gap ++ kw2 ++ post)
    with (pre ++ (kw1 ++ gap ++ kw2 ++ "") ++ post)
    by (repeat first [rewrite append_assoc | progress simpl]; reflexivity).
  apply search_denotes with (g := "").
  apply denotes_lits; [exact H1|]. apply denotes_plus_space; [exact Hne | exact Hgap |].
  rewrite <- (app_nil_r (Re.lits "SELECT")). apply denotes_lits; [exact H2|].
  simpl. auto.
Qed.

Lemma search_trailing_comment (pre ws : string) :
  Re.all_in false Re.Space ws = true ->
  Re.search true (Re.lits "--" ++ [Re.Star Re.Space; Re.Eos])%list (pre ++ "--" ++ ws) = true.
Proof.
  intros Hws.
  replace (pre ++ "--" ++ ws) with (pre ++ ("--" ++ ws ++ "") ++ "")
    by (repeat first [rewrite append_assoc | rewrite append_nil_r | progress simpl];
        reflexivity).
  apply search_denotes with (g := "").
  apply denotes_lits; [reflexivity|]. apply denotes_star_space; [exact Hws|].
  simpl. auto.
Qed.

Lemma validate_query_rejects (self : Validator.InputValidator) (query : string) :
  Validator.sql_injection query = true \/ Validator.script_injection query = true ->
  fst (Validator.validate_query self query) = false
  /\ ((Validator.min_query_length self <= Str.len query
                                       <= Validator.max_query_length self)%Z ->
      Validator.validate_query self query = (false, Some "Invalid query format")).
Proof.
  intros H. unfold Validator.validate_query.
  destruct (Z.ltb_spec (Str.len query) (Validator.min_query_length self));
    [split; [reflexivity | lia]|].
  destruct (Z.gtb_spec (Str.len query) (Validator.max_query_length self));
    [split; [reflexivity | lia]|].
  destruct (Validator.sql_injection query); [split; reflexivity|].
  destruct H as [H|H]; [discriminate|]. rewrite H. split; reflexivity.
Qed.

(** No query that carries an injection signature is accepted, however
    the keywords are cased and whatever white space separates them: a
    semicolon followed by DROP TABLE or DELETE FROM, UNION SELECT, or
    a final [--].  A query of an admissible length is answered
    "Invalid query format". *)
Theorem sql_signatures_rejected (self : Validator.InputValidator) (query : string) :
  (exists pre ws kw1 gap kw2 post,
      query = pre ++ ";" ++ ws ++ kw1 ++ gap ++ kw2 ++ post
      /\ Re.all_in false Re.Space ws = true
      /\ Re.all_in false Re.Space gap = true /\ gap <> ""
      /\ ((Str.lower kw1 = "drop" /\ Str.lower kw2 = "table")
          \/ (Str.lower kw1 = "delete" /\ Str.lower kw2 = "from")))
  \/ (exists pre kw1 gap kw2 post,
         query = pre ++ kw1 ++ gap ++ kw2 ++ post
         /\ Re.all_in false Re.Space gap = true /\ gap <> ""
         /\ Str.lower kw1 = "union" /\ Str.lower kw2 = "select")
  \/ (exists pre ws,
         query = pre ++ "--" ++ ws /\ Re.all_in false Re.Space ws = true) ->
  fst (Validator.validate_query self query) = false
  /\ ((Validator.min_query_length self <= Str.len query
                                       <= Validator.max_query_length self)%Z ->
      Validator.validate_query self query = (false, Some "Invalid query format")).
Proof.
  intros H. apply validate_query_rejects. left.
  unfold Validator.sql_injection, Validator.sql_patterns. cbn [existsb].
  destruct H as [(pre & ws & kw1 & gap & kw2 & post & -> & Hws & Hgap & Hne & Hkw)
                | [(pre & kw1 & gap & kw2 & post & -> & Hgap & Hne & H1 & H2)
                  | (pre & ws & -> & Hws)]].
  - destruct Hkw as [[H1 H2] | [H1 H2]].
    + rewrite (@search_statement "DROP" "TABLE" pre ws kw1 gap kw2 post Hws Hgap Hne H1 H2).
      reflexivity.
    + rewrite (@search_statement "DELETE" "FROM" pre ws kw1 gap kw2 post Hws Hgap Hne H1 H2).
      rewrite orb_true_r. reflexivity.
  - rewrite (@search_union_select pre kw1 gap kw2 post Hgap Hne H1 H2).
    rewrite !orb_true_r. reflexivity.
  - rewrite (@search_trailing_comment pre ws Hws). rewrite !orb_true_r. reflexivity.
Qed.

Lemma sql_signatures_rejected_witness :
  Validator.validate_query Validator.input_init
    ("name' " ++ "uNiOn" ++ String "009" (String "010" " ") ++ "Select" ++ " secret")
  = (false, Some "Invalid query format").
Proof.
  refine (proj2 (@sql_signatures_rejected Validator.input_init _ _) _).
  - right. left.
    exists "name' ", "uNiOn", (String "009" (String "010" " ")), "Select", " secret".
    split; [reflexivity|]. split; [reflexivity|]. split; [discriminate|].
    split; reflexivity.
  - vm_compute. split; discriminate.
Defined.

(** No query that contains [<script] or [javascript:] is accepted,
    however the marker is cased and wherever it stands in the query. *)
Theorem script_markers_rejected (self : Validator.InputValidator)
        (query pre marker post : string) :
  query = pre ++ marker ++ post ->
  Str.lower marker = "<script" \/ Str.lower marker = "javascript:" ->
  fst (Validator.validate_query self query) = false
  /\ ((Validator.min_query_length self <= Str.len query
                                       <= Validator.max_query_length self)%Z ->
      Validator.validate_query self query = (false, Some "Invalid query format")).
Proof.
  intros -> H. apply validate_query_rejects. right.
  unfold Validator.script_injection. apply orb_true_iff.
  destruct H as [H|H]; [left | right]; apply contains_iff;
    exists (Str.lower pre), (Str.lower post); now rewrite !lower_append, H.
Qed.

Lemma script_markers_rejected_witness :
  Validator.validate_query Validator.input_init
    ("how to " ++ "<ScRiPt" ++ ">alert(1)")
  = (false, Some "Invalid query format").
Proof.
  refine (proj2 (@script_markers_rejected Validator.input_init _ "how to " "<ScRiPt"
                   ">alert(1)" eq_refl _) _).
  - left. reflexivity.
  - vm_compute. split; discriminate.
Defined.

(* ------------------------------------------------------------------ *)
(** ** Storage: what the two searches return *)

Section SearchFacts.
Variable A : Num.Arith.
Variable engine : VectorDB.Engine A.
Local Abbreviation row := (VectorDB.row A).
Local Abbreviation doc := (VectorDB.doc A).

Lemma repo_clause_named (repo : option string) (r : row) (name : string) :
  VectorDB.repo_clause repo r = true -> repo = Some name -> name <> EmptyString ->
  VectorDB.repo_name r = name.
Proof.
  intros H -> Hne. unfold VectorDB.repo_clause in H.
  destruct name; [congruence|]. simpl in H. now apply String.eqb_eq.
Qed.

Lemma file_type_clause_named (ft : option string) (r : row) (type : string) :
  VectorDB.file_type_clause ft r = true -> ft = Some type -> type <> EmptyString ->
  VectorDB.file_type r = Some type.
Proof.
  intros H -> Hne. unfold VectorDB.file_type_clause in H.
  destruct type; [congruence|]. simpl in H.
  destruct (VectorDB.file_type r); [|discriminate].
  apply String.eqb_eq in H. now subst.
Qed.

Lemma in_firstn {B : Type} (n : nat) (l : list B) (x : B) :
  In x (firstn n l) -> In x l.
Proof. intros H. rewrite <- (firstn_skipn n l). apply in_or_app. now left. Qed.

End SearchFacts.


(** What [semantic_search] returns is in the table and passes the
    [WHERE] clause: every result is a row of the table, with its
    similarity to the query, that reaches the threshold and belongs to the
    repository and the file type asked for; and there are at most [limit]
    results. *)
Theorem semantic_search_sound (A : Num.Arith) (engine : VectorDB.Engine A)
        (t : VectorDB.table A) (q : list (Num.num A)) (limit : Z)
        (repo ft : option string) (threshold : Num.num A)
        (docs : list (VectorDB.doc A)) :
  VectorDB.semantic_search engine t q limit repo ft threshold = Py.Ok docs ->
  Py.len docs <= limit
  /\ forall d, In d docs ->
       exists r, In r t
         /\ d = VectorDB.doc_of_row r (Some (VectorDB.similarity_of engine q r)) None
         /\ Num.leb A threshold (VectorDB.similarity_of engine q r) = true
         /\ (forall name, repo = Some name -> name <> EmptyString ->
                          VectorDB.repo_name r = name)
         /\ (forall type, ft = Some type -> type <> EmptyString ->
                          VectorDB.file_type r = Some type).
Proof.
  intros Hrun. unfold VectorDB.semantic_search in Hrun.
  apply bind_ok in Hrun. destruct Hrun as (rows & Hrows & Hdocs).
  injection Hdocs as <-. apply sql_limit_ok in Hrows. destruct Hrows as [Hl ->].
  split.
  - unfold Py.len. rewrite length_map, length_firstn. lia.
  - intros d Hd. apply in_map_iff in Hd. destruct Hd as (r & <- & Hr).
    apply in_firstn, in_sorted_by, filter_In in Hr. destruct Hr as [Hr Hw].
    apply andb_prop in Hw. destruct Hw as [Hw Hft].
    apply andb_prop in Hw. destruct Hw as [Hth Hrepo].
    exists r. split; [exact Hr|]. split; [reflexivity|]. split; [exact Hth|]. split.
    + intros name. now apply repo_clause_named.
    + intros type. now apply file_type_clause_named.
Qed.

Lemma semantic_search_sound_witness :
  exists docs,
    VectorDB.semantic_search (VectorDB.example_engine Num.exact)
      (VectorDB.example_table Num.exact) [] 10
      (Some "octo/handbook"%string) (Some "py"%string) (1 # 2)%Q = Py.Ok docs
    /\ Py.len docs <= 10
    /\ forall d, In d docs -> VectorDB.d_file_type d = Some "py"%string.
Proof.
  destruct (VectorDB.semantic_search (VectorDB.example_engine Num.exact)
              (VectorDB.example_table Num.exact) [] 10
              (Some "octo/handbook"%string) (Some "py"%string) (1 # 2)%Q)
    as [docs|e] eqn:Hrun; [|vm_compute in Hrun; discriminate Hrun].
  exists docs. split; [reflexivity|].
  destruct (semantic_search_sound _ _ _ _ _ _ _ Hrun) as [Hlen Hall].
  split; [exact Hlen|]. intros d Hd.
  destruct (Hall d Hd) as (r & _ & -> & _ & _ & Hft).
  apply (Hft "py"%string eq_refl). discriminate.
Defined.

Lemma keyword_search_rows (A : Num.Arith) (engine : VectorDB.Engine A)
        (t : VectorDB.table A) (query : string) (limit : Z)
        (repo : option string) (docs : list (VectorDB.doc A)) :
  VectorDB.keyword_search engine t query limit repo = Py.Ok docs ->
  Py.len docs <= limit
  /\ (forall d, In d docs ->
        exists r, In r t
          /\ d = VectorDB.doc_of_row r None
                   (Some (VectorDB.ts_rank engine (VectorDB.text r) query))
          /\ VectorDB.ts_match engine (VectorDB.text r) query = true
          /\ (forall name, repo = Some name -> name <> EmptyString ->
                           VectorDB.repo_name r = name))
  /\ (Py.len t <= limit ->
      forall r, In r t ->
        VectorDB.ts_match engine (VectorDB.text r) query = true ->
        VectorDB.repo_clause repo r = true ->
        In (VectorDB.doc_of_row r None
              (Some (VectorDB.ts_rank engine (VectorDB.text r) query))) docs).
Proof.
  intros Hrun. unfold VectorDB.keyword_search in Hrun.
  apply bind_ok in Hrun. destruct Hrun as (rows & Hrows & Hdocs).
  injection Hdocs as <-. apply sql_limit_ok in Hrows. destruct Hrows as [Hl ->].
  split; [|split].
  - unfold Py.len. rewrite length_map, length_firstn. lia.
  - intros d Hd. apply in_map_iff in Hd. destruct Hd as (r & <- & Hr).
    apply in_firstn, in_sorted_by, filter_In in Hr. destruct Hr as [Hr Hw].
    apply andb_prop in Hw. destruct Hw as [Hm Hrepo].
    exists r. split; [exact Hr|]. split; [reflexivity|]. split; [exact Hm|].
    intros name. now apply repo_clause_named.
  - intros Hall r Hr Hm Hrepo.
    apply (in_map (fun r => VectorDB.doc_of_row r None
                               (Some (VectorDB.ts_rank engine (VectorDB.text r) query)))).
    rewrite firstn_all2.
    + apply in_sorted_by, filter_In. split; [exact Hr|]. now rewrite Hm, Hrepo.
    + rewrite sorted_by_length.
      pose proof (filter_length_le
                    (fun r => VectorDB.ts_match engine (VectorDB.text r) query
                              && VectorDB.repo_clause repo r) t) as Hle.
      unfold Py.len in Hall. lia.
Qed.

(** [keyword_search] returns rows of the table that match the query in
    the repository asked for, each with its rank, at most [limit] of them;
    and when the limit is not below the size of the table it returns every
    such row. *)
Theorem keyword_search_exact (A : Num.Arith) (engine : VectorDB.Engine A)
        (t : VectorDB.table A) (query : string) (limit : Z)
        (repo : option string) (docs : list (VectorDB.doc A)) :
  VectorDB.keyword_search engine t query limit repo = Py.Ok docs ->
  Py.len docs <= limit
  /\ (forall d, In d docs ->
        exists r, In r t
          /\ d = VectorDB.doc_of_row r None
                   (Some (VectorDB.ts_rank engine (VectorDB.text r) query))
          /\ VectorDB.ts_match engine (VectorDB.text r) query = true
          /\ (forall name, repo = Some name -> name <> EmptyString ->
                           VectorDB.repo_name r = name))
  /\ (Py.len t <= limit ->
      forall r, In r t ->
        VectorDB.ts_match engine (VectorDB.text r) query = true ->
        VectorDB.repo_clause repo r = true ->
        In (VectorDB.doc_of_row r None
              (Some (VectorDB.ts_rank engine (VectorDB.text r) query))) docs).
Proof.
  intros Hrun. unfold VectorDB.keyword_search in Hrun.
  apply bind_ok in Hrun. destruct Hrun as (rows & Hrows & Hdocs).
  injection Hdocs as <-. apply sql_limit_ok in Hrows. destruct Hrows as [Hl ->].
  split; [|split].
  - unfold Py.len. rewrite length_map, length_firstn. lia.
  - intros d Hd. apply in_map_iff in Hd. destruct Hd as (r & <- & Hr).
    apply in_firstn, in_sorted_by, filter_In in Hr. destruct Hr as [Hr Hw].
    apply andb_prop in Hw. destruct Hw as [Hm Hrepo].
    exists r. split; [exact Hr|]. split; [reflexivity|]. split; [exact Hm|].
    intros name. now apply repo_clause_named.
  - intros Hall r Hr Hm Hrepo.
    apply (in_map (fun r => VectorDB.doc_of_row r None
                               (Some (VectorDB.ts_rank engine (VectorDB.text r) query)))).
    rewrite firstn_all2.
    + apply in_sorted_by, filter_In. split; [exact Hr|]. now rewrite Hm, Hrepo.
    + rewrite sorted_by_length.
      pose proof (filter_length_le
                    (fun r => VectorDB.ts_match engine (VectorDB.text r) query
                              && VectorDB.repo_clause repo r) t) as Hle.
      unfold Py.len in Hall. lia.
Qed.

Lemma keyword_search_exact_witness :
  exists docs,
    VectorDB.keyword_search (VectorDB.example_engine Num.exact)
      (VectorDB.example_table Num.exact) "REDIS" 5 (Some "octo/handbook"%string)
    = Py.Ok docs
    /\ Py.len docs <= 5
    /\ forall r, In r (VectorDB.example_table Num.exact) ->
         In (VectorDB.doc_of_row r None (Some 1%Q)) docs.
Proof.
  destruct (VectorDB.keyword_search (VectorDB.example_engine Num.exact)
              (VectorDB.example_table Num.exact) "REDIS" 5
              (Some "octo/handbook"%string))
    as [docs|e] eqn:Hrun; [|vm_compute in Hrun; discriminate Hrun].
  exists docs. split; [reflexivity|].
  destruct (keyword_search_exact _ _ _ _ _ Hrun) as (Hlen & _ & Hall).
  split; [exact Hlen|]. intros r Hr.
  assert (Hsize : Py.len (VectorDB.example_table Num.exact) <= 5)
    by (vm_compute; discriminate).
  destruct Hr as [<-|[<-|[]]]; apply (Hall Hsize); simpl; auto.
Defined.

(* ------------------------------------------------------------------ *)
(** ** Storage: the order of the results *)


Lemma StronglySorted_map {B C : Type} (g : B -> C) (R : C -> C -> Prop) (l : list B) :
  StronglySorted (fun a b => R (g a) (g b)) l -> StronglySorted R (map g l).
Proof.
  induction 1 as [|a l HS IH HF]; simpl; constructor; [exact IH|].
  apply Forall_map. exact HF.
Qed.

Lemma StronglySorted_weaken {B : Type} (R R' : B -> B -> Prop) (l : list B) :
  (forall a b, R a b -> R' a b) -> StronglySorted R l -> StronglySorted R' l.
Proof.
  intros Hw. induction 1 as [|a l HS IH HF]; constructor; [exact IH|].
  eapply Forall_impl; [|exact HF]. intros b. apply Hw.
Qed.

Lemma StronglySorted_trivial {B : Type} (l : list B) :
  StronglySorted (fun _ _ => True) l.
Proof.
  induction l as [|a l IH]; constructor; [exact IH|].
  apply Forall_forall. auto.
Qed.

(** Sorting by decreasing [f]. *)
Lemma sorted_by_decreasing {B : Type} (f : B -> Q) (l : list B) :
  StronglySorted (fun a b => (f b <= f a)%Q)
                 (Py.sorted_by (fun a b => negb (Qle_bool (f a) (f b))) l).
Proof.
  eapply StronglySorted_weaken;
    [|apply (@sorted_by_stable B f (fun _ _ => True)), StronglySorted_trivial].
  cbv beta. intros a b [H|[H _]]; [now apply Qlt_le_weak|].
  rewrite H. apply Qle_refl.
Qed.




(** In exact arithmetic the results of [keyword_search] come by
    decreasing rank. *)
Theorem keyword_search_ordered (engine : VectorDB.Engine Num.exact)
        (t : VectorDB.table Num.exact) (query : string) (limit : Z)
        (repo : option string) (docs : list (VectorDB.doc Num.exact)) :
  VectorDB.keyword_search engine t query limit repo = Py.Ok docs ->
  StronglySorted
    (fun d1 d2 : VectorDB.doc Num.exact => exists k1 k2 : Q,
         VectorDB.d_rank d1 = Some k1 /\ VectorDB.d_rank d2 = Some k2 /\ (k2 <= k1)%Q)
    docs.
Proof.
  intros Hrun. unfold VectorDB.keyword_search in Hrun.
  apply bind_ok in Hrun. destruct Hrun as (rows & Hrows & Hdocs).
  injection Hdocs as <-. apply sql_limit_ok in Hrows. destruct Hrows as [Hl ->].
  apply StronglySorted_map, StronglySorted_firstn.
  eapply StronglySorted_weaken;
    [|apply (@sorted_by_decreasing _
               (fun r => VectorDB.ts_rank engine (VectorDB.text r) query))].
  cbv beta. intros a b H. eexists. eexists. split; [reflexivity|].
  split; [reflexivity | exact H].
Qed.

Lemma keyword_search_ordered_witness :
  exists docs,
    VectorDB.keyword_search (VectorDB.example_engine Num.exact)
      (VectorDB.example_table Num.exact) "redis" 5 None = Py.Ok docs
    /\ StronglySorted
         (fun d1 d2 : VectorDB.doc Num.exact => exists k1 k2 : Q,
              VectorDB.d_rank d1 = Some k1 /\ VectorDB.d_rank d2 = Some k2
              /\ (k2 <= k1)%Q) docs.
Proof.
  destruct (VectorDB.keyword_search (VectorDB.example_engine Num.exact)
              (VectorDB.example_table Num.exact) "redis" 5 None)
    as [docs|e] eqn:Hrun; [|vm_compute in Hrun; discriminate Hrun].
  exists docs. split; [reflexivity|].
  exact (keyword_search_ordered _ _ _ _ _ Hrun).
Defined.

(* ------------------------------------------------------------------ *)
(** ** Storage: a batch of chunks *)

Local Close Scope string_scope.

Section BatchFacts.
Variable A : Num.Arith.
Local Abbreviation row := (VectorDB.row A).
Local Abbreviation ids := (map (@VectorDB.chunk_id A)).
Local Abbreviation ioc := (@VectorDB.insert_on_conflict A).

Lemma has_duplicates_nodup (l : list string) :
  NoDup l -> VectorDB.has_duplicates l = false.
Proof.
  induction 1 as [|x l Hx Hnd IH]; [reflexivity|]. simpl. rewrite IH, orb_false_r.
  destruct (existsb (String.eqb x) l) eqn:E; [|reflexivity].
  apply existsb_eqb_in in E. contradiction.
Qed.

Lemma paginate_concat {T : Type} (n : nat) (l page : list T) :
  List.concat (Py.paginate n page l) = page ++ l.
Proof.
  revert page. induction l as [|x l IH]; intros page; simpl.
  - destruct page; simpl; [reflexivity | now rewrite !app_nil_r].
  - destruct (List.length (page ++ [x]) =? n)%nat; simpl; rewrite IH;
      now rewrite <- app_assoc.
Qed.

Lemma execute_pages (pages : list (list row)) (t : list row) :
  NoDup (ids (List.concat pages)) ->
  fold_left (fun acc page => Py.bind acc (fun t' => VectorDB.execute_insert t' page))
            pages (Py.Ok t)
  = Py.Ok (fold_left ioc (List.concat pages) t).
Proof.
  revert t. induction pages as [|page pages IH]; intros t Hnd; [reflexivity|].
  simpl in *. rewrite map_app in Hnd.
  unfold VectorDB.execute_insert at 2.
  rewrite has_duplicates_nodup by (eapply NoDup_app_remove_r; exact Hnd).
  rewrite IH by (eapply NoDup_app_remove_l; exact Hnd).
  now rewrite fold_left_app.
Qed.

(** Without a repeated identifier the statements of [execute_values]
    amount to one [INSERT ... ON CONFLICT] per row, in order. *)
Lemma execute_values_ok (t values : list row) :
  NoDup (ids values) ->
  VectorDB.execute_values t values = Py.Ok (fold_left ioc values t).
Proof.
  intros Hnd. unfold VectorDB.execute_values.
  rewrite execute_pages; rewrite paginate_concat; [reflexivity | exact Hnd].
Qed.

Lemma upsert_chunks_ok (t : list row) (now : string) (chunks : list (VectorDB.chunk A)) :
  NoDup (map (@VectorDB.c_chunk_id A) chunks) ->
  VectorDB.upsert_chunks t now chunks
  = Py.Ok (fold_left ioc (map (VectorDB.values_of now) chunks) t, Py.len chunks).
Proof.
  intros Hnd. unfold VectorDB.upsert_chunks. destruct chunks as [|c chunks]; [reflexivity|].
  cbv zeta. rewrite execute_values_ok; [reflexivity|].
  rewrite map_map. exact Hnd.
Qed.

Lemma ioc_ids (t : list row) (r : row) (x : string) :
  In x (ids (ioc t r)) <-> In x (ids t) \/ x = VectorDB.chunk_id r.
Proof.
  destruct (in_dec string_dec (VectorDB.chunk_id r) (ids t)) as [Hin|Hout].
  - rewrite insert_on_conflict_ids_present by exact Hin.
    split; [auto | intros [H| ->]; assumption].
  - rewrite insert_on_conflict_ids_absent by exact Hout.
    rewrite map_app, in_app_iff. simpl. intuition auto.
Qed.

Lemma fold_ioc_ids (vs t : list row) (x : string) :
  In x (ids (fold_left ioc vs t)) <-> In x (ids t) \/ In x (ids vs).
Proof.
  revert t. induction vs as [|v vs IH]; intros t; simpl; [tauto|].
  rewrite IH, ioc_ids. intuition auto.
Qed.






(** The identifier and the columns of the [SET] list are those of [v]. *)
Local Abbreviation stored r v :=
  (VectorDB.chunk_id r = VectorDB.chunk_id v
   /\ VectorDB.text r = VectorDB.text v
   /\ VectorDB.embedding r = VectorDB.embedding v
   /\ VectorDB.commit_hash r = VectorDB.commit_hash v
   /\ VectorDB.commit_date r = VectorDB.commit_date v
   /\ VectorDB.author r = VectorDB.author v
   /\ VectorDB.last_indexed r = VectorDB.last_indexed v).

(** The identifier and the columns outside the [SET] list are those of [r]. *)
Local Abbreviation kept r' r :=
  (VectorDB.chunk_id r' = VectorDB.chunk_id r
   /\ VectorDB.repo_name r' = VectorDB.repo_name r
   /\ VectorDB.file_path r' = VectorDB.file_path r
   /\ VectorDB.file_type r' = VectorDB.file_type r
   /\ VectorDB.github_url r' = VectorDB.github_url r).





(** Two statements on different identifiers, the first of which meets a
    row, can be exchanged. *)
Lemma ioc_exchange (t : list row) (a b : row) :
  In (VectorDB.chunk_id a) (ids t) ->
  VectorDB.chunk_id a <> VectorDB.chunk_id b ->
  ioc (ioc t b) a = ioc (ioc t a) b.
Proof.
  induction t as [|r0 t IH]; intros Hin Hne; [destruct Hin|]. simpl.
  destruct (String.eqb_spec (VectorDB.chunk_id r0) (VectorDB.chunk_id a)) as [Ea|Ea];
    destruct (String.eqb_spec (VectorDB.chunk_id r0) (VectorDB.chunk_id b)) as [Eb|Eb];
    simpl.
  - congruence.
  - destruct (String.eqb_spec (VectorDB.chunk_id r0) (VectorDB.chunk_id a)); [|contradiction].
    destruct (String.eqb_spec (VectorDB.chunk_id r0) (VectorDB.chunk_id b)); [contradiction|].
    reflexivity.
  - destruct (String.eqb_spec (VectorDB.chunk_id r0) (VectorDB.chunk_id a)); [contradiction|].
    destruct (String.eqb_spec (VectorDB.chunk_id r0) (VectorDB.chunk_id b)); [|contradiction].
    reflexivity.
  - destruct (String.eqb_spec (VectorDB.chunk_id r0) (VectorDB.chunk_id a)); [contradiction|].
    destruct (String.eqb_spec (VectorDB.chunk_id r0) (VectorDB.chunk_id b)); [contradiction|].
    f_equal. apply IH; [|exact Hne]. destruct Hin as [H|H]; [contradiction | exact H].
Qed.

Lemma ioc_twice (t : list row) (v : row) : ioc (ioc t v) v = ioc t v.
Proof.
  induction t as [|r0 t IH]; simpl.
  - rewrite String.eqb_refl. destruct v; reflexivity.
  - destruct (String.eqb_spec (VectorDB.chunk_id r0) (VectorDB.chunk_id v)) as [E|E]; simpl.
    + destruct (String.eqb_spec (VectorDB.chunk_id r0) (VectorDB.chunk_id v));
        [reflexivity | contradiction].
    + destruct (String.eqb_spec (VectorDB.chunk_id r0) (VectorDB.chunk_id v));
        [contradiction | now rewrite IH].
Qed.

Lemma fold_ioc_exchange (vs t : list row) (v : row) :
  (forall a, In a vs -> In (VectorDB.chunk_id a) (ids t)
                        /\ VectorDB.chunk_id a <> VectorDB.chunk_id v) ->
  fold_left ioc vs (ioc t v) = ioc (fold_left ioc vs t) v.
Proof.
  revert t. induction vs as [|a vs IH]; intros t H; [reflexivity|]. simpl.
  destruct (H a (or_introl eq_refl)) as [Hin Hne].
  rewrite ioc_exchange by assumption. apply IH. intros b Hb.
  destruct (H b (or_intror Hb)) as [Hb1 Hb2]. split; [|exact Hb2].
  apply ioc_ids. now left.
Qed.

(** Running the same statements a second time changes nothing. *)
Lemma fold_ioc_twice (vs t : list row) :
  NoDup (ids vs) ->
  fold_left ioc vs (fold_left ioc vs t) = fold_left ioc vs t.
Proof.
  revert t. induction vs as [|v vs IH] using rev_ind; intros t Hnd; [reflexivity|].
  rewrite map_app in Hnd. simpl in Hnd.
  rewrite !fold_left_app. simpl.
  rewrite fold_ioc_exchange.
  - rewrite IH by (eapply NoDup_app_remove_r; exact Hnd). apply ioc_twice.
  - intros a Ha. split.
    + apply fold_ioc_ids. right. now apply in_map.
    + intros E. apply NoDup_remove_2 in Hnd. rewrite app_nil_r in Hnd.
      apply Hnd. rewrite <- E. now apply in_map.
Qed.

End BatchFacts.



(** Storing the same batch a second time, at the same time, changes
    nothing: the table after the second call is the table after the
    first. *)
Theorem upsert_chunks_idempotent (A : Num.Arith) (t t' : VectorDB.table A)
        (now : string) (chunks : list (VectorDB.chunk A)) (n : Z) :
  NoDup (map (@VectorDB.c_chunk_id A) chunks) ->
  VectorDB.upsert_chunks t now chunks = Py.Ok (t', n) ->
  VectorDB.upsert_chunks t' now chunks = Py.Ok (t', n).
Proof.
  intros Hc Hrun. rewrite upsert_chunks_ok in Hrun by exact Hc.
  injection Hrun as <- <-. rewrite upsert_chunks_ok by exact Hc.
  rewrite fold_ioc_twice; [reflexivity|]. now rewrite map_map.
Qed.

Lemma upsert_chunks_idempotent_witness :
  let c : VectorDB.chunk Num.exact :=
           {| VectorDB.c_chunk_id := "c-new"; VectorDB.c_repo_name := "octo/handbook";
              VectorDB.c_file_path := "docs/new.md"; VectorDB.c_file_type := Some "md"%string;
              VectorDB.c_text := "a new page";
              VectorDB.c_embedding := [1%Q] : list (Num.num Num.exact);
              VectorDB.c_commit_hash := None;
              VectorDB.c_commit_date := None; VectorDB.c_author := None;
              VectorDB.c_github_url := None |} in
  exists t',
    VectorDB.upsert_chunks (VectorDB.example_table Num.exact) "2024-07-01T00:00:00" [c]
    = Py.Ok (t', 1)
    /\ VectorDB.upsert_chunks t' "2024-07-01T00:00:00" [c] = Py.Ok (t', 1).
Proof.
  intros c. eexists. split; [reflexivity|].
  refine (@upsert_chunks_idempotent Num.exact (VectorDB.example_table Num.exact) _
            "2024-07-01T00:00:00" [c] 1 _ eq_refl).
  repeat constructor. simpl. tauto.
Defined.

(* ------------------------------------------------------------------ *)
(** ** Storage: deleting a repository, finding what was stored *)






(* ------------------------------------------------------------------ *)
(** ** Hybrid retriever: the chunks of one file *)

(** [retrieve_by_file] is a keyword search for the path, cut to 100 rows
    and then filtered: it always returns, and what it returns are rows of
    the table at that path whose text matches the path read as a query,
    in the repository asked for; a chunk of the file whose text does not
    match is not returned.  When the table has at most 100 rows every
    matching row of the file is returned. *)
Theorem retrieve_by_file_matches_only (A : Num.Arith)
        (self : Retriever.HybridRetriever A) (file_path : string)
        (repo_name : option string) :
  exists docs,
    Retriever.retrieve_by_file self file_path repo_name = Py.Ok docs
    /\ Py.len docs <= 100
    /\ (forall d, In d docs ->
          exists r, In r (Retriever.db self)
            /\ d = VectorDB.doc_of_row r None
                     (Some (VectorDB.ts_rank (Retriever.engine self)
                              (VectorDB.text r) file_path))
            /\ VectorDB.file_path r = file_path
            /\ VectorDB.ts_match (Retriever.engine self) (VectorDB.text r) file_path
               = true
            /\ (forall name, repo_name = Some name -> name <> EmptyString ->
                             VectorDB.repo_name r = name))
    /\ (Py.len (Retriever.db self) <= 100 ->
        forall r, In r (Retriever.db self) ->
          VectorDB.file_path r = file_path ->
          VectorDB.ts_match (Retriever.engine self) (VectorDB.text r) file_path = true ->
          VectorDB.repo_clause repo_name r = true ->
          In (VectorDB.doc_of_row r None
                (Some (VectorDB.ts_rank (Retriever.engine self)
                         (VectorDB.text r) file_path))) docs).
Proof.
  unfold Retriever.retrieve_by_file.
  destruct (@keyword_search_returns A (Retriever.engine self) (Retriever.db self)
              file_path 100 repo_name) as (kw & Hrun & Hlen); [lia|].
  rewrite Hrun. cbn [Py.bind]. eexists. split; [reflexivity|].
  destruct (keyword_search_rows _ _ _ _ _ Hrun) as (_ & Hsound & Hall).
  split; [|split].
  - pose proof (filter_length_le
                  (fun r => String.eqb (VectorDB.d_file_path r) file_path) kw) as H.
    unfold Py.len in *. lia.
  - intros d Hd. apply filter_In in Hd. destruct Hd as [Hd Hpath].
    destruct (Hsound d Hd) as (r & Hr & -> & Hm & Hrepo).
    exists r. split; [exact Hr|]. split; [reflexivity|].
    split; [now apply String.eqb_eq in Hpath|]. split; [exact Hm | exact Hrepo].
  - intros Hsize r Hr Hpath Hm Hrepo. apply filter_In.
    split; [now apply Hall|]. cbn [VectorDB.doc_of_row VectorDB.d_file_path].
    now apply String.eqb_eq.
Qed.

(* ------------------------------------------------------------------ *)
(** ** Hybrid retriever: the candidates of the fusion *)

Section RerankFacts.
Variable A : Num.Arith.
Local Abbreviation doc := (VectorDB.doc A).
Local Abbreviation ids := (map (@VectorDB.d_chunk_id A)).

Lemma add_key_nodup (ks : list string) (k : string) :
  NoDup ks -> NoDup (Py.add_key ks k).
Proof.
  intros H. unfold Py.add_key. destruct (existsb (String.eqb k) ks) eqn:E; [exact H|].
  apply NoDup_app; [exact H | repeat constructor; auto |].
  intros x Hx [<-|[]]. apply existsb_eqb_in in Hx. congruence.
Qed.

Lemma add_keys_nodup (l ks : list string) :
  NoDup ks -> NoDup (fold_left Py.add_key l ks).
Proof.
  revert ks. induction l as [|k l IH]; intros ks H; simpl; [exact H|].
  apply IH, add_key_nodup, H.
Qed.

Lemma nodup_same_length (l1 l2 : list string) :
  NoDup l1 -> NoDup l2 -> (forall x, In x l1 <-> In x l2) ->
  List.length l1 = List.length l2.
Proof.
  intros H1 H2 H. apply Nat.le_antisymm; apply NoDup_incl_length;
    try assumption; intros x Hx; now apply H.
Qed.

(** The identifiers that [sorted] ranks: each candidate once. *)
Lemma rank_ids_candidates (sem kw : list doc) (sw : Num.num A) :
  let ranked := Retriever.rank_ids A (Retriever.build_scores sem kw sw) in
  NoDup ranked
  /\ (forall x, In x ranked <-> In x (ids sem ++ ids kw))
  /\ List.length ranked = List.length (nodup string_dec (ids sem ++ ids kw)).
Proof.
  intros ranked.
  assert (Hnd : NoDup ranked).
  { subst ranked. unfold Retriever.rank_ids.
    rewrite <- (map_id (Py.sorted_by _ _)).
    apply sorted_by_ids. rewrite map_id, keys_build_scores.
    apply add_keys_nodup. constructor. }
  assert (Hin : forall x, In x ranked <-> In x (ids sem ++ ids kw)).
  { intros x. subst ranked. unfold Retriever.rank_ids.
    rewrite in_sorted_by, keys_build_scores, in_add_keys. simpl. tauto. }
  split; [exact Hnd|]. split; [exact Hin|].
  apply nodup_same_length; [exact Hnd | apply NoDup_nodup|].
  intros x. rewrite Hin, nodup_In. reflexivity.
Qed.

(** Where the dictionary of a candidate comes from: the semantic results
    if it is there, the keyword results otherwise. *)
Lemma build_all_docs_origin (sem kw : list doc) (x : string) (d : doc) :
  Py.get (Retriever.build_all_docs sem kw) x = Some d ->
  VectorDB.d_chunk_id d = x
  /\ (In d sem \/ (~ In x (ids sem) /\ In d kw)).
Proof.
  unfold Retriever.build_all_docs.
  set (D1 := fold_left (fun all_docs d => Py.set all_docs (VectorDB.d_chunk_id d) d)
                       sem []).
  assert (H1 : (forall y e, Py.get D1 y = Some e ->
                            VectorDB.d_chunk_id e = y /\ In e sem)
               /\ (forall y, In y (ids sem) -> Py.get D1 y <> None)).
  { subst D1.
    assert (G : forall l acc,
               (forall y e, Py.get acc y = Some e ->
                            VectorDB.d_chunk_id e = y /\ In e sem) ->
               incl l sem ->
               (forall y e,
                   Py.get (fold_left (fun all_docs d =>
                                        Py.set all_docs (VectorDB.d_chunk_id d) d)
                                     l acc) y = Some e ->
                   VectorDB.d_chunk_id e = y /\ In e sem)
               /\ (forall y, In y (ids l) \/ Py.get acc y <> None ->
                     Py.get (fold_left (fun all_docs d =>
                                          Py.set all_docs (VectorDB.d_chunk_id d) d)
                                       l acc) y <> None)).
    { induction l as [|a l IH]; intros acc Hacc Hl; simpl.
      - split; [exact Hacc | intros y [[]|H]; exact H].
      - destruct (IH (Py.set acc (VectorDB.d_chunk_id a) a)) as [G1 G2].
        + intros y e. rewrite get_set.
          destruct (String.eqb_spec (VectorDB.d_chunk_id a) y) as [E|E].
          * intros H. injection H as <-. split; [exact E | apply Hl; now left].
          * apply Hacc.
        + intros z Hz. apply Hl. now right.
        + split; [exact G1|]. intros y Hy. apply G2. rewrite get_set.
          destruct (String.eqb_spec (VectorDB.d_chunk_id a) y) as [E|E].
          * right. discriminate.
          * destruct Hy as [[Hy|Hy]|Hy]; [contradiction | now left | now right]. }
    destruct (G sem []) as [G1 G2];
      [intros y e H; discriminate H | apply incl_refl |].
    split; [exact G1 | intros y Hy; apply G2; now left]. }
  destruct H1 as [H1 H1'].
  assert (G : forall l acc,
             (forall y e, Py.get acc y = Some e ->
                          VectorDB.d_chunk_id e = y
                          /\ (In e sem \/ (~ In y (ids sem) /\ In e kw))) ->
             (forall y, In y (ids sem) -> Py.get acc y <> None) ->
             incl l kw ->
             forall y e,
               Py.get (fold_left (fun all_docs d =>
                          if negb (Py.contains all_docs (VectorDB.d_chunk_id d))
                          then Py.set all_docs (VectorDB.d_chunk_id d) d
                          else all_docs) l acc) y = Some e ->
               VectorDB.d_chunk_id e = y
               /\ (In e sem \/ (~ In y (ids sem) /\ In e kw))).
  { induction l as [|a l IH]; intros acc Hacc Hsem Hl; simpl; [exact Hacc|].
    assert (Hl' : incl l kw) by (intros z Hz; apply Hl; now right).
    destruct (Py.contains acc (VectorDB.d_chunk_id a)) eqn:Hc; simpl negb; cbv iota.
    - now apply IH.
    - apply IH; [| |exact Hl'].
      + intros y e. rewrite get_set.
        destruct (String.eqb_spec (VectorDB.d_chunk_id a) y) as [E|E]; [|apply Hacc].
        intros H. injection H as <-. split; [exact E|]. right. split.
        * intros Hin. apply (Hsem y Hin). rewrite <- E.
          unfold Py.contains in Hc.
          destruct (Py.get acc (VectorDB.d_chunk_id a)); [discriminate | reflexivity].
        * apply Hl. now left.
      + intros y Hy. rewrite get_set.
        destruct (String.eqb (VectorDB.d_chunk_id a) y); [discriminate | now apply Hsem]. }
  apply G; [|exact H1' | apply incl_refl].
  intros y e H. destruct (H1 y e H) as [E Hin]. auto.
Qed.

(** [_rerank] never raises; each of its results is the dictionary of a
    candidate with the fused score added. *)
Lemma rerank_origin (sem kw : list doc) (sw : Num.num A) (top_k : Z) :
  let scores := Retriever.build_scores sem kw sw in
  exists results,
    Retriever._rerank sem kw sw top_k = Py.Ok results
    /\ Forall2 (fun x d =>
                  exists d0,
                    d = Retriever.with_combined_score d0 (Retriever.score_of A scores x)
                    /\ VectorDB.d_chunk_id d0 = x
                    /\ (In d0 sem \/ (~ In x (ids sem) /\ In d0 kw)))
               (Py.slice_to (Retriever.rank_ids A scores) top_k) results.
Proof.
  intros scores. unfold Retriever._rerank. fold scores.
  apply traverse_ok. intros x Hx.
  assert (Hin : In x (ids sem ++ ids kw)).
  { rewrite slice_to_firstn in Hx. apply in_firstn in Hx.
    now apply (rank_ids_candidates sem kw sw). }
  destruct (build_all_docs_get sem kw x Hin) as (d0 & Hget & _).
  rewrite Hget. eexists. split; [reflexivity|].
  destruct (build_all_docs_origin sem kw x Hget) as [Hid Hfrom].
  exists d0. auto.
Qed.

Lemma Forall2_map_left {B C : Type} (g : C -> B) (l : list B) (l' : list C) :
  Forall2 (fun x d => g d = x) l l' -> map g l' = l.
Proof. induction 1 as [|x d l l' H HF IH]; simpl; [reflexivity | now rewrite H, IH]. Qed.

Lemma rerank_ids (sem kw : list doc) (sw : Num.num A) (top_k : Z) (results : list doc) :
  Retriever._rerank sem kw sw top_k = Py.Ok results ->
  ids results
  = Py.slice_to (Retriever.rank_ids A (Retriever.build_scores sem kw sw)) top_k.
Proof.
  intros Hrun. destruct (rerank_origin sem kw sw top_k) as (results' & Hrun' & HF).
  rewrite Hrun in Hrun'. injection Hrun' as <-.
  apply Forall2_map_left. eapply Forall2_impl; [|exact HF].
  intros x d (d0 & -> & Hid & _). exact Hid.
Qed.

End RerankFacts.

(** The fusion returns candidates and nothing else, each once: [_rerank]
    never raises; its results have pairwise distinct identifiers; each is a
    result of the semantic search with the fused score added, or, for an
    identifier the semantic search did not return, a result of the keyword
    search; and for [top_k >= 0] their number is the smaller of [top_k] and
    the number of distinct candidates. *)
Theorem rerank_returns_candidates (A : Num.Arith)
        (semantic_results keyword_results : list (VectorDB.doc A))
        (semantic_weight : Num.num A) (top_k : Z) :
  let candidates :=
    map (@VectorDB.d_chunk_id A) semantic_results
    ++ map (@VectorDB.d_chunk_id A) keyword_results in
  let scores :=
    Retriever.build_scores semantic_results keyword_results semantic_weight in
  exists results,
    Retriever._rerank semantic_results keyword_results semantic_weight top_k
    = Py.Ok results
    /\ NoDup (map (@VectorDB.d_chunk_id A) results)
    /\ (forall d, In d results ->
          exists d0,
            d = Retriever.with_combined_score d0
                  (Retriever.score_of A scores (VectorDB.d_chunk_id d))
            /\ VectorDB.d_chunk_id d0 = VectorDB.d_chunk_id d
            /\ (In d0 semantic_results
                \/ (~ In (VectorDB.d_chunk_id d)
                         (map (@VectorDB.d_chunk_id A) semantic_results)
                    /\ In d0 keyword_results)))
    /\ (0 <= top_k ->
        Py.len results = Z.min top_k (Py.len (nodup string_dec candidates))).
Proof.
  intros candidates scores.
  destruct (rerank_origin semantic_results keyword_results semantic_weight top_k)
    as (results & Hrun & HF).
  fold scores in HF. exists results. split; [exact Hrun|].
  pose proof (rerank_ids _ _ _ _ Hrun) as Hids. fold scores in Hids.
  destruct (rank_ids_candidates semantic_results keyword_results semantic_weight)
    as (Hnd & _ & Hlen).
  fold scores in Hnd, Hlen. fold candidates in Hlen.
  split; [|split].
  - rewrite Hids, slice_to_firstn.
    rewrite <- (map_id (firstn _ _)). apply firstn_ids. now rewrite map_id.
  - intros d Hd.
    destruct (@Forall2_in_right _ _ _ _ _ d HF Hd) as (x & _ & d0 & Hd0 & Hid & Hfrom).
    assert (Hx : VectorDB.d_chunk_id d = x) by (rewrite Hd0; exact Hid).
    exists d0. rewrite Hx. auto.
  - intros Hk. unfold Py.len at 1.
    rewrite <- (length_map (@VectorDB.d_chunk_id A) results), Hids, slice_to_firstn.
    rewrite length_firstn. unfold Py.norm_index, Py.len.
    destruct (Z.ltb_spec top_k 0); [lia|]. rewrite <- Hlen. lia.
Qed.

(* ------------------------------------------------------------------ *)
(** ** Hybrid retriever: results are rows of the table *)



(* ------------------------------------------------------------------ *)
(** ** Hybrid retriever: a candidate ahead in both rankings *)

Section Agreement.
Local Abbreviation E := Num.exact.
Local Abbreviation doc := (VectorDB.doc Num.exact).
Local Abbreviation ids := (map (@VectorDB.d_chunk_id Num.exact)).
Local Open Scope Q_scope.





End Agreement.



(* ------------------------------------------------------------------ *)
(** ** Embedder: batches *)

Section BatchRun.
Variable vector : Type.
Variable create : list string -> Py.result (list vector).
Variable f : string -> vector.
Hypothesis create_pointwise : forall batch, create batch = Py.Ok (map f batch).
Variable texts : list string.
Variable B : Z.
Hypothesis B_positive : 0 < B.

Local Abbreviation self := {| Embedder.batch_size := B |}.
Local Abbreviation n := (Py.len texts).

(** The batch that starts at index [k * B]. *)
Local Abbreviation batch k := (Py.slice texts (Z.of_nat k * B) (Z.of_nat k * B + B)).

(** The events of batch [k]. *)
Local Abbreviation events k :=
  (Embedder.Request (batch k)
     :: if Z.of_nat k * B + B <? n then [Embedder.Sleep] else []).

Lemma batch_firstn (k : nat) :
  firstn (Z.to_nat (Z.of_nat k * B)) texts ++ batch k
  = firstn (Z.to_nat (Z.of_nat (S k) * B)) texts.
Proof.
  rewrite slice_nonneg by lia. rewrite firstn_skipn_glue. f_equal. lia.
Qed.

Lemma batches_run (m k : nat) (log : list Embedder.event) :
  Embedder.batches create self texts
    (map (fun j => 0 + Z.of_nat j * B) (seq k m))
    (map f (firstn (Z.to_nat (Z.of_nat k * B)) texts)) log
  = (log ++ flat_map (fun j => events j) (seq k m),
     Py.Ok (map f (firstn (Z.to_nat (Z.of_nat (k + m) * B)) texts))).
Proof.
  revert k log. induction m as [|m IH]; intros k log.
  - simpl. rewrite app_nil_r, Nat.add_0_r. reflexivity.
  - cbn [seq map Embedder.batches flat_map]. cbn [Embedder.batch_size].
    rewrite Z.add_0_l, create_pointwise.
    rewrite <- map_app, batch_firstn.
    replace (k + S m)%nat with (S k + m)%nat by lia.
    destruct (Z.of_nat k * B + B <? n).
    + rewrite IH. f_equal. now rewrite <- !app_assoc.
    + rewrite IH. f_equal. now rewrite <- !app_assoc.
Qed.

Lemma requests_events (m k : nat) :
  Embedder.requests (flat_map (fun j => events j) (seq k m))
  = map (fun j => batch j) (seq k m).
Proof.
  revert k. induction m as [|m IH]; intros k; [reflexivity|].
  cbn [seq flat_map map]. unfold Embedder.requests in *.
  rewrite flat_map_app, IH.
  destruct (Z.of_nat k * B + B <? n); reflexivity.
Qed.

Lemma concat_batches (m : nat) :
  List.concat (map (fun j => batch j) (seq 0 m))
  = firstn (Z.to_nat (Z.of_nat m * B)) texts.
Proof.
  induction m as [|m IH]; [reflexivity|].
  rewrite seq_S, map_app, concat_app, IH. simpl List.concat.
  rewrite app_nil_r. apply batch_firstn.
Qed.

Lemma sleeps_events (m k : nat) :
  Z.of_nat (k + m) * B < n + B ->
  Embedder.sleeps (flat_map (fun j => events j) (seq k m))
  = if Z.of_nat (k + m) * B <? n then Z.of_nat m else Z.max 0 (Z.of_nat m - 1).
Proof.
  revert k. induction m as [|m IH]; intros k Hk.
  - simpl. destruct (_ <? _); reflexivity.
  - cbn [seq flat_map]. unfold Embedder.sleeps in *.
    rewrite filter_app. unfold Py.len in *. rewrite length_app, Nat2Z.inj_add.
    replace (k + S m)%nat with (S k + m)%nat in * by lia.
    rewrite IH by exact Hk.
    destruct (Z.ltb_spec (Z.of_nat (S k + m) * B) (Z.of_nat (List.length texts)));
      destruct (Z.ltb_spec (Z.of_nat k * B + B) (Z.of_nat (List.length texts)));
      cbn [filter List.length]; nia.
Qed.

End BatchRun.

(** Batching is transparent.  With a model that answers every request
    and embeds each text on its own, [embed_batch] returns the embeddings
    of the texts in the order of the texts; the batches it requests, put
    end to end, are the texts; each holds between 1 and 100 texts; there
    are [ceil(len(texts) / 100)] requests, and a pause between two
    requests but none after the last. *)
Theorem embed_batch_is_transparent (vector : Type)
        (create : list string -> Py.result (list vector))
        (f : string -> vector) (texts : list string) :
  (forall batch, create batch = Py.Ok (map f batch)) ->
  let log := fst (Embedder.embed_batch create Embedder.init texts) in
  snd (Embedder.embed_batch create Embedder.init texts) = Py.Ok (map f texts)
  /\ List.concat (Embedder.requests log) = texts
  /\ Forall (fun batch => 1 <= Py.len batch <= 100) (Embedder.requests log)
  /\ Py.len (Embedder.requests log) = (Py.len texts + 99) / 100
  /\ Embedder.sleeps log = Z.max 0 (Py.len (Embedder.requests log) - 1).
Proof.
  intros Hcreate log. subst log. unfold Embedder.embed_batch.
  destruct texts as [|t0 texts'] eqn:Htexts.
  - cbn. repeat split; constructor.
  - rewrite <- Htexts. clear Htexts t0 texts'.
    unfold Embedder.range. cbn [Embedder.batch_size Embedder.init].
    change (100 =? 0) with false. change (100 >? 0) with true. cbv iota.
    set (m := Z.to_nat ((Py.len texts - 0 + 100 - 1) / 100)).
    assert (Hm : Z.of_nat m = (Py.len texts + 99) / 100).
    { subst m. rewrite Z2Nat.id.
      - f_equal. lia.
      - apply Z.div_pos; unfold Py.len; lia. }
    assert (Hlo : Py.len texts <= Z.of_nat m * 100).
    { rewrite Hm. pose proof (Z.div_mod (Py.len texts + 99) 100 ltac:(lia)).
      pose proof (Z.mod_pos_bound (Py.len texts + 99) 100 ltac:(lia)). lia. }
    assert (Hhi : Z.of_nat m * 100 < Py.len texts + 100).
    { rewrite Hm. pose proof (Z.div_mod (Py.len texts + 99) 100 ltac:(lia)).
      pose proof (Z.mod_pos_bound (Py.len texts + 99) 100 ltac:(lia)). lia. }
    pose proof (@batches_run vector create f Hcreate texts 100 ltac:(lia) m 0%nat [])
      as Hrun.
    cbn [Nat.add Z.of_nat Z.mul Z.to_nat firstn map app] in Hrun.
    change (Embedder.batches create {| Embedder.batch_size := 100 |} texts
              (map (fun j : nat => 0 + Z.of_nat j * 100) (seq 0 m)) [] [])
      with (Embedder.batches create Embedder.init texts
              (map (fun k : nat => 0 + Z.of_nat k * 100) (seq 0 m)) [] []) in Hrun.
    rewrite Hrun. cbn [fst snd].
    rewrite requests_events by lia.
    split; [|split; [|split; [|split]]].
    + f_equal. f_equal. apply firstn_all2. unfold Py.len in Hlo. lia.
    + rewrite concat_batches by lia. apply firstn_all2. unfold Py.len in Hlo. lia.
    + apply Forall_forall. intros b Hb. apply in_map_iff in Hb.
      destruct Hb as (j & <- & Hj). apply in_seq in Hj.
      rewrite slice_nonneg by lia. unfold Py.len in *.
      rewrite length_firstn, length_skipn. nia.
    + unfold Py.len at 1. rewrite length_map, length_seq. exact Hm.
    + rewrite (@sleeps_events texts 100 ltac:(lia) m 0%nat) by (simpl; lia).
      unfold Py.len at 2. rewrite length_map, length_seq.
      simpl Nat.add. destruct (Z.ltb_spec (Z.of_nat m * 100) (Py.len texts)); lia.
Qed.

Lemma embed_batch_is_transparent_witness :
  snd (Embedder.embed_batch (fun batch => Py.Ok (map Str.len batch)) Embedder.init
         ["alpha"; "be"; "gam"]%string)
  = Py.Ok (map Str.len ["alpha"; "be"; "gam"]%string).
Proof.
  refine (proj1 (@embed_batch_is_transparent Z
                   (fun batch => Py.Ok (map Str.len batch)) Str.len
                   ["alpha"; "be"; "gam"]%string (fun batch => eq_refl))).
Defined.

Lemma batches_outcome (vector : Type) (create : list string -> Py.result (list vector))
      (self : Embedder.Embedder) (texts : list string) (starts : list Z) :
  forall embeddings log,
  exists events,
    fst (Embedder.batches create self texts starts embeddings log) = log ++ events
    /\ match snd (Embedder.batches create self texts starts embeddings log) with
       | Py.Raise e =>
           exists earlier batch,
             events = earlier ++ [Embedder.Request batch]
             /\ create batch = Py.Raise e
             /\ Forall (fun b => exists answer, create b = Py.Ok answer)
                       (Embedder.requests earlier)
       | Py.Ok result =>
           exists answers,
             Forall2 (fun b answer => create b = Py.Ok answer)
                     (Embedder.requests events) answers
             /\ result = embeddings ++ List.concat answers
       end.
Proof.
  induction starts as [|i rest IH]; intros embeddings log.
  - exists []. cbn. rewrite !app_nil_r. split; [reflexivity|].
    exists []. split; [constructor | now rewrite app_nil_r].
  - cbn [Embedder.batches].
    set (batch := Py.slice texts i (i + Embedder.batch_size self)).
    destruct (create batch) as [answer|e] eqn:Hcreate.
    + set (pause := if i + Embedder.batch_size self <? Py.len texts
                    then [Embedder.Sleep] else []).
      assert (Hlog : (if i + Embedder.batch_size self <? Py.len texts
                      then (log ++ [Embedder.Request batch]) ++ [Embedder.Sleep]
                      else log ++ [Embedder.Request batch])
                     = log ++ Embedder.Request batch :: pause).
      { subst pause. destruct (_ <? _); now rewrite <- ?app_assoc. }
      rewrite Hlog.
      destruct (IH (embeddings ++ answer) (log ++ Embedder.Request batch :: pause))
        as (events & Hfst & Hsnd).
      exists ((Embedder.Request batch :: pause) ++ events).
      split; [now rewrite Hfst, <- app_assoc|].
      assert (Hreq : forall evs,
                 Embedder.requests ((Embedder.Request batch :: pause) ++ evs)
                 = batch :: Embedder.requests evs).
      { intros evs. subst pause. unfold Embedder.requests.
        destruct (_ <? _); reflexivity. }
      destruct (snd (Embedder.batches create self texts rest (embeddings ++ answer)
                       (log ++ Embedder.Request batch :: pause))) as [result|e].
      * destruct Hsnd as (answers & HF & ->). exists (answer :: answers).
        rewrite Hreq. split; [now constructor|].
        simpl. now rewrite app_assoc.
      * destruct Hsnd as (earlier & b & -> & Hb & Hall).
        exists ((Embedder.Request batch :: pause) ++ earlier), b.
        split; [now rewrite <- app_assoc|]. split; [exact Hb|].
        rewrite Hreq. constructor; [now exists answer | exact Hall].
    + exists [Embedder.Request batch]. cbn [fst snd]. split; [reflexivity|].
      exists [], batch. split; [reflexivity|]. split; [exact Hcreate | constructor].
Qed.

(** A request that fails is the last thing [embed_batch] does: the call
    raises the error of the first request the model refuses, every
    request before it was answered, and no request or pause follows it.
    A call that returns has had every request answered, and returns the
    answers put end to end. *)
Theorem embed_batch_stops_at_failure (vector : Type)
        (create : list string -> Py.result (list vector)) (texts : list string) :
  let log := fst (Embedder.embed_batch create Embedder.init texts) in
  match snd (Embedder.embed_batch create Embedder.init texts) with
  | Py.Raise e =>
      exists earlier batch,
        log = earlier ++ [Embedder.Request batch]
        /\ create batch = Py.Raise e
        /\ Forall (fun b => exists answer, create b = Py.Ok answer)
                  (Embedder.requests earlier)
  | Py.Ok result =>
      exists answers,
        Forall2 (fun b answer => create b = Py.Ok answer)
                (Embedder.requests log) answers
        /\ result = List.concat answers
  end.
Proof.
  intros log. subst log. unfold Embedder.embed_batch.
  destruct texts as [|t0 texts'] eqn:Htexts.
  - cbn. exists []. split; [constructor | reflexivity].
  - rewrite <- Htexts. clear Htexts t0 texts'.
    unfold Embedder.range. cbn [Embedder.batch_size Embedder.init].
    change (100 =? 0) with false. cbv iota.
    destruct (batches_outcome create Embedder.init texts
                (map (fun k : nat => 0 + Z.of_nat k * 100)
                     (seq 0 (Z.to_nat (if 100 >? 0
                                       then (Py.len texts - 0 + 100 - 1) / 100
                                       else (0 - Py.len texts - 100 - 1) / - (100)))))
                [] []) as (events & Hfst & Hsnd).
    rewrite Hfst. cbn [app].
    destruct (snd (Embedder.batches create Embedder.init texts _ [] [])) as [result|e];
      exact Hsnd.
Qed.

(* ------------------------------------------------------------------ *)
(** ** Orchestrator: answers given without the model *)

Local Open Scope string_scope.

Section QueryFacts.
Variable A : Num.Arith.
Variable chat : string -> string -> Py.result Orchestrator.message.
Variable loads : string -> Py.result Orchestrator.arguments.
Variable dates : Validator.calendar.
Variable sign : string.
Variable self : Orchestrator.LLMOrchestrator A.

Local Abbreviation query := (Orchestrator.query chat loads dates sign self).

(** A query that is turned down comes with a reason. *)
Lemma validate_query_reason (iv : Validator.InputValidator) (user_query : string) :
  fst (Validator.validate_query iv user_query) = false ->
  exists reason,
    Validator.validate_query iv user_query = (false, Some reason)
    /\ (reason = "Query too short (minimum "
                   ++ Str.of_Z (Validator.min_query_length iv) ++ " characters)"
        \/ reason = "Query too long (maximum "
                      ++ Str.of_Z (Validator.max_query_length iv) ++ " characters)"
        \/ reason = "Invalid query format").
Proof.
  unfold Validator.validate_query.
  destruct (Str.len user_query <? Validator.min_query_length iv)%Z;
    [intros _; eexists; split; [reflexivity | auto]|].
  destruct (Str.len user_query >? Validator.max_query_length iv)%Z;
    [intros _; eexists; split; [reflexivity | auto]|].
  destruct (Validator.sql_injection user_query);
    [intros _; eexists; split; [reflexivity | auto]|].
  destruct (Validator.script_injection user_query);
    [intros _; eexists; split; [reflexivity | auto]|].
  discriminate.
Qed.

Lemma validate_query_accepts (iv : Validator.InputValidator) (user_query : string) :
  fst (Validator.validate_query iv user_query) = true ->
  Validator.validate_query iv user_query = (true, None).
Proof.
  unfold Validator.validate_query.
  destruct (Str.len user_query <? Validator.min_query_length iv)%Z; [discriminate|].
  destruct (Str.len user_query >? Validator.max_query_length iv)%Z; [discriminate|].
  destruct (Validator.sql_injection user_query); [discriminate|].
  destruct (Validator.script_injection user_query); [discriminate|].
  reflexivity.
Qed.

(** [query] once the input validator has accepted the query. *)
Lemma query_accepted (user_query : string) (repo_name : option string) (top_k : Z) :
  fst (Validator.validate_query (Orchestrator.input_validator self) user_query) = true ->
  query user_query repo_name top_k
  = Py.bind
      (Retriever.retrieve (Orchestrator.retriever self) user_query top_k
         (Retriever.default_weight A) repo_name None)
      (fun context =>
         match context with
         | [] =>
             Py.Ok {| Orchestrator.response :=
                        "I couldn't find any relevant documentation for your question. "
                          ++ "Try rephrasing or check if the repository has been indexed.";
                      Orchestrator.citations := [];
                      Orchestrator.context_chunks := None;
                      Orchestrator.is_valid := true;
                      Orchestrator.errors := [];
                      Orchestrator.warnings := ["No relevant context found"] |}
         | _ =>
             Py.bind (chat Prompts.SYSTEM_PROMPT
                        (Prompts.create_user_prompt user_query context))
               (fun message =>
                  Py.bind
                    (match Orchestrator.tool_calls message with
                     | [] => Py.Ok (Orchestrator.content message)
                     | calls => Orchestrator._handle_tool_calls loads self calls
                                  user_query context
                     end)
                    (fun response_text =>
                       let '(valid, errors, warnings) :=
                         Validator.validate dates (Orchestrator.response_validator self)
                           response_text (map (@Orchestrator.as_chunk A) context) in
                       let response_text :=
                         match warnings with
                         | [] => response_text
                         | _ => Validator.add_warnings_to_response sign
                                  response_text warnings
                         end in
                       Py.Ok {| Orchestrator.response := response_text;
                                Orchestrator.citations :=
                                  Orchestrator._extract_citations response_text context;
                                Orchestrator.context_chunks := Some context;
                                Orchestrator.is_valid := valid;
                                Orchestrator.errors := map Some errors;
                                Orchestrator.warnings := warnings |}))
         end).
Proof.
  intros H. unfold Orchestrator.query.
  rewrite (validate_query_accepts _ _ H). reflexivity.
Qed.

End QueryFacts.

(** A query that the input validator turns down is answered at once:
    whatever the retriever, the model and the JSON parser would do, [query]
    returns "Invalid query: " followed by the reason, with no citation and
    no context, marked invalid, the reason being its only error; and the
    reason is one of the three messages of the validator. *)
Theorem rejected_query_is_answered_at_once (A : Num.Arith)
        (chat : string -> string -> Py.result Orchestrator.message)
        (loads : string -> Py.result Orchestrator.arguments)
        (dates : Validator.calendar) (sign : string)
        (self : Orchestrator.LLMOrchestrator A)
        (user_query : string) (repo_name : option string) (top_k : Z) :
  fst (Validator.validate_query (Orchestrator.input_validator self) user_query) = false ->
  exists reason,
    Orchestrator.query chat loads dates sign self user_query repo_name top_k
    = Py.Ok {| Orchestrator.response := "Invalid query: " ++ reason;
               Orchestrator.citations := [];
               Orchestrator.context_chunks := None;
               Orchestrator.is_valid := false;
               Orchestrator.errors := [Some reason];
               Orchestrator.warnings := [] |}
    /\ (reason = "Query too short (minimum "
                   ++ Str.of_Z (Validator.min_query_length
                                  (Orchestrator.input_validator self))
                   ++ " characters)"
        \/ reason = "Query too long (maximum "
                      ++ Str.of_Z (Validator.max_query_length
                                     (Orchestrator.input_validator self))
                      ++ " characters)"
        \/ reason = "Invalid query format").
Proof.
  intros H. destruct (validate_query_reason _ _ H) as (reason & Hv & Hreason).
  exists reason. split; [|exact Hreason].
  unfold Orchestrator.query. rewrite Hv. reflexivity.
Qed.

Lemma rejected_query_is_answered_at_once_witness :
  exists reason,
    Orchestrator.query (fun _ _ => Py.Raise (Py.ValueError "model unreachable"))
      Orchestrator.loads_empty Validator.example_calendar "!"
      Orchestrator.example_orchestrator "x'; DROP  TABLE documents" None 5
    = Py.Ok {| Orchestrator.response := "Invalid query: " ++ reason;
               Orchestrator.citations := [];
               Orchestrator.context_chunks := None;
               Orchestrator.is_valid := false;
               Orchestrator.errors := [Some reason];
               Orchestrator.warnings := [] |}.
Proof.
  destruct (@rejected_query_is_answered_at_once Num.exact
              (fun _ _ => Py.Raise (Py.ValueError "model unreachable"))
              Orchestrator.loads_empty Validator.example_calendar "!"
              Orchestrator.example_orchestrator "x'; DROP  TABLE documents" None 5)
    as (reason & Hrun & _).
  - vm_compute. reflexivity.
  - exists reason. exact Hrun.
Defined.

(** When the retriever finds nothing for an accepted query the model is
    not asked: whatever it would answer, [query] returns the fixed text,
    without citation or context, marked valid, with the warning "No
    relevant context found". *)
Theorem empty_context_skips_the_model (A : Num.Arith)
        (chat : string -> string -> Py.result Orchestrator.message)
        (loads : string -> Py.result Orchestrator.arguments)
        (dates : Validator.calendar) (sign : string)
        (self : Orchestrator.LLMOrchestrator A)
        (user_query : string) (repo_name : option string) (top_k : Z) :
  fst (Validator.validate_query (Orchestrator.input_validator self) user_query) = true ->
  Retriever.retrieve (Orchestrator.retriever self) user_query top_k
    (Retriever.default_weight A) repo_name None = Py.Ok [] ->
  Orchestrator.query chat loads dates sign self user_query repo_name top_k
  = Py.Ok {| Orchestrator.response :=
               "I couldn't find any relevant documentation for your question. "
                 ++ "Try rephrasing or check if the repository has been indexed.";
             Orchestrator.citations := [];
             Orchestrator.context_chunks := None;
             Orchestrator.is_valid := true;
             Orchestrator.errors := [];
             Orchestrator.warnings := ["No relevant context found"] |}.
Proof.
  intros Hv Hr. rewrite query_accepted by exact Hv. rewrite Hr. reflexivity.
Qed.

Lemma empty_context_skips_the_model_witness :
  Orchestrator.query (fun _ _ => Py.Raise (Py.ValueError "model unreachable"))
    Orchestrator.loads_empty Validator.example_calendar "!"
    Orchestrator.example_orchestrator "kubernetes ingress" (Some "octo/other") 5
  = Py.Ok {| Orchestrator.response :=
               "I couldn't find any relevant documentation for your question. "
                 ++ "Try rephrasing or check if the repository has been indexed.";
             Orchestrator.citations := [];
             Orchestrator.context_chunks := None;
             Orchestrator.is_valid := true;
             Orchestrator.errors := [];
             Orchestrator.warnings := ["No relevant context found"] |}.
Proof.
  refine (@empty_context_skips_the_model Num.exact _ _ _ _
            Orchestrator.example_orchestrator "kubernetes ingress"
            (Some "octo/other") 5 _ _).
  - vm_compute. reflexivity.
  - vm_compute. reflexivity.
Defined.

(* ------------------------------------------------------------------ *)
(** ** Orchestrator: when the model asks for a tool *)

Lemma handle_tool_calls_text (A : Num.Arith)
      (loads : string -> Py.result Orchestrator.arguments)
      (self : Orchestrator.LLMOrchestrator A) (calls : list Orchestrator.tool_call)
      (original_query : string) (context : list (VectorDB.doc A)) (text : string) :
  Orchestrator._handle_tool_calls loads self calls original_query context = Py.Ok text ->
  text = "I searched the codebase and found relevant information. "
           ++ "(Tool calling executed successfully)"
  \/ text = "Tool execution completed".
Proof.
  induction calls as [|call rest IH]; cbn [Orchestrator._handle_tool_calls]; intros H.
  - injection H as <-. now right.
  - apply bind_ok in H. destruct H as (arguments & _ & H).
    destruct (String.eqb (Orchestrator.function_name call) "search_codebase").
    + apply bind_ok in H. destruct H as (results & _ & H). injection H as <-. now left.
    + now apply IH.
Qed.

(** A response without citation: one error, and warnings that depend on
    the text alone. *)
Lemma validate_uncited (dates : Validator.calendar) (self : Validator.ResponseValidator)
      (response : string) (chunks : list Validator.chunk) :
  Validator._extract_citations response = [] ->
  Validator.validate dates self response chunks
  = (false, ["Response has no citations"],
     fold_left (Validator.pattern_step response) Validator.error_patterns
       (if (Str.len (Str.strip response) <? 20)%Z
        then ["Response is very short, may be incomplete"] else [])).
Proof. intros H. unfold Validator.validate. rewrite H. reflexivity. Qed.

Lemma validate_tool_text (dates : Validator.calendar) (self : Validator.ResponseValidator)
      (text : string) (chunks : list Validator.chunk) :
  text = "I searched the codebase and found relevant information. "
           ++ "(Tool calling executed successfully)"
  \/ text = "Tool execution completed" ->
  Validator.validate dates self text chunks = (false, ["Response has no citations"], []).
Proof.
  intros [-> | ->]; rewrite validate_uncited by (vm_compute; reflexivity);
    vm_compute; reflexivity.
Qed.

(** An answer that went through a tool call never passes validation.
    When the model answers an accepted query with tool calls and [query]
    returns, the response is one of the two fixed acknowledgements of
    [_handle_tool_calls], and it is marked invalid with the single error
    "Response has no citations" and no warning. *)
Theorem tool_call_answer_is_invalid (A : Num.Arith)
        (chat : string -> string -> Py.result Orchestrator.message)
        (loads : string -> Py.result Orchestrator.arguments)
        (dates : Validator.calendar) (sign : string)
        (self : Orchestrator.LLMOrchestrator A)
        (user_query : string) (repo_name : option string) (top_k : Z)
        (context : list (VectorDB.doc A)) (message : Orchestrator.message)
        (result : Orchestrator.answer A) :
  fst (Validator.validate_query (Orchestrator.input_validator self) user_query) = true ->
  Retriever.retrieve (Orchestrator.retriever self) user_query top_k
    (Retriever.default_weight A) repo_name None = Py.Ok context ->
  context <> [] ->
  chat Prompts.SYSTEM_PROMPT (Prompts.create_user_prompt user_query context)
  = Py.Ok message ->
  Orchestrator.tool_calls message <> [] ->
  Orchestrator.query chat loads dates sign self user_query repo_name top_k
  = Py.Ok result ->
  (Orchestrator.response result
   = "I searched the codebase and found relevant information. "
       ++ "(Tool calling executed successfully)"
   \/ Orchestrator.response result = "Tool execution completed")
  /\ Orchestrator.is_valid result = false
  /\ Orchestrator.errors result = [Some "Response has no citations"]
  /\ Orchestrator.warnings result = []
  /\ Orchestrator.context_chunks result = Some context.
Proof.
  intros Hv Hr Hctx Hchat Hcalls Hrun.
  rewrite query_accepted in Hrun by exact Hv. rewrite Hr in Hrun. cbn [Py.bind] in Hrun.
  destruct context as [|d0 context']; [congruence|].
  set (context := d0 :: context') in *. cbv iota in Hrun.
  rewrite Hchat in Hrun. cbn [Py.bind] in Hrun.
  destruct (Orchestrator.tool_calls message) as [|call calls] eqn:Hm; [congruence|].
  apply bind_ok in Hrun. destruct Hrun as (text & Htext & Hrun).
  apply handle_tool_calls_text in Htext.
  rewrite (validate_tool_text dates _ _ Htext) in Hrun.
  injection Hrun as <-. cbn. auto.
Qed.

Lemma tool_call_answer_is_invalid_witness :
  exists result,
    Orchestrator.query Orchestrator.chat_tool Orchestrator.loads_empty
      Validator.example_calendar "!" Orchestrator.example_orchestrator
      "how is redis set up" None 5 = Py.Ok result
    /\ Orchestrator.is_valid result = false
    /\ Orchestrator.errors result = [Some "Response has no citations"].
Proof.
  destruct (Orchestrator.query Orchestrator.chat_tool Orchestrator.loads_empty
              Validator.example_calendar "!" Orchestrator.example_orchestrator
              "how is redis set up" None 5) as [result|e] eqn:Hrun;
    [|vm_compute in Hrun; discriminate Hrun].
  exists result. split; [reflexivity|].
  destruct (Retriever.retrieve
              (Orchestrator.retriever Orchestrator.example_orchestrator)
              "how is redis set up" 5 (Retriever.default_weight Num.exact) None None)
    as [context|e] eqn:Hr; [|vm_compute in Hr; discriminate Hr].
  destruct (@tool_call_answer_is_invalid Num.exact Orchestrator.chat_tool
              Orchestrator.loads_empty Validator.example_calendar "!"
              Orchestrator.example_orchestrator "how is redis set up" None 5
              context
              {| Orchestrator.content := "";
                 Orchestrator.tool_calls :=
                   [{| Orchestrator.function_name := "search_codebase";
                       Orchestrator.function_arguments := "{}" |}] |}
              result) as (_ & Hvalid & Herrors & _).
  - vm_compute. reflexivity.
  - exact Hr.
  - intros ->. vm_compute in Hr. discriminate Hr.
  - reflexivity.
  - discriminate.
  - exact Hrun.
  - split; [exact Hvalid | exact Herrors].
Defined.

(* ------------------------------------------------------------------ *)
(** ** Orchestrator: the citations of a valid answer *)

Lemma validate_accepted (dates : Validator.calendar) (self : Validator.ResponseValidator)
      (response : string) (chunks : list Validator.chunk) :
  fst (fst (Validator.validate dates self response chunks)) = true ->
  Validator._extract_citations response <> []
  /\ forall c, In c (Validator._extract_citations response) ->
               In c (map Validator.file_path chunks).
Proof.
  rewrite validate_is_valid, len_zero_nil, validate_errors. intros H.
  apply app_eq_nil in H. destruct H as [H1 H2]. split.
  - destruct (Validator._extract_citations response); [discriminate H1 | discriminate].
  - intros c Hc.
    destruct (existsb (String.eqb c) (map Validator.file_path chunks)) eqn:E;
      [now apply existsb_eqb_in in E|].
    assert (Hin : In c (filter (fun c => negb (existsb (String.eqb c)
                                                  (map Validator.file_path chunks)))
                               (Validator._extract_citations response))).
    { apply filter_In. split; [exact Hc | now rewrite E]. }
    apply (in_map (fun c => "Hallucinated citation: " ++ c)) in Hin.
    rewrite H2 in Hin. destruct Hin.
Qed.

(** The citations of the validator are pieces of the response, and not
    empty. *)
Lemma validator_citation_occurs (response c : string) :
  In c (Validator._extract_citations response) ->
  c <> "" /\ Str.contains c response = true.
Proof.
  intros Hc. apply extract_citations_in in Hc. destruct Hc as (pattern & Hp & Hc).
  split.
  - apply findall_from_matches in Hc. destruct Hc as (pre & s' & rest & _ & Hm).
    simpl in Hp. destruct Hp as [<-|[<-|[<-|[<-|[]]]]];
      apply citation_pattern_sound in Hm;
      destruct Hm as (stem & ext & _ & -> & Hs & _);
      (destruct stem; [congruence | simpl; discriminate]).
  - apply findall_from_substring in Hc. now apply contains_iff.
Qed.

Lemma contains_append (c a b : string) :
  Str.contains c a = true -> Str.contains c (a ++ b) = true.
Proof.
  rewrite !contains_iff. intros (pre & post & ->). exists pre, (post ++ b).
  now rewrite !append_assoc.
Qed.

Lemma add_warnings_keeps (sign response : string) (warnings : list string) (c : string) :
  Str.contains c response = true ->
  Str.contains c (match warnings with
                  | [] => response
                  | _ => Validator.add_warnings_to_response sign response warnings
                  end) = true.
Proof.
  intros H. destruct warnings as [|w ws]; [exact H|].
  unfold Validator.add_warnings_to_response. now apply contains_append.
Qed.

Lemma orchestrator_citations_in (A : Num.Arith) (text : string)
      (context : list (VectorDB.doc A)) (c : string) :
  In c (Orchestrator._extract_citations text context)
  <-> c <> "" /\ Str.contains c text = true
      /\ exists d, In d context /\ VectorDB.d_file_path d = c.
Proof.
  unfold Orchestrator._extract_citations. rewrite set_update_in.
  assert (G : forall l acc,
             In c (fold_left
                     (fun citations chunk =>
                        let file_path := VectorDB.d_file_path chunk in
                        if Py.truthy file_path && Str.contains file_path text
                        then (citations ++ [file_path])%list else citations) l acc)
             <-> In c acc
                 \/ (c <> "" /\ Str.contains c text = true
                     /\ exists d : VectorDB.doc A, In d l /\ VectorDB.d_file_path d = c)).
  { induction l as [|d l IH]; intros acc; simpl.
    - split; [auto | intros [H|(_ & _ & d & [] & _)]; exact H].
    - rewrite IH.
      destruct (Py.truthy (VectorDB.d_file_path d)) eqn:Ht;
        destruct (Str.contains (VectorDB.d_file_path d) text) eqn:Hc; simpl.
      + rewrite in_app_iff. simpl. split.
        * intros [[H|[H|[]]]|(H1 & H2 & d' & Hd' & E)]; [now left | | eauto 8].
          right. subst c. split; [destruct (VectorDB.d_file_path d); [discriminate Ht | discriminate]|].
          split; [exact Hc | eauto].
        * intros [H|(H1 & H2 & d' & [<-|Hd'] & E)]; [auto | auto | right; eauto 8].
      + split; [intros [H|(H1 & H2 & d' & Hd' & E)]; [auto | right; eauto 8]|].
        intros [H|(H1 & H2 & d' & [<-|Hd'] & E)]; [auto | congruence | right; eauto 8].
      + split; [intros [H|(H1 & H2 & d' & Hd' & E)]; [auto | right; eauto 8]|].
        intros [H|(H1 & H2 & d' & [<-|Hd'] & E)]; [auto | | right; eauto 8].
        subst c. destruct (VectorDB.d_file_path d); [congruence | discriminate Ht].
      + split; [intros [H|(H1 & H2 & d' & Hd' & E)]; [auto | right; eauto 8]|].
        intros [H|(H1 & H2 & d' & [<-|Hd'] & E)]; [auto | congruence | right; eauto 8]. }
  rewrite G. simpl. tauto.
Qed.

(** A valid answer of the model names its sources.  When [query] returns
    an answer with its context and marks it valid, the response cites at
    least one file in the validator's sense; every file so cited is
    reported among the citations of the answer; and every citation of the
    answer is the path of a retrieved chunk that occurs in the
    response. *)
Theorem valid_answer_cites_context (A : Num.Arith)
        (chat : string -> string -> Py.result Orchestrator.message)
        (loads : string -> Py.result Orchestrator.arguments)
        (dates : Validator.calendar) (sign : string)
        (self : Orchestrator.LLMOrchestrator A)
        (user_query : string) (repo_name : option string) (top_k : Z)
        (context : list (VectorDB.doc A)) (result : Orchestrator.answer A) :
  Orchestrator.query chat loads dates sign self user_query repo_name top_k
  = Py.Ok result ->
  Orchestrator.context_chunks result = Some context ->
  Orchestrator.is_valid result = true ->
  Orchestrator.citations result <> []
  /\ (exists text,
         Validator._extract_citations text <> []
         /\ (exists notes, Orchestrator.response result = text ++ notes)
         /\ forall c, In c (Validator._extract_citations text) ->
                      In c (Orchestrator.citations result))
  /\ (forall c, In c (Orchestrator.citations result) ->
        c <> "" /\ Str.contains c (Orchestrator.response result) = true
        /\ exists d, In d context /\ VectorDB.d_file_path d = c).
Proof.
  intros Hrun Hctx Hvalid.
  assert (Hv : fst (Validator.validate_query (Orchestrator.input_validator self)
                      user_query) = true).
  { destruct (fst (Validator.validate_query (Orchestrator.input_validator self)
                     user_query)) eqn:E; [reflexivity|].
    destruct (validate_query_reason _ _ E) as (reason & Hq & _).
    unfold Orchestrator.query in Hrun. rewrite Hq in Hrun.
    injection Hrun as <-. discriminate Hvalid. }
  rewrite query_accepted in Hrun by exact Hv.
  apply bind_ok in Hrun. destruct Hrun as (context' & _ & Hrun).
  destruct context' as [|d0 rest];
    [injection Hrun as <-; discriminate Hctx|].
  set (context' := d0 :: rest) in *. cbv iota in Hrun.
  apply bind_ok in Hrun. destruct Hrun as (message & _ & Hrun).
  apply bind_ok in Hrun. destruct Hrun as (text & _ & Hrun).
  destruct (Validator.validate dates (Orchestrator.response_validator self) text
              (map (@Orchestrator.as_chunk A) context'))
    as [[valid errors] warnings] eqn:Hval.
  injection Hrun as <-.
  cbn [Orchestrator.citations Orchestrator.response Orchestrator.context_chunks
       Orchestrator.is_valid] in Hctx, Hvalid |- *.
  injection Hctx as <-. subst valid.
  assert (Hacc : fst (fst (Validator.validate dates
                             (Orchestrator.response_validator self) text
                             (map (@Orchestrator.as_chunk A) context'))) = true)
    by (now rewrite Hval).
  apply validate_accepted in Hacc. destruct Hacc as [Hne Hall].
  assert (Hreported : forall c, In c (Validator._extract_citations text) ->
            In c (Orchestrator._extract_citations
                    (match warnings with
                     | [] => text
                     | _ => Validator.add_warnings_to_response sign text warnings
                     end) context')).
  { intros c Hc. apply orchestrator_citations_in.
    destruct (validator_citation_occurs _ _ Hc) as [Hnonempty Hocc].
    split; [exact Hnonempty|]. split; [now apply add_warnings_keeps|].
    apply Hall in Hc. rewrite map_map in Hc. apply in_map_iff in Hc.
    destruct Hc as (d & Hd & Hin). exists d. auto. }
  split; [|split].
  - destruct (Validator._extract_citations text) as [|c cs] eqn:E; [congruence|].
    intros Hnil. specialize (Hreported c (or_introl eq_refl)).
    rewrite Hnil in Hreported. destruct Hreported.
  - exists text. split; [exact Hne|]. split; [|exact Hreported].
    destruct warnings as [|w ws]; [exists ""; now rewrite append_nil_r|].
    unfold Validator.add_warnings_to_response. eexists. reflexivity.
  - intros c Hc. now apply orchestrator_citations_in in Hc.
Qed.

Lemma valid_answer_cites_context_witness :
  exists result,
    Orchestrator.query
      (Orchestrator.chat_text "Redis is configured in [docs/cache.md], see the setup.")
      Orchestrator.loads_empty Validator.example_calendar "!"
      Orchestrator.example_orchestrator "how is redis set up" None 5 = Py.Ok result
    /\ Orchestrator.citations result <> [].
Proof.
  destruct (Orchestrator.query
              (Orchestrator.chat_text
                 "Redis is configured in [docs/cache.md], see the setup.")
              Orchestrator.loads_empty Validator.example_calendar "!"
              Orchestrator.example_orchestrator "how is redis set up" None 5)
    as [result|e] eqn:Hrun; [|vm_compute in Hrun; discriminate Hrun].
  exists result. split; [reflexivity|].
  assert (Hfacts : exists context,
             Orchestrator.context_chunks result = Some context
             /\ Orchestrator.is_valid result = true).
  { vm_compute in Hrun. injection Hrun as <-. eexists. split; reflexivity. }
  destruct Hfacts as (context & Hctx & Hvalid).
  exact (proj1 (@valid_answer_cites_context Num.exact _ _ _ _ _ _ _ _ context result
                  Hrun Hctx Hvalid)).
Defined.

(* ------------------------------------------------------------------ *)
(** ** Parser: what is kept of a code file *)

Lemma parse_plain_lines (lines : list string) (st : Parser.state) :
  Parser.in_docstring st = false ->
  (forall line, In line lines -> Parser.has_quotes (Str.strip line) = false) ->
  fold_left Parser.step lines st
  = {| Parser.extracted_content :=
         (Parser.extracted_content st
            ++ filter Parser.is_comment (map Str.strip lines))%list;
       Parser.in_docstring := false;
       Parser.docstring_lines := Parser.docstring_lines st |}.
Proof.
  revert st. induction lines as [|line lines IH]; intros st Hout Hplain.
  - simpl. rewrite app_nil_r. destruct st. simpl in Hout. now subst.
  - cbn [fold_left map filter]. rewrite IH.
    + unfold Parser.step. rewrite (Hplain line (or_introl eq_refl)), Hout.
      destruct (Parser.is_comment (Str.strip line)); cbn; [|reflexivity].
      now rewrite <- app_assoc.
    + unfold Parser.step. rewrite (Hplain line (or_introl eq_refl)), Hout.
      destruct (Parser.is_comment (Str.strip line)); [reflexivity | exact Hout].
    + intros l Hl. apply Hplain. now right.
Qed.

Lemma parse_inside_docstring (lines : list string) (st : Parser.state) :
  Parser.in_docstring st = true ->
  (forall line, In line lines -> Parser.has_quotes (Str.strip line) = false) ->
  Parser.extracted_content (fold_left Parser.step lines st)
  = Parser.extracted_content st
  /\ Parser.in_docstring (fold_left Parser.step lines st) = true.
Proof.
  revert st. induction lines as [|line lines IH]; intros st Hin Hplain; [auto|].
  cbn [fold_left].
  assert (Hstep : Parser.step st line
                  = {| Parser.extracted_content := Parser.extracted_content st;
                       Parser.in_docstring := true;
                       Parser.docstring_lines :=
                         (Parser.docstring_lines st ++ [Str.strip line])%list |}).
  { unfold Parser.step. now rewrite (Hplain line (or_introl eq_refl)), Hin. }
  rewrite Hstep.
  destruct (IH {| Parser.extracted_content := Parser.extracted_content st;
                  Parser.in_docstring := true;
                  Parser.docstring_lines :=
                    (Parser.docstring_lines st ++ [Str.strip line])%list |}
               eq_refl (fun l Hl => Hplain l (or_intror Hl))) as [H1 H2].
  split; [exact H1 | exact H2].
Qed.

(** From a code file without triple quotes [_parse_code] keeps the
    comment lines, those that start with [#] or [//] once stripped, in
    order and joined by line breaks; when that is blank it returns the
    first 50 lines of the file as they are. *)
Theorem parse_code_keeps_comments (lines : list string) :
  (forall line, In line lines -> Parser.has_quotes (Str.strip line) = false) ->
  let comments :=
    Py.join Parser.nl (filter Parser.is_comment (map Str.strip lines)) in
  Parser._parse_code lines
  = if negb (Py.truthy (Str.strip comments))
    then String.concat "" (Py.slice_to lines 50)
    else comments.
Proof.
  intros Hplain comments. unfold Parser._parse_code.
  now rewrite (parse_plain_lines lines Parser.initial eq_refl Hplain).
Qed.

Lemma parse_code_keeps_comments_witness :
  Parser._parse_code ["# cache client" ++ Parser.nl; "import redis" ++ Parser.nl;
                      "  // see docs" ++ Parser.nl]
  = "# cache client" ++ Parser.nl ++ "// see docs".
Proof.
  refine (@parse_code_keeps_comments
            ["# cache client" ++ Parser.nl; "import redis" ++ Parser.nl;
             "  // see docs" ++ Parser.nl] _).
  intros line [<-|[<-|[<-|[]]]]; vm_compute; reflexivity.
Defined.

(** A docstring that opens and closes on one line only opens.  If,
    outside a docstring, a line holds triple quotes and no later line does,
    then that line and every line after it are lost, comments included:
    [_parse_code] returns what it extracts from the lines before, or the
    first 50 lines of the file when that is blank. *)
Theorem parse_code_loses_open_docstring (before after : list string) (line : string) :
  Parser.in_docstring (fold_left Parser.step before Parser.initial) = false ->
  Parser.has_quotes (Str.strip line) = true ->
  (forall l, In l after -> Parser.has_quotes (Str.strip l) = false) ->
  let kept :=
    Py.join Parser.nl
      (Parser.extracted_content (fold_left Parser.step before Parser.initial)) in
  Parser._parse_code (before ++ line :: after)
  = if negb (Py.truthy (Str.strip kept))
    then String.concat "" (Py.slice_to (before ++ line :: after) 50)
    else kept.
Proof.
  intros Hout Hline Hafter kept. unfold Parser._parse_code.
  rewrite fold_left_app. cbn [fold_left].
  set (st := fold_left Parser.step before Parser.initial) in *.
  assert (Hstep : Parser.step st line
                  = {| Parser.extracted_content := Parser.extracted_content st;
                       Parser.in_docstring := true;
                       Parser.docstring_lines := [Str.strip line] |}).
  { unfold Parser.step. now rewrite Hline, Hout. }
  rewrite Hstep.
  destruct (parse_inside_docstring after
              {| Parser.extracted_content := Parser.extracted_content st;
                 Parser.in_docstring := true;
                 Parser.docstring_lines := [Str.strip line] |} eq_refl Hafter)
    as [-> _].
  reflexivity.
Qed.

Lemma parse_code_loses_open_docstring_witness :
  Parser._parse_code
    (["# cache client" ++ Parser.nl]
       ++ ("'''One line.'''" ++ Parser.nl)
       :: ["# the comment that is lost" ++ Parser.nl; "x = 1" ++ Parser.nl])
  = "# cache client".
Proof.
  refine (@parse_code_loses_open_docstring
            ["# cache client" ++ Parser.nl]
            ["# the comment that is lost" ++ Parser.nl; "x = 1" ++ Parser.nl]
            ("'''One line.'''" ++ Parser.nl) _ _ _).
  - vm_compute. reflexivity.
  - vm_compute. reflexivity.
  - intros l [<-|[<-|[]]]; vm_compute; reflexivity.
Defined.
